(** * monarch-money-api: session lifecycle and request construction

    A shallow embedding of the client library: the module-level
    credential store (session.js), the login handshake (login module),
    the request builders of api.js and the class port [MonarchMoney].

    JavaScript values are an inductive type with the language's
    truthiness, string coercion and property access written out; the
    asynchronous functions are computations in a state-and-exception
    monad over an explicit machine (program state, clock, log of the
    requests dispatched, files), run against a [world] that answers
    each request from the history so far. *)

From Stdlib Require Import Ascii.
From stdpp Require Import gmap strings list pretty.

Set Warnings "-register-all".

Open Scope string_scope.
Open Scope Z_scope.

(** ** JavaScript values *)

Module JS.

(** The error classes the code constructs: the three exported exception
    classes ([class X extends Error {}]), plain [Error], and the two
    built-in errors the runtime raises on a bad call or an unbound name. *)
Inductive error_class :=
| RequireMFAException
| LoginFailedException
| RequestFailedException
| Error
| TypeError
| ReferenceError.

(** Numbers are restricted to integers. An error object is its class
    and its [message], which the [Error] constructor stores as a string. *)
Inductive value :=
| VUndefined
| VNull
| VBool (b : bool)
| VNum (n : Z)
| VStr (s : string)
| VArr (items : list value)
| VObj (fields : list (string * value))
| VError (cls : error_class) (message : string).

Inductive outcome (A : Type) :=
| Return (a : A)
| Throw (e : value).
Arguments Return {A} a.
Arguments Throw {A} e.

Definition error_class_eqb (a b : error_class) : bool :=
  match a, b with
  | RequireMFAException, RequireMFAException
  | LoginFailedException, LoginFailedException
  | RequestFailedException, RequestFailedException
  | Error, Error
  | TypeError, TypeError
  | ReferenceError, ReferenceError => true
  | _, _ => false
  end.

(** [Error.prototype.name]: the subclasses declare no name of their own. *)
Definition error_name (c : error_class) : string :=
  match c with
  | TypeError => "TypeError"
  | ReferenceError => "ReferenceError"
  | _ => "Error"
  end.

(** ToBoolean *)
Definition truthy (v : value) : bool :=
  match v with
  | VUndefined | VNull => false
  | VBool b => b
  | VNum n => negb (n =? 0)
  | VStr s => negb (String.eqb s "")
  | VArr _ | VObj _ | VError _ _ => true
  end.

(** [v === null] *)
Definition is_null (v : value) : bool :=
  match v with VNull => true | _ => false end.

(** ToString, as used by template literals and by [new Error(message)]. *)
Fixpoint to_string (v : value) : string :=
  match v with
  | VUndefined => "undefined"
  | VNull => "null"
  | VBool true => "true"
  | VBool false => "false"
  | VNum n => pretty n
  | VStr s => s
  | VArr items =>
      String.concat ","
        (map (fun x => match x with
                       | VUndefined | VNull => ""
                       | _ => to_string x
                       end) items)
  | VObj _ => "[object Object]"
  | VError cls message =>
      if String.eqb message "" then error_name cls
      else error_name cls +:+ ": " +:+ message
  end.

(** [new C(message)] for [C] an error class: the message is coerced to a
    string unless it is [undefined]. *)
Definition new_error (cls : error_class) (message : value) : value :=
  match message with
  | VUndefined => VError cls ""
  | _ => VError cls (to_string message)
  end.

(** [Boolean(v)] *)
Definition Boolean (v : value) : value := VBool (truthy v).

(** SameValueZero, the comparison of [Array.prototype.includes].
    Arrays, objects and errors compare by identity; the two sides of
    every comparison in this library are separate allocations. *)
Definition same_value_zero (a b : value) : bool :=
  match a, b with
  | VUndefined, VUndefined => true
  | VNull, VNull => true
  | VBool x, VBool y => Bool.eqb x y
  | VNum x, VNum y => x =? y
  | VStr x, VStr y => String.eqb x y
  | _, _ => false
  end.

Definition includes (items : list value) (x : value) : bool :=
  existsb (same_value_zero x) items.

(** Own properties of an object literal. *)
Fixpoint obj_get (fields : list (string * value)) (k : string) : value :=
  match fields with
  | [] => VUndefined
  | (k', v) :: rest => if String.eqb k' k then v else obj_get rest k
  end.

Fixpoint obj_has (fields : list (string * value)) (k : string) : bool :=
  match fields with
  | [] => false
  | (k', _) :: rest => String.eqb k' k || obj_has rest k
  end.

(** [o.k = v]: overwrite in place, or append a new property. *)
Fixpoint obj_set (fields : list (string * value)) (k : string) (v : value)
  : list (string * value) :=
  match fields with
  | [] => [(k, v)]
  | (k', v') :: rest =>
      if String.eqb k' k then (k, v) :: rest else (k', v') :: obj_set rest k v
  end.

Definition obj_keys (fields : list (string * value)) : list string :=
  map fst fields.

(** [v.k]: a TypeError on [null] and [undefined], the own property of an
    object, [undefined] on anything else. *)
Definition prop (v : value) (k : string) : outcome value :=
  match v with
  | VUndefined =>
      Throw (VError TypeError
               ("Cannot read properties of undefined (reading '" +:+ k +:+ "')"))
  | VNull =>
      Throw (VError TypeError
               ("Cannot read properties of null (reading '" +:+ k +:+ "')"))
  | VObj fields => Return (obj_get fields k)
  | VError _ message => Return (if String.eqb k "message" then VStr message else VUndefined)
  | _ => Return VUndefined
  end.

(** The one-character string holding a double quote. *)
Definition dquote : string := String (Ascii.ascii_of_nat 34) EmptyString.

(** [a || b] on values *)
Definition or_else (a b : value) : value := if truthy a then a else b.

End JS.
Export JS.

(** ** The host: requests, the remote world, the machine *)

(** A request as handed to the HTTP layer. [HttpPost] is the plain call
    of the login and upload endpoints, [GraphQL] the query call of
    [GraphQLClient.request(document, variables)]. *)
Inductive request :=
| HttpPost (url : string) (headers : gmap string string) (body : value)
| GraphQL (url : string) (headers : gmap string string) (timeout : Z)
          (document : value) (variables : value).

Definition request_headers (r : request) : gmap string string :=
  match r with
  | HttpPost _ h _ => h
  | GraphQL _ h _ _ _ => h
  end.

(** The variables of a query call. *)
Definition request_variables (r : request) : value :=
  match r with
  | GraphQL _ _ _ _ variables => variables
  | HttpPost _ _ _ => VUndefined
  end.

Definition request_document (r : request) : value :=
  match r with
  | GraphQL _ _ _ document _ => document
  | HttpPost _ _ _ => VUndefined
  end.

(** A [fetch] response: [json] is the result of [response.json()]. *)
Record fetch_response := {
  f_status : Z;
  f_statusText : string;
  f_json : outcome value;
}.

(** An axios response. *)
Record axios_response := {
  a_status : Z;
  a_statusText : string;
  a_data : value;
}.

(** Everything the library calls but does not define. The remote
    service answers a request from the history of requests already
    dispatched; a transport failure or an error payload is a [Throw].
    The calendar functions stand for the [Date] arithmetic of the
    default ranges, read at a clock value in the host's time zone. *)
Record world := {
  fetch : list request -> request -> outcome fetch_response;
  axios_post : list request -> request -> outcome axios_response;
  graphql_request : list request -> request -> outcome value;
  (** milliseconds a request takes *)
  latency : list request -> request -> Z;
  (** milliseconds that pass before a [setTimeout] of the given length fires *)
  timer : Z -> Z;
  (** [require('oathtool').generate_otp] *)
  generate_otp : value -> outcome value;
  JSON_stringify : value -> string;
  JSON_parse : string -> outcome value;
  (** [new Date(y, m + k, d).toISOString().split("T")[0]] for the year
      [y] and month [m] of the clock reading *)
  month_day : Z -> Z -> Z -> string;
  (** [new Date().toISOString().split("T")[0]] *)
  today : Z -> string;
  (** the same after [setDate(getDate() - n)] *)
  days_ago : Z -> Z -> string;
  (** [`${y}-${m + 1}-01`] after [setFullYear(getFullYear() - n)] *)
  years_ago_month : Z -> Z -> string;
  (** [new Date()] at a clock reading, as a value *)
  new_Date : Z -> value;
  (** [d.toISOString().split("T")[0]] *)
  toISODate : value -> outcome value;
  (** [Math.round(amount * 100) / 100] *)
  round_cents : value -> value;
  (** [form.getHeaders()] of a multipart form *)
  form_headers : gmap string string;
}.

(** The machine: the program's own state [P] (the credential store of
    session.js, or a [MonarchMoney] instance), the wall clock in
    milliseconds, the requests dispatched so far in order, the files. *)
Record machine (P : Type) := Machine {
  prog : P;
  clock : Z;
  sent : list request;
  files : gmap string string;
}.
Arguments Machine {P} _ _ _ _.
Arguments prog {P} _.
Arguments clock {P} _.
Arguments sent {P} _.
Arguments files {P} _.

(** ** The computation monad *)

Definition M (P A : Type) : Type := world -> machine P -> outcome A * machine P.

Definition ret {P A} (a : A) : M P A := fun _ m => (Return a, m).

Definition bind {P A B} (c : M P A) (k : A -> M P B) : M P B :=
  fun W m =>
    match c W m with
    | (Return a, m') => k a W m'
    | (Throw e, m') => (Throw e, m')
    end.

Notation "'let*' x := c 'in' k" := (bind c (fun x => k))
  (at level 10, x name, c at level 100, k at level 200).

(** [throw e] *)
Definition throw {P A} (e : value) : M P A := fun _ m => (Throw e, m).

(** A pure step that may throw (a property access). *)
Definition lift {P A} (o : outcome A) : M P A := fun _ m => (o, m).

(** [p.catch(h)] / [try { c } catch (e) { h e }] *)
Definition catch {P A} (c : M P A) (h : value -> M P A) : M P A :=
  fun W m =>
    match c W m with
    | (Return a, m') => (Return a, m')
    | (Throw e, m') => h e W m'
    end.

Definition get_prog {P} : M P P := fun _ m => (Return (prog m), m).

Definition set_prog {P} (p : P) : M P unit :=
  fun _ m => (Return tt, Machine p (clock m) (sent m) (files m)).

Definition ask {P A} (f : world -> A) : M P A := fun W m => (Return (f W), m).

(** [Date.now()] *)
Definition Date_now {P} : M P Z := fun _ m => (Return (clock m), m).

(** [await new Promise(resolve => setTimeout(resolve, ms))] *)
Definition sleep {P} (ms : Z) : M P unit :=
  fun W m => (Return tt, Machine (prog m) (clock m + timer W ms) (sent m) (files m)).

(** Dispatching a request: it is appended to the log, the clock moves
    by the request's latency, and the world's answer comes back. *)
Definition dispatch {P A} (answer : world -> list request -> request -> outcome A)
    (r : request) : M P A :=
  fun W m =>
    (answer W (sent m) r,
     Machine (prog m) (clock m + latency W (sent m) r) (sent m ++ [r]) (files m)).

Definition readFileSync {P} (filename : string) : M P string :=
  fun _ m =>
    match files m !! filename with
    | Some s => (Return s, m)
    | None =>
        (Throw (VError Error ("ENOENT: no such file or directory, open '" +:+ filename +:+ "'")), m)
    end.

Definition writeFileSync {P} (filename : string) (content : string) : M P unit :=
  fun _ m => (Return tt, Machine (prog m) (clock m) (sent m) (<[filename := content]> (files m))).

Definition existsSync {P} (filename : string) : M P bool :=
  fun _ m => (Return (bool_decide (is_Some (files m !! filename))), m).

Definition unlinkSync {P} (filename : string) : M P unit :=
  fun _ m => (Return tt, Machine (prog m) (clock m) (sent m) (delete filename (files m))).

(** Calling a property that holds no function. *)
Definition call_undefined {P A} (callee : string) (args : list value) : M P A :=
  throw (VError TypeError (callee +:+ " is not a function")).

(** ** constants.js *)

Definition ENV_TOKEN_KEY : string := "MONARCH_TOKEN".
Definition AUTH_HEADER_KEY : string := "Authorization".
Definition ERRORS_KEY : string := "error_code".
Definition BASE_URL : string := "https://api.monarchmoney.com".
Definition GQL_ENDPOINT : string := BASE_URL +:+ "/graphql".

Module MonarchMoneyEndpoints.
Definition getLoginEndpoint : string := BASE_URL +:+ "/auth/login/".
Definition getGraphQL : string := BASE_URL +:+ "/graphql".
Definition getAccountBalanceHistoryUploadEndpoint : string :=
    BASE_URL +:+ "/account-balance-history/upload/".
End MonarchMoneyEndpoints.

(** [h[k]] on a header object, as a value *)
Definition header (h : gmap string string) (k : string) : value :=
  match h !! k with
  | Some s => VStr s
  | None => VUndefined
  end.

(** ** session.js: the credential store *)

Module Session.

Record t := Store {
  headers : gmap string string;
  token : value;
}.

(** Module initialisation, given [process.env]. *)
Definition init (env : gmap string string) : t :=
  let headers : gmap string string := {[ "Client-Platform" := "web" ]} in
  let headers :=
    if truthy (header env ENV_TOKEN_KEY)
    then <[ "Authorization" := "Token " +:+ to_string (header env ENV_TOKEN_KEY) ]> headers
    else headers in
  {| headers := headers; token := VNull |}.

Definition setToken (newToken : value) : M t unit :=
  let* s := get_prog in
  set_prog {| headers := <[ "Authorization" := "Token " +:+ to_string newToken ]> (headers s);
              token := newToken |}.

Definition getHeaders : M t (gmap string string) :=
  let* s := get_prog in ret (headers s).

Definition getToken : M t value :=
  let* s := get_prog in ret (token s).

End Session.

(** ** The login module (functional API) *)

Module Auth.
Import Session.

(** [new URLSearchParams({...})]: every value is stored as a string. *)
Definition URLSearchParams (fields : list (string * value)) : list (string * value) :=
  map (fun kv => (fst kv, VStr (to_string (snd kv)))) fields.

Definition loginUser (email password mfaSecretKey : value) : M t unit :=
  let data := URLSearchParams
                [("password", password);
                 ("supports_mfa", VBool true);
                 ("trusted_device", VBool false);
                 ("username", email)] in
  let* data := (if truthy mfaSecretKey
           then (* generateOtp is neither defined nor imported in the module *)
             throw (VError ReferenceError "generateOtp is not defined")
           else ret data) in
  let* headers := getHeaders in
  let* response := dispatch fetch
                (HttpPost MonarchMoneyEndpoints.getLoginEndpoint headers (VObj data)) in
  if f_status response =? 403 then
    throw (new_error RequireMFAException (VStr "Multi-Factor Auth Required"))
  else if negb (f_status response =? 200) then
    throw (new_error LoginFailedException
             (VStr ("HTTP Code " +:+ pretty (f_status response) +:+ ": "
                    +:+ f_statusText response)))
  else
    let* json := lift (f_json response) in
    let* tok := lift (prop json "token") in
    setToken tok.

Definition multiFactorAuthenticate (email password code : value) : M t unit :=
  let data := URLSearchParams
                [("password", password);
                 ("supports_mfa", VBool true);
                 ("totp", code);
                 ("trusted_device", VBool false);
                 ("username", email)] in
  let* headers := getHeaders in
  let* response := dispatch fetch
                (HttpPost MonarchMoneyEndpoints.getLoginEndpoint headers (VObj data)) in
  if negb (f_status response =? 200) then
    let* json := lift (f_json response) in
    let* code := lift (prop json ERRORS_KEY) in
    let errorMessage := if truthy code then code else VStr "Unknown error" in
    throw (new_error LoginFailedException errorMessage)
  else
    let* json := lift (f_json response) in
    let* tok := lift (prop json "token") in
    setToken tok.

End Auth.

(** ** Pure steps that may throw *)

Definition obind {A B} (o : outcome A) (k : A -> outcome B) : outcome B :=
  match o with
  | Return a => k a
  | Throw e => Throw e
  end.

Notation "'let+' x := c 'in' k" := (obind c (fun x => k))
  (at level 10, x name, c at level 100, k at level 200).

(** A parameter with a default: the default applies to [undefined]. *)
Definition dflt (v d : value) : value :=
  match v with VUndefined => d | _ => v end.

(** A destructured parameter [{ k = d }] of the argument object. *)
Definition param (args : value) (k : string) (d : value) : outcome value :=
  let+ v := prop args k in Return (dflt v d).

(** The receiver of an array method ([v.map], [v.every], [v.forEach]). *)
Definition array_method (v : value) (name : string) : outcome (list value) :=
  match v with
  | VArr items => Return items
  | VUndefined | VNull => let+ _ := prop v name in Return []
  | _ => Throw (VError TypeError (name +:+ " is not a function"))
  end.

(** [items.every(f)]: stops at the first element that fails. *)
Fixpoint every (f : value -> outcome bool) (items : list value) : outcome bool :=
  match items with
  | [] => Return true
  | x :: rest => let+ b := f x in if b then every f rest else Return false
  end.

(** [items.map(f)] *)
Fixpoint array_map (f : value -> outcome value) (items : list value)
  : outcome (list value) :=
  match items with
  | [] => Return []
  | x :: rest =>
      let+ y := f x in
      let+ ys := array_map f rest in
      Return (y :: ys)
  end.

Fixpoint contains (s sub : string) : bool :=
  String.prefix sub s ||
  match s with
  | EmptyString => false
  | String _ rest => contains rest sub
  end.

(** [c.includes(x)] for a truthy receiver [c]: the array method, the
    string method, or no method at all. *)
Definition includes_of (c x : value) : outcome bool :=
  match c with
  | VArr items => Return (includes items x)
  | VStr s => Return (contains s (to_string x))
  | _ => Throw (VError TypeError "accountIds.includes is not a function")
  end.

(** ** GraphQL documents

    [gql] is the identity template tag: a document is a string. The
    selection sets (the field lists) are elided; the operation header
    with its variable declarations is kept as written. *)

Definition gql (text : string) : value := VStr text.

Definition is_ident_char (c : Ascii.ascii) : bool :=
  let n := Ascii.N_of_ascii c in
  ((48 <=? n) && (n <=? 57) || (65 <=? n) && (n <=? 90)
   || (97 <=? n) && (n <=? 122) || (n =? 95))%N.

Fixpoint take_ident (s : string) : string :=
  match s with
  | EmptyString => EmptyString
  | String c rest => if is_ident_char c then String c (take_ident rest) else EmptyString
  end.

(** The variables an operation header declares: the names after [$]
    before the opening brace. *)
Fixpoint declared_variables (s : string) : list string :=
  match s with
  | EmptyString => []
  | String c rest =>
      if Ascii.eqb c "{"%char then []
      else if Ascii.eqb c "$"%char then take_ident rest :: declared_variables rest
      else declared_variables rest
  end.

Module Documents.
Definition GetAccounts := gql "query GetAccounts { accounts householdPreferences }".
Definition GetAccountTypeOptions := gql "query GetAccountTypeOptions { accountTypeOptions }".
Definition GetAccountRecentBalances :=
  gql "query GetAccountRecentBalances($startDate: Date!) { accounts }".
Definition Web_GetHoldings := gql "query Web_GetHoldings($input: PortfolioInput) { portfolio }".
Definition AccountDetails_getAccount :=
  gql "query AccountDetails_getAccount($id: UUID!, $filters: TransactionFilterInput) { account }".
Definition GetSubscriptionDetails := gql "query GetSubscriptionDetails { subscription }".
Definition Web_GetInstitutionSettings := gql "query Web_GetInstitutionSettings { credentials }".
Definition GetSnapshotsByAccountType :=
  gql "query GetSnapshotsByAccountType($startDate: Date!, $timeframe: Timeframe!) { snapshotsByAccountType }".
Definition GetAggregateSnapshots :=
  gql "query GetAggregateSnapshots($filters: AggregateSnapshotFilters) { aggregateSnapshots }".
Definition GetJointPlanningData :=
  gql "query GetJointPlanningData($startDate: Date!, $endDate: Date!, $useLegacyGoals: Boolean!, $useV2Goals: Boolean!) { budgetData }".
Definition GetTransactionsList :=
  gql "query GetTransactionsList($offset: Int, $limit: Int, $filters: TransactionFilterInput, $orderBy: TransactionOrdering) { allTransactions }".
Definition GetTransactionsPage :=
  gql "query GetTransactionsPage($filters: TransactionFilterInput) { aggregates }".
Definition Web_GetUpcomingRecurringTransactionItems :=
  gql "query Web_GetUpcomingRecurringTransactionItems($startDate: Date!, $endDate: Date!, $filters: RecurringTransactionFilter) { recurringTransactionItems }".
Definition GetCategories := gql "query GetCategories { categories }".
Definition ManageGetCategoryGroups := gql "query ManageGetCategoryGroups { categoryGroups }".
Definition GetHouseholdTransactionTags :=
  gql "query GetHouseholdTransactionTags($search: String, $limit: Int, $bulkParams: BulkTransactionDataParams) { householdTransactionTags }".
Definition GetTransactionDrawer :=
  gql "query GetTransactionDrawer($id: UUID!, $redirectPosted: Boolean) { getTransaction }".
Definition TransactionSplitQuery := gql "query TransactionSplitQuery($id: UUID!) { getTransaction }".
Definition Web_GetCashFlowPage :=
  gql "query Web_GetCashFlowPage($filters: TransactionFilterInput) { byCategory byCategoryGroup byMerchant summary }".
Definition Web_GetCashFlowPage_summary :=
  gql "query Web_GetCashFlowPage($filters: TransactionFilterInput) { summary }".
Definition Web_DeleteCategory :=
  gql "mutation Web_DeleteCategory($id: UUID!, $moveToCategoryId: UUID) { deleteCategory }".
Definition Web_CreateCategory :=
  gql "mutation Web_CreateCategory($input: CreateCategoryInput!) { createCategory }".
Definition Common_CreateTransactionTag :=
  gql "mutation Common_CreateTransactionTag($input: CreateTransactionTagInput!) { createTransactionTag }".
Definition Web_SetTransactionTags :=
  gql "mutation Web_SetTransactionTags($input: SetTransactionTagsInput!) { setTransactionTags }".
Definition Common_SplitTransactionMutation :=
  gql "mutation Common_SplitTransactionMutation($input: UpdateTransactionSplitMutationInput!) { updateTransactionSplit }".
Definition Web_TransactionDrawerUpdateTransaction :=
  gql "mutation Web_TransactionDrawerUpdateTransaction($input: UpdateTransactionMutationInput!) { updateTransaction }".
Definition Common_UpdateBudgetItem :=
  gql "mutation Common_UpdateBudgetItem($input: UpdateOrCreateBudgetItemMutationInput!) { updateOrCreateBudgetItem }".
Definition Common_DeleteTransactionMutation :=
  gql "mutation Common_DeleteTransactionMutation($input: DeleteTransactionMutationInput!) { deleteTransaction }".
Definition Common_CreateTransactionMutation :=
  gql "mutation Common_CreateTransactionMutation($input: CreateTransactionMutationInput!) { createTransaction }".
Definition Web_CreateManualAccount :=
  gql "mutation Web_CreateManualAccount($input: CreateManualAccountMutationInput!) { createManualAccount }".
Definition Common_UpdateAccount :=
  gql "mutation Common_UpdateAccount($input: UpdateAccountMutationInput!) { updateAccount }".
Definition Common_DeleteAccount := gql "mutation Common_DeleteAccount($id: UUID!) { deleteAccount }".
Definition Common_ForceRefreshAccountsMutation :=
  gql "mutation Common_ForceRefreshAccountsMutation($input: ForceRefreshAccountsInput!) { forceRefreshAccounts }".
Definition ForceRefreshAccountsQuery := gql "query ForceRefreshAccountsQuery { accounts }".
Definition IntrospectionQuery := gql "query IntrospectionQuery { __schema }".
End Documents.

Definition DATE_RANGE_MESSAGE : string :=
  "You must specify both a startDate and endDate, not just one of them.".

(** ** The request builders

    The functions of api.js and the methods of the class have the same
    bodies up to the receiver of [gqlCall]; they are written once over
    the dispatcher. The operations that differ between the two
    ([getBudgets], [deleteTransactionCategories],
    [uploadAccountBalanceHistory]) are in the modules below. *)

Module Operations.
Section Dispatcher.
Context {P : Type}.
Variable gqlCall : string -> value -> value -> M P value.

(** A calendar string computed from [new Date()]. *)
Definition calendar (f : world -> Z -> string) : M P value :=
  let* now := Date_now in
  let* s := ask (fun W => f W now) in
  ret (VStr s).

Definition getAccounts : M P value :=
  gqlCall "GetAccounts" Documents.GetAccounts VUndefined.

Definition getAccountTypeOptions : M P value :=
  gqlCall "GetAccountTypeOptions" Documents.GetAccountTypeOptions VUndefined.

Definition getRecentAccountBalances (startDate : value) : M P value :=
  let startDate := dflt startDate VNull in
  let* startDate :=
    (if negb (truthy startDate)
     then calendar (fun W now => days_ago W now 31)
     else ret startDate) in
  gqlCall "GetAccountRecentBalances" Documents.GetAccountRecentBalances
    (VObj [("startDate", startDate)]).

Definition getAccountHoldings (accountId : value) : M P value :=
  let* endDate := calendar today in
  let* startDate := calendar today in
  let variables :=
    VObj [("input", VObj [("accountIds", VArr [accountId]);
                          ("endDate", endDate);
                          ("includeHiddenHoldings", VBool true);
                          ("startDate", startDate)])] in
  gqlCall "Web_GetHoldings" Documents.Web_GetHoldings variables.

(** [i.accountId = accountId; i.accountName = accountName] on an element
    of the snapshot list (module code is strict). Named properties put
    on an array or an error object are not represented. *)
Definition tag_snapshot (accountId accountName i : value) : outcome value :=
  match i with
  | VObj fields =>
      Return (VObj (obj_set (obj_set fields "accountId" accountId) "accountName" accountName))
  | VUndefined =>
      Throw (VError TypeError "Cannot set properties of undefined (setting 'accountId')")
  | VNull =>
      Throw (VError TypeError "Cannot set properties of null (setting 'accountId')")
  | VArr _ | VError _ _ => Return i
  | _ => Throw (VError TypeError "Cannot create property 'accountId'")
  end.

Definition getAccountHistory (accountId : value) : M P value :=
  let variables := VObj [("id", accountId)] in
  let* accountDetails :=
    gqlCall "AccountDetails_getAccount" Documents.AccountDetails_getAccount variables in
  let* account := lift (prop accountDetails "account") in
  let* accountName := lift (prop account "displayName") in
  let* accountBalanceHistory := lift (prop accountDetails "snapshots") in
  let* items := lift (array_method accountBalanceHistory "forEach") in
  let* items := lift (array_map (tag_snapshot accountId accountName) items) in
  ret (VArr items).

Definition getSubscriptionDetails : M P value :=
  gqlCall "GetSubscriptionDetails" Documents.GetSubscriptionDetails VUndefined.

Definition getInstitutions : M P value :=
  gqlCall "Web_GetInstitutionSettings" Documents.Web_GetInstitutionSettings VUndefined.

Definition getAccountSnapshotsByType (startDate timeframe : value) : M P value :=
  if negb (includes [VStr "year"; VStr "month"] timeframe) then
    throw (new_error Error
             (VStr ("Unknown timeframe " +:+ dquote +:+ to_string timeframe +:+ dquote)))
  else
    gqlCall "GetSnapshotsByAccountType" Documents.GetSnapshotsByAccountType
      (VObj [("startDate", startDate); ("timeframe", timeframe)]).

Definition getAggregateSnapshots (startDate endDate accountType : value) : M P value :=
  let startDate := dflt startDate VNull in
  let endDate := dflt endDate VNull in
  let accountType := dflt accountType VNull in
  let* startDate :=
    (if negb (truthy startDate)
     then calendar (fun W now => years_ago_month W now 150)
     else ret startDate) in
  gqlCall "GetAggregateSnapshots" Documents.GetAggregateSnapshots
    (VObj [("filters", VObj [("startDate", startDate);
                            ("endDate", endDate);
                            ("accountType", accountType)])]).

(** [if (v !== null) o.k = v] *)
Definition set_unless_null (fields : list (string * value)) (k : string) (v : value)
  : list (string * value) :=
  if negb (is_null v) then obj_set fields k v else fields.

(** [if (v) o.k = v] *)
Definition set_if_truthy (fields : list (string * value)) (k : string) (v : value)
  : list (string * value) :=
  if truthy v then obj_set fields k v else fields.

Definition getTransactions (args : value) : M P value :=
  let* limit := lift (param args "limit" (VNum 100)) in
  let* offset := lift (param args "offset" (VNum 0)) in
  let* startDate := lift (param args "startDate" VNull) in
  let* endDate := lift (param args "endDate" VNull) in
  let* search := lift (param args "search" (VStr "")) in
  let* categoryIds := lift (param args "categoryIds" (VArr [])) in
  let* accountIds := lift (param args "accountIds" (VArr [])) in
  let* tagIds := lift (param args "tagIds" (VArr [])) in
  let* hasAttachments := lift (param args "hasAttachments" VNull) in
  let* hasNotes := lift (param args "hasNotes" VNull) in
  let* hiddenFromReports := lift (param args "hiddenFromReports" VNull) in
  let* isSplit := lift (param args "isSplit" VNull) in
  let* isRecurring := lift (param args "isRecurring" VNull) in
  let* importedFromMint := lift (param args "importedFromMint" VNull) in
  let* syncedFromInstitution := lift (param args "syncedFromInstitution" VNull) in
  let filters := [("search", search);
                  ("categories", categoryIds);
                  ("accounts", accountIds);
                  ("tags", tagIds)] in
  let filters := set_unless_null filters "hasAttachments" hasAttachments in
  let filters := set_unless_null filters "hasNotes" hasNotes in
  let filters := set_unless_null filters "hideFromReports" hiddenFromReports in
  let filters := set_unless_null filters "isRecurring" isRecurring in
  let filters := set_unless_null filters "isSplit" isSplit in
  let filters := set_unless_null filters "importedFromMint" importedFromMint in
  let filters := set_unless_null filters "syncedFromInstitution" syncedFromInstitution in
  let variables filters :=
    VObj [("offset", offset); ("limit", limit); ("orderBy", VStr "date");
          ("filters", VObj filters)] in
  if truthy startDate && truthy endDate then
    let filters := obj_set filters "startDate" startDate in
    let filters := obj_set filters "endDate" endDate in
    gqlCall "GetTransactionsList" Documents.GetTransactionsList (variables filters)
  else if truthy startDate || truthy endDate then
    throw (new_error Error (VStr DATE_RANGE_MESSAGE))
  else
    gqlCall "GetTransactionsList" Documents.GetTransactionsList (variables filters).

Definition getTransactionsSummary : M P value :=
  gqlCall "GetTransactionsPage" Documents.GetTransactionsPage VUndefined.

Definition getRecurringTransactions (startDate endDate : value) : M P value :=
  let startDate := dflt startDate VNull in
  let endDate := dflt endDate VNull in
  let variables := [("startDate", startDate); ("endDate", endDate)] in
  if xorb (is_null startDate) (is_null endDate) then
    throw (new_error Error (VStr DATE_RANGE_MESSAGE))
  else if is_null startDate && is_null endDate then
    let* startOfMonth := calendar (fun W now => month_day W now 0 1) in
    let* endOfMonth := calendar (fun W now => month_day W now 1 0) in
    let variables := obj_set variables "startDate" startOfMonth in
    let variables := obj_set variables "endDate" endOfMonth in
    gqlCall "Web_GetUpcomingRecurringTransactionItems"
      Documents.Web_GetUpcomingRecurringTransactionItems (VObj variables)
  else
    gqlCall "Web_GetUpcomingRecurringTransactionItems"
      Documents.Web_GetUpcomingRecurringTransactionItems (VObj variables).

Definition getTransactionCategories : M P value :=
  gqlCall "GetCategories" Documents.GetCategories VUndefined.

Definition getTransactionCategoryGroups : M P value :=
  gqlCall "ManageGetCategoryGroups" Documents.ManageGetCategoryGroups VUndefined.

Definition getTransactionTags : M P value :=
  gqlCall "GetHouseholdTransactionTags" Documents.GetHouseholdTransactionTags VUndefined.

(** The source passes [variables] in the document position and the
    document in the variables position. *)
Definition getTransactionDetails (transactionId redirectPosted : value) : M P value :=
  let redirectPosted := dflt redirectPosted (VBool true) in
  let query := Documents.GetTransactionDrawer in
  let variables := VObj [("id", transactionId); ("redirectPosted", redirectPosted)] in
  gqlCall "GetTransactionDrawer" variables query.

Definition getTransactionSplits (transactionId : value) : M P value :=
  let variables := VObj [("id", transactionId)] in
  gqlCall "TransactionSplitQuery" Documents.TransactionSplitQuery variables.

(** The body shared by [getCashflow] and [getCashflowSummary], which
    differ in the document only. *)
Definition cashflow_call (query : value) (args : value) : M P value :=
  let* limit := lift (param args "limit" (VNum 100)) in
  let* startDate := lift (param args "startDate" VNull) in
  let* endDate := lift (param args "endDate" VNull) in
  let filters := [("search", VStr "");
                  ("categories", VArr []);
                  ("accounts", VArr []);
                  ("tags", VArr [])] in
  let variables filters :=
    VObj [("limit", limit); ("orderBy", VStr "date"); ("filters", VObj filters)] in
  if truthy startDate && truthy endDate then
    let filters := obj_set filters "startDate" startDate in
    let filters := obj_set filters "endDate" endDate in
    gqlCall "Web_GetCashFlowPage" query (variables filters)
  else if truthy startDate || truthy endDate then
    throw (new_error Error (VStr DATE_RANGE_MESSAGE))
  else
    let* startOfMonth := calendar (fun W now => month_day W now 0 1) in
    let* endOfMonth := calendar (fun W now => month_day W now 1 0) in
    let filters := obj_set filters "startDate" startOfMonth in
    let filters := obj_set filters "endDate" endOfMonth in
    gqlCall "Web_GetCashFlowPage" query (variables filters).

Definition getCashflow (args : value) : M P value :=
  cashflow_call Documents.Web_GetCashFlowPage args.

Definition getCashflowSummary (args : value) : M P value :=
  cashflow_call Documents.Web_GetCashFlowPage_summary args.

(** *** Mutations *)

Definition deleteTransactionCategory (categoryId : value) : M P value :=
  let variables := VObj [("id", categoryId)] in
  let* response := gqlCall "Web_DeleteCategory" Documents.Web_DeleteCategory variables in
  let* deleteCategory := lift (prop response "deleteCategory") in
  let* deleted := lift (prop deleteCategory "deleted") in
  if negb (truthy deleted) then
    let* errors := lift (prop deleteCategory "errors") in
    throw (new_error RequestFailedException errors)
  else ret (VBool true).

Definition createTransactionCategory (args : value) : M P value :=
  let* groupId := lift (prop args "groupId") in
  let* transactionCategoryName := lift (prop args "transactionCategoryName") in
  let* rolloverStartMonth := lift (prop args "rolloverStartMonth") in
  let* rolloverStartMonth :=
    (match rolloverStartMonth with
     | VUndefined => let* now := Date_now in ask (fun W => new_Date W now)
     | _ => ret rolloverStartMonth
     end) in
  let* icon := lift (param args "icon" (VStr "❓")) in
  let* rolloverEnabled := lift (param args "rolloverEnabled" (VBool false)) in
  let* rolloverType := lift (param args "rolloverType" (VStr "monthly")) in
  let* iso := ask (fun W => toISODate W rolloverStartMonth) in
  let* iso := lift iso in
  let variables :=
    VObj [("input", VObj [("group", groupId);
                          ("name", transactionCategoryName);
                          ("icon", icon);
                          ("rolloverEnabled", rolloverEnabled);
                          ("rolloverType", rolloverType);
                          ("rolloverStartMonth", iso)])] in
  gqlCall "Web_CreateCategory" Documents.Web_CreateCategory variables.

Definition createTransactionTag (name color : value) : M P value :=
  let variables := VObj [("input", VObj [("name", name); ("color", color)])] in
  gqlCall "Common_CreateTransactionTag" Documents.Common_CreateTransactionTag variables.

Definition setTransactionTags (transactionId tagIds : value) : M P value :=
  let variables :=
    VObj [("input", VObj [("transactionId", transactionId); ("tagIds", tagIds)])] in
  gqlCall "Web_SetTransactionTags" Documents.Web_SetTransactionTags variables.

Definition updateTransactionSplits (transactionId splitData : value) : M P value :=
  let variables :=
    VObj [("input", VObj [("transactionId", transactionId);
                          ("splitData", or_else splitData (VArr []))])] in
  gqlCall "Common_SplitTransactionMutation" Documents.Common_SplitTransactionMutation variables.

(** The [input] object [updateTransaction] builds from its parameters
    (defaults applied). *)
Definition updateTransaction_input
    (transactionId categoryId merchantName goalId amount date
       hideFromReports needsReview notes : value) : list (string * value) :=
  let input := [("id", transactionId)] in
  let input := set_if_truthy input "category" categoryId in
  let input := set_if_truthy input "name" merchantName in
  let input := set_unless_null input "amount" amount in
  let input := set_if_truthy input "date" date in
  let input := if negb (is_null hideFromReports)
               then obj_set input "hideFromReports" (Boolean hideFromReports) else input in
  let input := if negb (is_null needsReview)
               then obj_set input "needsReview" (Boolean needsReview) else input in
  let input := set_unless_null input "goalId" goalId in
  let input := set_unless_null input "notes" notes in
  input.

Definition updateTransaction (args : value) : M P value :=
  let* transactionId := lift (prop args "transactionId") in
  let* categoryId := lift (param args "categoryId" VNull) in
  let* merchantName := lift (param args "merchantName" VNull) in
  let* goalId := lift (param args "goalId" VNull) in
  let* amount := lift (param args "amount" VNull) in
  let* date := lift (param args "date" VNull) in
  let* hideFromReports := lift (param args "hideFromReports" VNull) in
  let* needsReview := lift (param args "needsReview" VNull) in
  let* notes := lift (param args "notes" VNull) in
  let variables :=
    VObj [("input", VObj (updateTransaction_input transactionId categoryId merchantName
                            goalId amount date hideFromReports needsReview notes))] in
  gqlCall "Web_TransactionDrawerUpdateTransaction"
    Documents.Web_TransactionDrawerUpdateTransaction variables.

Definition setBudgetAmount (args : value) : M P value :=
  let* amount := lift (prop args "amount") in
  let* categoryId := lift (param args "categoryId" VNull) in
  let* categoryGroupId := lift (param args "categoryGroupId" VNull) in
  let* timeframe := lift (param args "timeframe" (VStr "month")) in
  let* startDate := lift (param args "startDate" VNull) in
  let* applyToFuture := lift (param args "applyToFuture" (VBool false)) in
  if Bool.eqb (is_null categoryId) (is_null categoryGroupId) then
    throw (new_error Error
             (VStr "You must specify either a categoryId OR categoryGroupId; not both"))
  else
    let* startDate :=
      (if truthy startDate then ret startDate
       else calendar (fun W now => month_day W now 0 1)) in
    let variables :=
      VObj [("input", VObj [("amount", amount);
                            ("timeframe", timeframe);
                            ("categoryId", categoryId);
                            ("categoryGroupId", categoryGroupId);
                            ("applyToFuture", applyToFuture);
                            ("startDate", startDate)])] in
    gqlCall "Common_UpdateBudgetItem" Documents.Common_UpdateBudgetItem variables.

Definition deleteTransaction (transactionId : value) : M P value :=
  let variables := VObj [("input", VObj [("transactionId", transactionId)])] in
  let* response :=
    gqlCall "Common_DeleteTransactionMutation" Documents.Common_DeleteTransactionMutation
      variables in
  let* deleteTransaction := lift (prop response "deleteTransaction") in
  let* deleted := lift (prop deleteTransaction "deleted") in
  if negb (truthy deleted) then
    let* errors := lift (prop deleteTransaction "errors") in
    throw (new_error RequestFailedException errors)
  else ret (VBool true).

Definition createTransaction (args : value) : M P value :=
  let* date := lift (prop args "date") in
  let* accountId := lift (prop args "accountId") in
  let* amount := lift (prop args "amount") in
  let* merchantName := lift (prop args "merchantName") in
  let* categoryId := lift (prop args "categoryId") in
  let* notes := lift (param args "notes" (VStr "")) in
  let* updateBalance := lift (param args "updateBalance" (VBool false)) in
  let* rounded := ask (fun W => round_cents W amount) in
  let variables :=
    VObj [("input", VObj [("date", date);
                          ("accountId", accountId);
                          ("amount", rounded);
                          ("merchantName", merchantName);
                          ("categoryId", categoryId);
                          ("notes", notes);
                          ("shouldUpdateBalance", updateBalance)])] in
  gqlCall "Common_CreateTransactionMutation" Documents.Common_CreateTransactionMutation
    variables.

Definition createManualAccount
    (accountType accountSubType isInNetWorth accountName accountBalance : value)
  : M P value :=
  let accountBalance := dflt accountBalance (VNum 0) in
  let variables :=
    VObj [("input", VObj [("type", accountType);
                          ("subtype", accountSubType);
                          ("includeInNetWorth", isInNetWorth);
                          ("name", accountName);
                          ("displayBalance", accountBalance)])] in
  gqlCall "Web_CreateManualAccount" Documents.Web_CreateManualAccount variables.

(** The object [updateAccount] wraps as [input] (defaults applied). *)
Definition updateAccount_variables
    (accountId accountName accountBalance accountType accountSubType
       includeInNetWorth hideFromSummaryList hideTransactionsFromReports : value)
  : list (string * value) :=
  let variables := [("id", accountId)] in
  let variables := set_if_truthy variables "type" accountType in
  let variables := set_if_truthy variables "subtype" accountSubType in
  let variables := set_unless_null variables "includeInNetWorth" includeInNetWorth in
  let variables := set_unless_null variables "hideFromList" hideFromSummaryList in
  let variables :=
    set_unless_null variables "hideTransactionsFromReports" hideTransactionsFromReports in
  let variables := set_if_truthy variables "name" accountName in
  let variables := set_unless_null variables "displayBalance" accountBalance in
  variables.

Definition updateAccount
    (accountId accountName accountBalance accountType accountSubType
       includeInNetWorth hideFromSummaryList hideTransactionsFromReports : value)
  : M P value :=
  let variables :=
    updateAccount_variables accountId (dflt accountName VNull) (dflt accountBalance VNull)
      (dflt accountType VNull) (dflt accountSubType VNull) (dflt includeInNetWorth VNull)
      (dflt hideFromSummaryList VNull) (dflt hideTransactionsFromReports VNull) in
  gqlCall "Common_UpdateAccount" Documents.Common_UpdateAccount
    (VObj [("input", VObj variables)]).

Definition deleteAccount (accountId : value) : M P value :=
  let variables := VObj [("id", accountId)] in
  gqlCall "Common_DeleteAccount" Documents.Common_DeleteAccount variables.

Definition requestAccountsRefresh (accountIds : value) : M P value :=
  let variables := VObj [("input", VObj [("accountIds", accountIds)])] in
  let* response :=
    gqlCall "Common_ForceRefreshAccountsMutation"
      Documents.Common_ForceRefreshAccountsMutation variables in
  let* forceRefreshAccounts := lift (prop response "forceRefreshAccounts") in
  let* success := lift (prop forceRefreshAccounts "success") in
  if negb (truthy success) then
    let* errors := lift (prop forceRefreshAccounts "errors") in
    throw (new_error RequestFailedException errors)
  else ret (VBool true).

(** What [isAccountsRefreshComplete] computes from the status response. *)
Definition refresh_verdict (accountIds response : value) : outcome bool :=
  let+ accounts := prop response "accounts" in
  if negb (truthy accounts) then
    Throw (new_error RequestFailedException (VStr "Unable to request status of refresh"))
  else
    let+ items := array_method accounts "every" in
    if truthy accountIds then
      every (fun x =>
               let+ hasSyncInProgress := prop x "hasSyncInProgress" in
               if negb (truthy hasSyncInProgress) then
                 let+ id := prop x "id" in
                 includes_of accountIds id
               else Return false) items
    else
      every (fun x =>
               let+ hasSyncInProgress := prop x "hasSyncInProgress" in
               Return (negb (truthy hasSyncInProgress))) items.

Definition isAccountsRefreshComplete (accountIds : value) : M P bool :=
  let accountIds := dflt accountIds VNull in
  let* response :=
    gqlCall "ForceRefreshAccountsQuery" Documents.ForceRefreshAccountsQuery VUndefined in
  lift (refresh_verdict accountIds response).

(** The polling loop of [requestAccountsRefreshAndWait]. The loop has
    no bound of its own (with a zero delay the clock may stand still),
    so the iteration count is limited by [fuel]; [None] is an
    exhausted budget, never a result of the source. *)
Fixpoint poll (fuel : nat) (accountIds : value) (start timeout delay : Z)
    (refreshed : bool) : M P (option bool) :=
  match fuel with
  | O => ret None
  | S fuel' =>
      let* now := Date_now in
      if negb refreshed && (now <=? start + timeout * 1000) then
        let* _ := sleep (delay * 1000) in
        let* refreshed := isAccountsRefreshComplete accountIds in
        poll fuel' accountIds start timeout delay refreshed
      else ret (Some refreshed)
  end.

(** [accountData.accounts.map(x => x.id)] *)
Definition account_ids_of (accountData : value) : outcome value :=
  let+ accounts := prop accountData "accounts" in
  let+ items := array_method accounts "map" in
  let+ ids := array_map (fun x => prop x "id") items in
  Return (VArr ids).

Definition requestAccountsRefreshAndWait (fuel : nat) (accountIds : value)
    (timeout delay : Z) : M P (option bool) :=
  let accountIds := dflt accountIds VNull in
  let* accountIds :=
    (if negb (truthy accountIds) then
       let* accountData := getAccounts in
       lift (account_ids_of accountData)
     else ret accountIds) in
  let* _ := requestAccountsRefresh accountIds in
  let* start := Date_now in
  poll fuel accountIds start timeout delay false.

End Dispatcher.
End Operations.

(** [categoryIds.map(f)] with an asynchronous [f], gathered by
    [Promise.all]. Every call of [f] runs up to its first suspension
    while [map] walks the list, so the requests leave in input order;
    the calls are linearised here in that order. *)
Fixpoint map_m {P A B} (f : A -> M P B) (xs : list A) : M P (list B) :=
  match xs with
  | [] => ret []
  | x :: rest =>
      let* y := f x in
      let* ys := map_m f rest in
      ret (y :: ys)
  end.

Definition LOGIN_FIRST_MESSAGE : string :=
  "Make sure you call login() first or provide a session token!".

(** ** api.js: the functional API over the credential store *)

Module Api.
Import Session.

Definition timeout : Z := 10.

Record GraphQLClient := {
  client_url : string;
  client_headers : gmap string string;
  client_timeout : Z;
}.

Definition getGraphQLClient : M t GraphQLClient :=
  let* headers := getHeaders in
  if negb (truthy (header headers AUTH_HEADER_KEY)) then
    throw (new_error LoginFailedException (VStr LOGIN_FIRST_MESSAGE))
  else
    ret {| client_url := GQL_ENDPOINT;
           client_headers := headers;
           client_timeout := timeout * 1000 |}.

(** [client.request(document, variables)] *)
Definition request_ {P} (client : GraphQLClient) (document variables : value) : M P value :=
  dispatch graphql_request
    (GraphQL (client_url client) (client_headers client) (client_timeout client)
       document variables).

Definition gqlCall (operation : string) (graphqlQuery variables : value) : M t value :=
  let variables := dflt variables (VObj []) in
  let* client := getGraphQLClient in
  request_ client graphqlQuery variables.

Definition getAccounts := Operations.getAccounts gqlCall.
Definition getAccountTypeOptions := Operations.getAccountTypeOptions gqlCall.
Definition getRecentAccountBalances := Operations.getRecentAccountBalances gqlCall.
Definition getAccountHoldings := Operations.getAccountHoldings gqlCall.
Definition getAccountHistory := Operations.getAccountHistory gqlCall.
Definition getSubscriptionDetails := Operations.getSubscriptionDetails gqlCall.
Definition getInstitutions := Operations.getInstitutions gqlCall.
Definition getAccountSnapshotsByType := Operations.getAccountSnapshotsByType gqlCall.
Definition getAggregateSnapshots := Operations.getAggregateSnapshots gqlCall.
Definition getTransactions := Operations.getTransactions gqlCall.
Definition getTransactionsSummary := Operations.getTransactionsSummary gqlCall.
Definition getRecurringTransactions := Operations.getRecurringTransactions gqlCall.
Definition getTransactionCategories := Operations.getTransactionCategories gqlCall.
Definition getTransactionCategoryGroups := Operations.getTransactionCategoryGroups gqlCall.
Definition getTransactionTags := Operations.getTransactionTags gqlCall.
Definition getTransactionDetails := Operations.getTransactionDetails gqlCall.
Definition getTransactionSplits := Operations.getTransactionSplits gqlCall.
Definition getCashflow := Operations.getCashflow gqlCall.
Definition getCashflowSummary := Operations.getCashflowSummary gqlCall.
Definition deleteTransactionCategory := Operations.deleteTransactionCategory gqlCall.
Definition createTransactionCategory := Operations.createTransactionCategory gqlCall.
Definition createTransactionTag := Operations.createTransactionTag gqlCall.
Definition setTransactionTags := Operations.setTransactionTags gqlCall.
Definition updateTransactionSplits := Operations.updateTransactionSplits gqlCall.
Definition updateTransaction := Operations.updateTransaction gqlCall.
Definition setBudgetAmount := Operations.setBudgetAmount gqlCall.
Definition deleteTransaction := Operations.deleteTransaction gqlCall.
Definition createTransaction := Operations.createTransaction gqlCall.
Definition createManualAccount := Operations.createManualAccount gqlCall.
Definition updateAccount := Operations.updateAccount gqlCall.
Definition deleteAccount := Operations.deleteAccount gqlCall.
Definition requestAccountsRefresh := Operations.requestAccountsRefresh gqlCall.
Definition isAccountsRefreshComplete := Operations.isAccountsRefreshComplete gqlCall.
Definition requestAccountsRefreshAndWait := Operations.requestAccountsRefreshAndWait gqlCall.

Definition getBudgets (startDate endDate useLegacyGoals useV2Goals : value) : M t value :=
  let startDate := dflt startDate VNull in
  let endDate := dflt endDate VNull in
  let useLegacyGoals := dflt useLegacyGoals (VBool false) in
  let useV2Goals := dflt useV2Goals (VBool true) in
  let variables := [("startDate", startDate);
                    ("endDate", endDate);
                    ("useLegacyGoals", useLegacyGoals);
                    ("useV2Goals", useV2Goals)] in
  if negb (truthy startDate) && negb (truthy endDate) then
    (* the first day of last month, the last day of next month *)
    let* lastMonthDate := Operations.calendar (fun W now => month_day W now (-1) 1) in
    let variables := obj_set variables "startDate" lastMonthDate in
    let* nextMonthDate := Operations.calendar (fun W now => month_day W now 2 0) in
    let variables := obj_set variables "endDate" nextMonthDate in
    gqlCall "GetJointPlanningData" Documents.GetJointPlanningData (VObj variables)
  else if negb (truthy startDate) || negb (truthy endDate) then
    throw (new_error Error (VStr DATE_RANGE_MESSAGE))
  else
    gqlCall "GetJointPlanningData" Documents.GetJointPlanningData (VObj variables).

(** What [this] is inside an exported function declaration: [undefined]
    when the function is called through a named import, the module
    namespace object when it is called as a member of one. *)
Inductive this_binding :=
| ThisUndefined
| ThisNamespace.

Definition deleteTransactionCategories (this : this_binding) (categoryIds : value)
  : M t value :=
  let* items := lift (array_method categoryIds "map") in
  let* results :=
    map_m (fun id =>
             match this with
             | ThisUndefined =>
                 throw (VError TypeError
                          "Cannot read properties of undefined (reading 'deleteTransactionCategory')")
             | ThisNamespace =>
                 catch (deleteTransactionCategory id) (fun e => ret e)
             end) items in
  ret (VArr results).

(** The module imports neither [axios] nor anything bound to that name:
    evaluating the callee fails before the arguments (and [this]) are
    looked at. *)
Definition uploadAccountBalanceHistory (accountId csvContent : value) : M t value :=
  if negb (truthy accountId) || negb (truthy csvContent) then
    throw (new_error RequestFailedException
             (VStr "accountId and csvContent cannot be empty"))
  else
    let* mapping := ask (fun W => JSON_stringify W (VObj [("upload.csv", accountId)])) in
    let form := VObj [("files", csvContent); ("account_files_mapping", VStr mapping)] in
    throw (VError ReferenceError "axios is not defined").

Definition requestAccountsRefreshAndDontWait (accountIds : value) : M t value :=
  let accountIds := dflt accountIds VNull in
  let* accountIds :=
    (if negb (truthy accountIds) then
       let* accountData := getAccounts in
       lift (Operations.account_ids_of accountData)
     else ret accountIds) in
  requestAccountsRefresh accountIds.

Definition getSchema : M t value :=
  gqlCall "IntrospectionQuery" Documents.IntrospectionQuery VUndefined.

End Api.

(** ** The class [MonarchMoney] *)

Module MonarchMoney.

Record t := Instance {
  _headers : gmap string string;
  _sessionFile : string;
  _token : value;
  _timeout : Z;
}.

(** [new MonarchMoney(sessionFile, timeout, token)] *)
Definition constructor (sessionFile : string) (timeout : Z) (token : value) : t :=
  let headers : gmap string string := {[ "Client-Platform" := "web" ]} in
  let headers :=
    if truthy token
    then <[ "Authorization" := "Token " +:+ to_string token ]> headers
    else headers in
  {| _headers := headers; _sessionFile := sessionFile; _token := token;
     _timeout := timeout |}.

(** The accessor pairs [timeout] and [token]. *)
Definition get_timeout : M t Z :=
  let* this := get_prog in ret (_timeout this).

Definition set_timeout (value : Z) : M t unit :=
  let* this := get_prog in
  set_prog {| _headers := _headers this; _sessionFile := _sessionFile this;
              _token := _token this; _timeout := value |}.

Definition get_token : M t value :=
  let* this := get_prog in ret (_token this).

Definition set_token (value : value) : M t unit :=
  let* this := get_prog in
  set_prog {| _headers := _headers this; _sessionFile := _sessionFile this;
              _token := value; _timeout := _timeout this |}.

(** ToBoolean of an object reference. *)
Definition object_truthy {A} (o : A) : bool := true.

Definition gqlCall (operation : string) (graphqlQuery variables : value) : M t value :=
  let variables := dflt variables (VObj []) in
  let* this := get_prog in
  if negb (object_truthy (_headers this)) then
    throw (new_error LoginFailedException (VStr LOGIN_FIRST_MESSAGE))
  else
    dispatch graphql_request
      (GraphQL MonarchMoneyEndpoints.getGraphQL (_headers this) (_timeout this)
         graphqlQuery variables).

(** [this._headers["Authorization"] = `Token ${this._token}`] *)
Definition set_authorization_from_token : M t unit :=
  let* this := get_prog in
  set_prog {| _headers := <[ "Authorization" := "Token " +:+ to_string (_token this) ]>
                            (_headers this);
              _sessionFile := _sessionFile this;
              _token := _token this;
              _timeout := _timeout this |}.

Definition saveSession (filename : string) : M t unit :=
  let* this := get_prog in
  let sessionData := VObj [("token", _token this)] in
  let* text := ask (fun W => JSON_stringify W sessionData) in
  writeFileSync filename text.

(** The class declares the accessor pair [token] and no method
    [setToken]: the call finds [undefined] where a function is needed. *)
Definition loadSession (filename : string) : M t unit :=
  let* text := readFileSync filename in
  let* parsed := ask (fun W => JSON_parse W text) in
  let* data := lift parsed in
  let* tok := lift (prop data "token") in
  let* _ := call_undefined (A := unit) "this.setToken" [tok] in
  set_authorization_from_token.

Definition deleteSession (filename : string) : M t unit :=
  let* found := existsSync filename in
  if found then unlinkSync filename else ret tt.

Definition _loginUser (email password mfaSecretKey : value) : M t unit :=
  let data := [("password", password);
               ("supports_mfa", VBool true);
               ("trusted_device", VBool false);
               ("username", email)] in
  let* data :=
    (if truthy mfaSecretKey then
       let* otp := ask (fun W => generate_otp W mfaSecretKey) in
       let* otp := lift otp in
       ret (obj_set data "totp" otp)
     else ret data) in
  let* this := get_prog in
  let* response :=
    dispatch axios_post
      (HttpPost MonarchMoneyEndpoints.getLoginEndpoint (_headers this) (VObj data)) in
  if a_status response =? 403 then
    throw (new_error RequireMFAException (VStr "Multi-Factor Auth Required"))
  else if negb (a_status response =? 200) then
    throw (new_error LoginFailedException
             (VStr ("HTTP Code " +:+ pretty (a_status response) +:+ ": "
                    +:+ a_statusText response)))
  else
    let* tok := lift (prop (a_data response) "token") in
    let* _ := call_undefined (A := unit) "this.setToken" [tok] in
    set_authorization_from_token.

Definition _multiFactorAuthenticate (email password code : value) : M t unit :=
  let data := [("password", password);
               ("supports_mfa", VBool true);
               ("totp", code);
               ("trusted_device", VBool false);
               ("username", email)] in
  let* this := get_prog in
  let* response :=
    dispatch axios_post
      (HttpPost MonarchMoneyEndpoints.getLoginEndpoint (_headers this) (VObj data)) in
  if negb (a_status response =? 200) then
    let error_code :=
      match a_data response with
      | VUndefined | VNull => VUndefined
      | d => match prop d "error_code" with Return v => v | Throw _ => VUndefined end
      end in
    throw (new_error LoginFailedException (or_else error_code (VStr "Unknown error")))
  else
    let* tok := lift (prop (a_data response) "token") in
    let* _ := call_undefined (A := unit) "this.setToken" [tok] in
    set_authorization_from_token.

Definition login (email password useSavedSession saveSession_ mfaSecretKey : value)
  : M t unit :=
  let email := dflt email VNull in
  let password := dflt password VNull in
  let useSavedSession := dflt useSavedSession (VBool true) in
  let saveSession_ := dflt saveSession_ (VBool true) in
  let mfaSecretKey := dflt mfaSecretKey VNull in
  let* this := get_prog in
  let* found :=
    (if truthy useSavedSession then existsSync (_sessionFile this) else ret false) in
  if found then loadSession (_sessionFile this)
  else if negb (truthy email) || negb (truthy password) then
    throw (new_error LoginFailedException
             (VStr "Email and password are required to login when not using a saved session."))
  else
    let* _ := _loginUser email password mfaSecretKey in
    if truthy saveSession_ then saveSession (_sessionFile this) else ret tt.

Definition multiFactorAuthenticate (email password code : value) : M t unit :=
  _multiFactorAuthenticate email password code.

Definition getAccounts := Operations.getAccounts gqlCall.
Definition getAccountTypeOptions := Operations.getAccountTypeOptions gqlCall.
Definition getRecentAccountBalances := Operations.getRecentAccountBalances gqlCall.
Definition getAccountHoldings := Operations.getAccountHoldings gqlCall.
Definition getAccountHistory := Operations.getAccountHistory gqlCall.
Definition getSubscriptionDetails := Operations.getSubscriptionDetails gqlCall.
Definition getInstitutions := Operations.getInstitutions gqlCall.
Definition getAccountSnapshotsByType := Operations.getAccountSnapshotsByType gqlCall.
Definition getAggregateSnapshots := Operations.getAggregateSnapshots gqlCall.
Definition getTransactions := Operations.getTransactions gqlCall.
Definition getTransactionsSummary := Operations.getTransactionsSummary gqlCall.
Definition getRecurringTransactions := Operations.getRecurringTransactions gqlCall.
Definition getTransactionCategories := Operations.getTransactionCategories gqlCall.
Definition getTransactionCategoryGroups := Operations.getTransactionCategoryGroups gqlCall.
Definition getTransactionTags := Operations.getTransactionTags gqlCall.
Definition getTransactionDetails := Operations.getTransactionDetails gqlCall.
Definition getTransactionSplits := Operations.getTransactionSplits gqlCall.
Definition getCashflow := Operations.getCashflow gqlCall.
Definition getCashflowSummary := Operations.getCashflowSummary gqlCall.
Definition deleteTransactionCategory := Operations.deleteTransactionCategory gqlCall.
Definition createTransactionCategory := Operations.createTransactionCategory gqlCall.
Definition createTransactionTag := Operations.createTransactionTag gqlCall.
Definition setTransactionTags := Operations.setTransactionTags gqlCall.
Definition updateTransactionSplits := Operations.updateTransactionSplits gqlCall.
Definition updateTransaction := Operations.updateTransaction gqlCall.
Definition setBudgetAmount := Operations.setBudgetAmount gqlCall.
Definition deleteTransaction := Operations.deleteTransaction gqlCall.
Definition createTransaction := Operations.createTransaction gqlCall.
Definition createManualAccount := Operations.createManualAccount gqlCall.
Definition updateAccount := Operations.updateAccount gqlCall.
Definition deleteAccount := Operations.deleteAccount gqlCall.
Definition requestAccountsRefresh := Operations.requestAccountsRefresh gqlCall.
Definition isAccountsRefreshComplete := Operations.isAccountsRefreshComplete gqlCall.
Definition requestAccountsRefreshAndWait := Operations.requestAccountsRefreshAndWait gqlCall.

Definition getBudgets (startDate endDate useLegacyGoals useV2Goals : value) : M t value :=
  let startDate := dflt startDate VNull in
  let endDate := dflt endDate VNull in
  let useLegacyGoals := dflt useLegacyGoals (VBool false) in
  let useV2Goals := dflt useV2Goals (VBool true) in
  let variables := [("startDate", startDate);
                    ("endDate", endDate);
                    ("useLegacyGoals", useLegacyGoals);
                    ("useV2Goals", useV2Goals)] in
  if negb (truthy startDate) && negb (truthy endDate) then
    let* lastMonth := Operations.calendar (fun W now => month_day W now (-1) 1) in
    let* nextMonth := Operations.calendar (fun W now => month_day W now 1 0) in
    let variables := obj_set variables "startDate" lastMonth in
    let variables := obj_set variables "endDate" nextMonth in
    gqlCall "GetJointPlanningData" Documents.GetJointPlanningData (VObj variables)
  else if negb (truthy startDate) || negb (truthy endDate) then
    throw (new_error Error (VStr DATE_RANGE_MESSAGE))
  else
    gqlCall "GetJointPlanningData" Documents.GetJointPlanningData (VObj variables).

Definition deleteTransactionCategories (categoryIds : value) : M t value :=
  let* items := lift (array_method categoryIds "map") in
  let* results :=
    map_m (fun id => catch (deleteTransactionCategory id) (fun e => ret e)) items in
  ret (VArr results).

Definition uploadAccountBalanceHistory (accountId csvContent : value) : M t value :=
  if negb (truthy accountId) || negb (truthy csvContent) then
    throw (new_error RequestFailedException
             (VStr "accountId and csvContent cannot be empty"))
  else
    let* mapping := ask (fun W => JSON_stringify W (VObj [("upload.csv", accountId)])) in
    let form := VObj [("files", csvContent); ("account_files_mapping", VStr mapping)] in
    let* this := get_prog in
    let* formHeaders := ask form_headers in
    (* { ...this._headers, ...form.getHeaders() }: the later spread wins *)
    let headers := formHeaders ∪ _headers this in
    let* response :=
      dispatch axios_post
        (HttpPost MonarchMoneyEndpoints.getAccountBalanceHistoryUploadEndpoint headers form) in
    if negb (a_status response =? 200) then
      throw (new_error RequestFailedException
               (VStr ("HTTP Code " +:+ pretty (a_status response) +:+ ": "
                      +:+ a_statusText response)))
    else ret VUndefined.

End MonarchMoney.

(** ** Outcomes as values, and predicates on runs *)

(** What [p.catch(e => e)] settles to. *)
Definition settle (o : outcome value) : value :=
  match o with
  | Return v => v
  | Throw e => e
  end.

Definition is_error_of (cls : error_class) (v : value) : bool :=
  match v with
  | VError c _ => error_class_eqb c cls
  | _ => false
  end.

(** The GraphQL requests of a log. *)
Definition is_graphql (r : request) : bool :=
  match r with GraphQL _ _ _ _ _ => true | HttpPost _ _ _ => false end.

(** The requests a run added to the log. *)
Definition dispatched {P A} (c : M P A) (W : world) (m : machine P) : list request :=
  drop (length (sent m)) (sent (snd (c W m))).

(** A header set carries a usable token. *)
Definition has_token (h : gmap string string) : bool :=
  truthy (header h AUTH_HEADER_KEY).

(** [x.k] where the access cannot fail. *)
Definition field (x : value) (k : string) : value :=
  match prop x k with
  | Return v => v
  | Throw _ => VUndefined
  end.

Definition nullish (v : value) : bool :=
  match v with VUndefined | VNull => true | _ => false end.

(** The request carries the given document. *)
Definition has_document (document : value) (r : request) : bool :=
  match request_document r, document with
  | VStr d, VStr d' => String.eqb d d'
  | _, _ => false
  end.

(** The status checks of a log: the requests that carry the document of
    [isAccountsRefreshComplete]. *)
Definition is_status_check (r : request) : bool :=
  has_document Documents.ForceRefreshAccountsQuery r.

Definition polls (log : list request) : nat :=
  length (List.filter is_status_check log).

(** The request [gqlCall] hands to the client, in api.js and in the class. *)
Definition api_request (store : Session.t) (document variables : value) : request :=
  GraphQL GQL_ENDPOINT (Session.headers store) (Api.timeout * 1000) document variables.

Definition class_request (this : MonarchMoney.t) (document variables : value) : request :=
  GraphQL MonarchMoneyEndpoints.getGraphQL (MonarchMoney._headers this)
    (MonarchMoney._timeout this) document variables.

(** The machine after a request left: the log grows by the request,
    the clock moves by its latency. *)
Definition after_request {P} (W : world) (m : machine P) (r : request) : machine P :=
  Machine (prog m) (clock m + latency W (sent m) r) (sent m ++ [r]) (files m).

(** The status-check stub of the polling property: counted from the
    log [log0] on, the first [N] status checks find the refresh in
    progress and every later one finds it complete. *)
Definition status_stub (W : world) (log0 : list request) (accountIds : value) (N : nat)
  : Prop :=
  forall h r,
    is_status_check r = true ->
    exists resp,
      graphql_request W (log0 ++ h) r = Return resp
      /\ Operations.refresh_verdict accountIds resp = Return (N <=? polls h)%nat.

(** The refresh trigger is accepted. *)
Definition trigger_accepted (W : world) : Prop :=
  forall h r,
    has_document Documents.Common_ForceRefreshAccountsMutation r = true ->
    exists resp payload success,
      graphql_request W h r = Return resp
      /\ prop resp "forceRefreshAccounts" = Return payload
      /\ prop payload "success" = Return success
      /\ truthy success = true.

(** The account query lists the accounts with the ids [accountIds]. *)
Definition accounts_listed (W : world) (accountIds : value) : Prop :=
  forall h r,
    has_document Documents.GetAccounts r = true ->
    exists resp,
      graphql_request W h r = Return resp
      /\ Operations.account_ids_of resp = Return accountIds.

(** The ids the helper polls for: the caller's, or (when the caller
    passed none) those of all accounts. *)
Definition resolves (W : world) (given accountIds : value) : Prop :=
  truthy accountIds = true
  /\ (given = accountIds
      \/ (truthy (dflt given VNull) = false /\ accounts_listed W accountIds)).

(** Time passes in the timers only, and a timer of the polling delay
    fires on time. *)
Definition ideal_clock (W : world) (delay : Z) : Prop :=
  (forall h r, latency W h r = 0) /\ timer W (delay * 1000) = delay * 1000.

(** Milliseconds between two machines. *)
Definition elapsed {P} (before after : machine P) : Z := clock after - clock before.

(** What the polling property says of one run of the helper: with
    [N * delay <= timeout] it returns [true] after [N + 1] status checks
    and [N + 1] delays, that is within one delay after [N * delay]; with
    [timeout < N * delay] it returns [false] once the deadline has
    passed. Either way the run returns a boolean. *)
Definition polling_outcome {P}
    (run : M P (option bool)) (W : world) (m : machine P)
    (N : nat) (timeout delay : Z) : Prop :=
  (Z.of_nat N * delay <= timeout ->
   exists m',
     run W m = (Return (Some true), m')
     /\ elapsed m m' = (Z.of_nat N + 1) * (delay * 1000)
     /\ Z.of_nat N * (delay * 1000) <= elapsed m m' <= Z.of_nat N * (delay * 1000) + delay * 1000
     /\ polls (drop (length (sent m)) (sent m')) = S N)
  /\ (timeout < Z.of_nat N * delay ->
      exists m',
        run W m = (Return (Some false), m')
        /\ timeout * 1000 < elapsed m m'
        /\ (polls (drop (length (sent m)) (sent m')) <= N)%nat).

(** ** The operations that take a start/end date pair *)

Inductive ranged_operation :=
| GetTransactions
| GetBudgets
| GetCashflow
| GetCashflowSummary
| GetRecurringTransactions.

Inductive implementation :=
| ApiModule
| ClassPort.

(** The call of a ranged operation with the two dates and every other
    parameter left to its default. *)
Definition date_args (startDate endDate : value) : value :=
  VObj [("startDate", startDate); ("endDate", endDate)].

Definition api_ranged (op : ranged_operation) (startDate endDate : value)
  : M Session.t value :=
  match op with
  | GetTransactions => Api.getTransactions (date_args startDate endDate)
  | GetBudgets => Api.getBudgets startDate endDate VUndefined VUndefined
  | GetCashflow => Api.getCashflow (date_args startDate endDate)
  | GetCashflowSummary => Api.getCashflowSummary (date_args startDate endDate)
  | GetRecurringTransactions => Api.getRecurringTransactions startDate endDate
  end.

Definition class_ranged (op : ranged_operation) (startDate endDate : value)
  : M MonarchMoney.t value :=
  match op with
  | GetTransactions => MonarchMoney.getTransactions (date_args startDate endDate)
  | GetBudgets => MonarchMoney.getBudgets startDate endDate VUndefined VUndefined
  | GetCashflow => MonarchMoney.getCashflow (date_args startDate endDate)
  | GetCashflowSummary => MonarchMoney.getCashflowSummary (date_args startDate endDate)
  | GetRecurringTransactions => MonarchMoney.getRecurringTransactions startDate endDate
  end.

(** A date is supplied when the caller passed something other than
    [null] or [undefined] (the parameter default is [null]). *)
Definition supplied (v : value) : bool := negb (nullish v).

(** The date range a request carries: [startDate] and [endDate] among
    its variables or, failing that, among its [filters]. *)
Definition range_in (fields : list (string * value)) : option (value * value) :=
  if obj_has fields "startDate" && obj_has fields "endDate"
  then Some (obj_get fields "startDate", obj_get fields "endDate")
  else None.

Definition range_of_request (r : request) : option (value * value) :=
  match request_variables r with
  | VObj fields =>
      match range_in fields with
      | Some range => Some range
      | None =>
          match obj_get fields "filters" with
          | VObj filters => range_in filters
          | _ => None
          end
      end
  | _ => None
  end.

(** The default range each operation derives from the clock, as month
    offset and day of the two [new Date(y, m + k, d)]; [getTransactions]
    derives none. *)
Definition default_range (impl : implementation) (op : ranged_operation)
    (W : world) (now : Z) : option (value * value) :=
  match op, impl with
  | GetTransactions, _ => None
  | GetBudgets, ApiModule =>
      Some (VStr (month_day W now (-1) 1), VStr (month_day W now 2 0))
  | GetBudgets, ClassPort =>
      Some (VStr (month_day W now (-1) 1), VStr (month_day W now 1 0))
  | _, _ => Some (VStr (month_day W now 0 1), VStr (month_day W now 1 0))
  end.

(** ** Conformance of a request descriptor *)

(** The top-level names of the variables are all declared by the
    operation header of the document. *)
Definition variables_declared (document variables : value) : bool :=
  match document, variables with
  | VStr text, VObj fields =>
      forallb (fun k => existsb (String.eqb k) (declared_variables text)) (obj_keys fields)
  | _, _ => false
  end.

(** No property of the variables, at the top or one object below,
    holds the sentinel [null]. *)
Definition no_null_field (variables : value) : bool :=
  match variables with
  | VObj fields =>
      forallb (fun kv =>
                 match snd kv with
                 | VNull => false
                 | VObj inner => forallb (fun kv' => negb (is_null (snd kv'))) inner
                 | _ => true
                 end) fields
  | _ => true
  end.

(** Every field other than the required one holds something other
    than the sentinel [null]. *)
Definition optional_fields_set (required : string) (fields : list (string * value))
  : bool :=
  forallb (fun kv => String.eqb (fst kv) required || negb (is_null (snd kv))) fields.

(** ** Every GraphQL operation of api.js as a call *)

Inductive api_call :=
| CallGetAccounts
| CallGetAccountTypeOptions
| CallGetRecentAccountBalances (startDate : value)
| CallGetAccountHoldings (accountId : value)
| CallGetAccountHistory (accountId : value)
| CallGetSubscriptionDetails
| CallGetInstitutions
| CallGetAccountSnapshotsByType (startDate timeframe : value)
| CallGetAggregateSnapshots (startDate endDate accountType : value)
| CallGetBudgets (startDate endDate useLegacyGoals useV2Goals : value)
| CallGetTransactions (args : value)
| CallGetTransactionsSummary
| CallGetRecurringTransactions (startDate endDate : value)
| CallGetTransactionCategories
| CallGetTransactionCategoryGroups
| CallGetTransactionTags
| CallGetTransactionDetails (transactionId redirectPosted : value)
| CallGetTransactionSplits (transactionId : value)
| CallGetCashflow (args : value)
| CallGetCashflowSummary (args : value)
| CallDeleteTransactionCategory (categoryId : value)
| CallDeleteTransactionCategories (this : Api.this_binding) (categoryIds : value)
| CallCreateTransactionCategory (args : value)
| CallCreateTransactionTag (name color : value)
| CallSetTransactionTags (transactionId tagIds : value)
| CallUpdateTransactionSplits (transactionId splitData : value)
| CallUpdateTransaction (args : value)
| CallSetBudgetAmount (args : value)
| CallDeleteTransaction (transactionId : value)
| CallCreateTransaction (args : value)
| CallCreateManualAccount
    (accountType accountSubType isInNetWorth accountName accountBalance : value)
| CallUpdateAccount
    (accountId accountName accountBalance accountType accountSubType
       includeInNetWorth hideFromSummaryList hideTransactionsFromReports : value)
| CallDeleteAccount (accountId : value)
| CallRequestAccountsRefresh (accountIds : value)
| CallIsAccountsRefreshComplete (accountIds : value)
| CallRequestAccountsRefreshAndWait (fuel : nat) (accountIds : value) (timeout delay : Z)
| CallRequestAccountsRefreshAndDontWait (accountIds : value)
| CallGetSchema.

Definition as_value {P} (c : M P bool) : M P value :=
  let* b := c in ret (VBool b).

Definition run_api (c : api_call) : M Session.t value :=
  match c with
  | CallGetAccounts => Api.getAccounts
  | CallGetAccountTypeOptions => Api.getAccountTypeOptions
  | CallGetRecentAccountBalances s => Api.getRecentAccountBalances s
  | CallGetAccountHoldings a => Api.getAccountHoldings a
  | CallGetAccountHistory a => Api.getAccountHistory a
  | CallGetSubscriptionDetails => Api.getSubscriptionDetails
  | CallGetInstitutions => Api.getInstitutions
  | CallGetAccountSnapshotsByType s t => Api.getAccountSnapshotsByType s t
  | CallGetAggregateSnapshots s e a => Api.getAggregateSnapshots s e a
  | CallGetBudgets s e l v => Api.getBudgets s e l v
  | CallGetTransactions args => Api.getTransactions args
  | CallGetTransactionsSummary => Api.getTransactionsSummary
  | CallGetRecurringTransactions s e => Api.getRecurringTransactions s e
  | CallGetTransactionCategories => Api.getTransactionCategories
  | CallGetTransactionCategoryGroups => Api.getTransactionCategoryGroups
  | CallGetTransactionTags => Api.getTransactionTags
  | CallGetTransactionDetails t r => Api.getTransactionDetails t r
  | CallGetTransactionSplits t => Api.getTransactionSplits t
  | CallGetCashflow args => Api.getCashflow args
  | CallGetCashflowSummary args => Api.getCashflowSummary args
  | CallDeleteTransactionCategory c => Api.deleteTransactionCategory c
  | CallDeleteTransactionCategories this cs => Api.deleteTransactionCategories this cs
  | CallCreateTransactionCategory args => Api.createTransactionCategory args
  | CallCreateTransactionTag n c => Api.createTransactionTag n c
  | CallSetTransactionTags t tags => Api.setTransactionTags t tags
  | CallUpdateTransactionSplits t d => Api.updateTransactionSplits t d
  | CallUpdateTransaction args => Api.updateTransaction args
  | CallSetBudgetAmount args => Api.setBudgetAmount args
  | CallDeleteTransaction t => Api.deleteTransaction t
  | CallCreateTransaction args => Api.createTransaction args
  | CallCreateManualAccount t s i n b => Api.createManualAccount t s i n b
  | CallUpdateAccount a n b t s i h r => Api.updateAccount a n b t s i h r
  | CallDeleteAccount a => Api.deleteAccount a
  | CallRequestAccountsRefresh a => Api.requestAccountsRefresh a
  | CallIsAccountsRefreshComplete a => as_value (Api.isAccountsRefreshComplete a)
  | CallRequestAccountsRefreshAndWait fuel a t d =>
      let* r := Api.requestAccountsRefreshAndWait fuel a t d in
      ret (match r with Some b => VBool b | None => VUndefined end)
  | CallRequestAccountsRefreshAndDontWait a => Api.requestAccountsRefreshAndDontWait a
  | CallGetSchema => Api.getSchema
  end.

(** The operations that look at their parameters before they reach the
    dispatcher, and so may raise an error of their own first. *)
Definition checks_parameters (c : api_call) : bool :=
  match c with
  | CallGetAccountSnapshotsByType _ _
  | CallGetBudgets _ _ _ _
  | CallGetTransactions _
  | CallGetRecurringTransactions _ _
  | CallGetCashflow _
  | CallGetCashflowSummary _
  | CallDeleteTransactionCategories _ _
  | CallCreateTransactionCategory _
  | CallUpdateTransaction _
  | CallSetBudgetAmount _
  | CallCreateTransaction _ => true
  | _ => false
  end.

(** ** Runs from a given machine *)

Definition login_error : value := VError LoginFailedException LOGIN_FIRST_MESSAGE.

(** The run leaves the machine as it is: nothing is dispatched. *)
Definition inert_at {P A} (m : machine P) (c : M P A) : Prop :=
  forall W, snd (c W m) = m.

(** The run is refused with the login error before anything happens. *)
Definition refused_at {P A} (m : machine P) (c : M P A) : Prop :=
  forall W, c W m = (Throw login_error, m).

(** The run returns and leaves the machine as it is. *)
Definition settled_at {P A} (m : machine P) (c : M P A) : Prop :=
  forall W, exists a, c W m = (Return a, m).

(** ** The console login of the login module

    [interactiveLogin] asks for the email and the password on the
    console and, when the login raises the MFA signal, for the code.
    [question] gives the line the user types at a prompt; each prompt
    is put at most once. No session file is written: the call of
    [saveSession] is commented out in the source. *)
Definition interactiveLogin (question : string -> string)
    (useSavedSession saveSessionFlag : value) : M Session.t unit :=
  let useSavedSession := dflt useSavedSession (VBool true) in
  let saveSessionFlag := dflt saveSessionFlag (VBool true) in
  let email := VStr (question "Email: ") in
  let passwd := VStr (question "Password: ") in
  catch (Auth.loginUser email passwd VUndefined)
    (fun error =>
       if is_error_of RequireMFAException error then
         let twoFactorCode := VStr (question "Two Factor Code: ") in
         let* _ := Auth.multiFactorAuthenticate email passwd twoFactorCode in
         if truthy saveSessionFlag then ret tt else ret tt
       else throw error).

(** ** Every query and mutation method of the class as a call *)

Inductive class_call :=
| MethodGetAccounts
| MethodGetAccountTypeOptions
| MethodGetRecentAccountBalances (startDate : value)
| MethodGetAccountHoldings (accountId : value)
| MethodGetAccountHistory (accountId : value)
| MethodGetSubscriptionDetails
| MethodGetInstitutions
| MethodGetAccountSnapshotsByType (startDate timeframe : value)
| MethodGetAggregateSnapshots (startDate endDate accountType : value)
| MethodGetBudgets (startDate endDate useLegacyGoals useV2Goals : value)
| MethodGetTransactions (args : value)
| MethodGetTransactionsSummary
| MethodGetRecurringTransactions (startDate endDate : value)
| MethodGetTransactionCategories
| MethodGetTransactionCategoryGroups
| MethodGetTransactionTags
| MethodGetTransactionDetails (transactionId redirectPosted : value)
| MethodGetTransactionSplits (transactionId : value)
| MethodGetCashflow (args : value)
| MethodGetCashflowSummary (args : value)
| MethodDeleteTransactionCategory (categoryId : value)
| MethodDeleteTransactionCategories (categoryIds : value)
| MethodCreateTransactionCategory (args : value)
| MethodCreateTransactionTag (name color : value)
| MethodSetTransactionTags (transactionId tagIds : value)
| MethodUpdateTransactionSplits (transactionId splitData : value)
| MethodUpdateTransaction (args : value)
| MethodSetBudgetAmount (args : value)
| MethodDeleteTransaction (transactionId : value)
| MethodCreateTransaction (args : value)
| MethodCreateManualAccount
    (accountType accountSubType isInNetWorth accountName accountBalance : value)
| MethodUpdateAccount
    (accountId accountName accountBalance accountType accountSubType
       includeInNetWorth hideFromSummaryList hideTransactionsFromReports : value)
| MethodDeleteAccount (accountId : value)
| MethodRequestAccountsRefresh (accountIds : value)
| MethodIsAccountsRefreshComplete (accountIds : value)
| MethodRequestAccountsRefreshAndWait (fuel : nat) (accountIds : value) (timeout delay : Z).

(** The method a call stands for. *)
Definition run_class (c : class_call) : M MonarchMoney.t value :=
  match c with
  | MethodGetAccounts => MonarchMoney.getAccounts
  | MethodGetAccountTypeOptions => MonarchMoney.getAccountTypeOptions
  | MethodGetRecentAccountBalances s => MonarchMoney.getRecentAccountBalances s
  | MethodGetAccountHoldings a => MonarchMoney.getAccountHoldings a
  | MethodGetAccountHistory a => MonarchMoney.getAccountHistory a
  | MethodGetSubscriptionDetails => MonarchMoney.getSubscriptionDetails
  | MethodGetInstitutions => MonarchMoney.getInstitutions
  | MethodGetAccountSnapshotsByType s t => MonarchMoney.getAccountSnapshotsByType s t
  | MethodGetAggregateSnapshots s e a => MonarchMoney.getAggregateSnapshots s e a
  | MethodGetBudgets s e l v => MonarchMoney.getBudgets s e l v
  | MethodGetTransactions args => MonarchMoney.getTransactions args
  | MethodGetTransactionsSummary => MonarchMoney.getTransactionsSummary
  | MethodGetRecurringTransactions s e => MonarchMoney.getRecurringTransactions s e
  | MethodGetTransactionCategories => MonarchMoney.getTransactionCategories
  | MethodGetTransactionCategoryGroups => MonarchMoney.getTransactionCategoryGroups
  | MethodGetTransactionTags => MonarchMoney.getTransactionTags
  | MethodGetTransactionDetails t r => MonarchMoney.getTransactionDetails t r
  | MethodGetTransactionSplits t => MonarchMoney.getTransactionSplits t
  | MethodGetCashflow args => MonarchMoney.getCashflow args
  | MethodGetCashflowSummary args => MonarchMoney.getCashflowSummary args
  | MethodDeleteTransactionCategory c => MonarchMoney.deleteTransactionCategory c
  | MethodDeleteTransactionCategories cs => MonarchMoney.deleteTransactionCategories cs
  | MethodCreateTransactionCategory args => MonarchMoney.createTransactionCategory args
  | MethodCreateTransactionTag n c => MonarchMoney.createTransactionTag n c
  | MethodSetTransactionTags t tags => MonarchMoney.setTransactionTags t tags
  | MethodUpdateTransactionSplits t d => MonarchMoney.updateTransactionSplits t d
  | MethodUpdateTransaction args => MonarchMoney.updateTransaction args
  | MethodSetBudgetAmount args => MonarchMoney.setBudgetAmount args
  | MethodDeleteTransaction t => MonarchMoney.deleteTransaction t
  | MethodCreateTransaction args => MonarchMoney.createTransaction args
  | MethodCreateManualAccount t s i n b => MonarchMoney.createManualAccount t s i n b
  | MethodUpdateAccount a n b t s i h r => MonarchMoney.updateAccount a n b t s i h r
  | MethodDeleteAccount a => MonarchMoney.deleteAccount a
  | MethodRequestAccountsRefresh a => MonarchMoney.requestAccountsRefresh a
  | MethodIsAccountsRefreshComplete a => as_value (MonarchMoney.isAccountsRefreshComplete a)
  | MethodRequestAccountsRefreshAndWait fuel a t d =>
      let* r := MonarchMoney.requestAccountsRefreshAndWait fuel a t d in
      ret (match r with Some b => VBool b | None => VUndefined end)
  end.

(** The calls that end in [return await gqlCall(...)] without a check
    of their own before or after it. *)
Definition api_hands_back (c : api_call) : bool :=
  match c with
  | CallGetAccounts
  | CallGetAccountTypeOptions
  | CallGetRecentAccountBalances _
  | CallGetAccountHoldings _
  | CallGetSubscriptionDetails
  | CallGetInstitutions
  | CallGetAggregateSnapshots _ _ _
  | CallGetTransactionsSummary
  | CallGetTransactionCategories
  | CallGetTransactionCategoryGroups
  | CallGetTransactionTags
  | CallGetTransactionDetails _ _
  | CallGetTransactionSplits _
  | CallCreateTransactionTag _ _
  | CallSetTransactionTags _ _
  | CallUpdateTransactionSplits _ _
  | CallCreateManualAccount _ _ _ _ _
  | CallUpdateAccount _ _ _ _ _ _ _ _
  | CallDeleteAccount _
  | CallGetSchema => true
  | _ => false
  end.

(** The same for the methods of the class. *)
Definition class_hands_back (c : class_call) : bool :=
  match c with
  | MethodGetAccounts
  | MethodGetAccountTypeOptions
  | MethodGetRecentAccountBalances _
  | MethodGetAccountHoldings _
  | MethodGetSubscriptionDetails
  | MethodGetInstitutions
  | MethodGetAggregateSnapshots _ _ _
  | MethodGetTransactionsSummary
  | MethodGetTransactionCategories
  | MethodGetTransactionCategoryGroups
  | MethodGetTransactionTags
  | MethodGetTransactionDetails _ _
  | MethodGetTransactionSplits _
  | MethodCreateTransactionTag _ _
  | MethodSetTransactionTags _ _
  | MethodUpdateTransactionSplits _ _
  | MethodCreateManualAccount _ _ _ _ _
  | MethodUpdateAccount _ _ _ _ _ _ _ _
  | MethodDeleteAccount _ => true
  | _ => false
  end.

(** ** What a run may do to the machine *)

(** A query call of api.js made from the store: it goes to the GraphQL
    endpoint with the store's headers, which hold a token, and the
    module's timeout. *)
Definition api_query (store : Session.t) (r : request) : Prop :=
  has_token (request_headers r) = true
  /\ exists document variables, r = api_request store document variables.

(** A query call of the class made from the instance. *)
Definition class_query (this : MonarchMoney.t) (r : request) : Prop :=
  exists document variables, r = class_request this document variables.

(** The run keeps the program state and the files, and adds to the log
    only requests that are [good] for the program state. *)
Definition confined {P A} (good : P -> request -> Prop) (c : M P A) : Prop :=
  forall W m,
    prog (snd (c W m)) = prog m
    /\ files (snd (c W m)) = files m
    /\ exists added,
        sent (snd (c W m)) = (sent m ++ added)%list
        /\ Forall (good (prog m)) added.

(** ** The login requests

    The body the login module posts: a form, every value a string (the
    class posts the values as they are, in a JSON object). *)
Definition login_form (email password : value) : value :=
  VObj [("password", VStr (to_string password));
        ("supports_mfa", VStr "true");
        ("trusted_device", VStr "false");
        ("username", VStr (to_string email))].

(** The same with the one-time code. *)
Definition mfa_form (email password code : value) : value :=
  VObj [("password", VStr (to_string password));
        ("supports_mfa", VStr "true");
        ("totp", VStr (to_string code));
        ("trusted_device", VStr "false");
        ("username", VStr (to_string email))].

(** A post to the login endpoint. *)
Definition login_post (headers : gmap string string) (body : value) : request :=
  HttpPost MonarchMoneyEndpoints.getLoginEndpoint headers body.

(** ** Sample worlds and machines *)

Module Samples.

Definition offline_error : value := VError Error "network unreachable".

(** A codec that is right on session files: [{"token":"..."}] for a
    token without quotes or backslashes. *)
Definition session_prefix : string := "{" +:+ dquote +:+ "token" +:+ dquote +:+ ":" +:+ dquote.
Definition session_suffix : string := dquote +:+ "}".

Definition sample_stringify (v : value) : string :=
  match v with
  | VObj [(_, VStr s)] => session_prefix +:+ s +:+ session_suffix
  | _ => "null"
  end.

Definition sample_parse (s : string) : outcome value :=
  let n := String.length s in
  let p := String.length session_prefix in
  if String.prefix session_prefix s && (p + 2 <=? n)%nat then
    Return (VObj [("token", VStr (String.substring p (n - p - 2) s))])
  else Throw (VError Error "Unexpected token in JSON").

(** A world given by its three endpoints: no latency, exact timers, a
    fixed calendar. *)
Definition world_of
    (f : list request -> request -> outcome fetch_response)
    (a : list request -> request -> outcome axios_response)
    (g : list request -> request -> outcome value) : world :=
  {| fetch := f;
     axios_post := a;
     graphql_request := g;
     latency := fun _ _ => 0;
     timer := fun ms => ms;
     generate_otp := fun _ => Return (VStr "000000");
     JSON_stringify := sample_stringify;
     JSON_parse := sample_parse;
     month_day := fun _ k d => if d =? 1 then "2024-03-01" else "2024-03-31";
     today := fun _ => "2024-03-15";
     days_ago := fun _ _ => "2024-02-13";
     years_ago_month := fun _ _ => "1874-3-01";
     new_Date := fun now => VNum now;
     toISODate := fun _ => Return (VStr "2024-03-15");
     round_cents := fun v => v;
     form_headers := {[ "content-type" := "multipart/form-data" ]} |}.

Definition no_fetch : list request -> request -> outcome fetch_response :=
  fun _ _ => Throw offline_error.
Definition no_axios : list request -> request -> outcome axios_response :=
  fun _ _ => Throw offline_error.
Definition no_graphql : list request -> request -> outcome value :=
  fun _ _ => Throw offline_error.

(** The login endpoint answers every attempt with the given status and body. *)
Definition login_world (status : Z) (body : value) : world :=
  world_of
    (fun _ _ => Return {| f_status := status; f_statusText := "";
                          f_json := Return body |})
    (fun _ _ => Return {| a_status := status; a_statusText := ""; a_data := body |})
    no_graphql.

(** The service answers every query with the given payload. *)
Definition graphql_world (payload : value) : world :=
  world_of no_fetch
    (fun _ _ => Return {| a_status := 200; a_statusText := "OK"; a_data := VNull |})
    (fun _ _ => Return payload).

(** An account of a status response. *)
Definition account (id : value) (syncing : bool) : value :=
  VObj [("id", id); ("hasSyncInProgress", VBool syncing)].

(** The polling stub: the account query lists the accounts, all
    idle; the refresh trigger is accepted; the first [N] status checks
    show every account syncing, the later ones show every account idle. *)
Definition stub_world (N : nat) (ids : list value) : world :=
  world_of no_fetch no_axios
    (fun h r =>
       if is_status_check r then
         Return (VObj [("accounts",
                        VArr (map (fun id => account id (negb (N <=? polls h)%nat)) ids))])
       else if has_document Documents.GetAccounts r then
         Return (VObj [("accounts", VArr (map (fun id => account id false) ids))])
       else
         Return (VObj [("forceRefreshAccounts", VObj [("success", VBool true)])])).

(** A fresh process with no token in the environment. *)
Definition fresh_store : machine Session.t :=
  Machine (Session.init ∅) 0 [] ∅.

(** A process that holds the token [abc]. *)
Definition store_abc : machine Session.t :=
  Machine {| Session.headers := <[ "Authorization" := "Token abc" ]>
                                  {[ "Client-Platform" := "web" ]};
             Session.token := VStr "abc" |} 0 [] ∅.

(** A fresh instance: [new MonarchMoney("mm_session.json")]. *)
Definition fresh_instance : machine MonarchMoney.t :=
  Machine (MonarchMoney.constructor "mm_session.json" 10000 VNull) 0 [] ∅.

(** [new MonarchMoney("mm_session.json", 10000, "abc")] *)
Definition instance_abc : machine MonarchMoney.t :=
  Machine (MonarchMoney.constructor "mm_session.json" 10000 (VStr "abc")) 0 [] ∅.

End Samples.

(** ** Scripts over the functional API

    What a program can do with the store: set the token, log in (with
    or without the console), answer the MFA challenge, call a query or
    a mutation. A script runs its actions in order and goes on after a
    failure, as a caller that catches the error would. *)

Inductive session_action :=
| DoSetToken (newToken : value)
| DoLoginUser (email password mfaSecretKey : value)
| DoMultiFactorAuthenticate (email password code : value)
| DoInteractiveLogin (question : string -> string) (useSavedSession saveSessionFlag : value)
| DoCall (c : api_call).

Definition perform (a : session_action) : M Session.t unit :=
  match a with
  | DoSetToken newToken => Session.setToken newToken
  | DoLoginUser email password mfaSecretKey => Auth.loginUser email password mfaSecretKey
  | DoMultiFactorAuthenticate email password code =>
      Auth.multiFactorAuthenticate email password code
  | DoInteractiveLogin question useSavedSession saveSessionFlag =>
      interactiveLogin question useSavedSession saveSessionFlag
  | DoCall c => let* _ := run_api c in ret tt
  end.

Fixpoint perform_all (actions : list session_action) (W : world)
    (m : machine Session.t) : machine Session.t :=
  match actions with
  | [] => m
  | a :: rest => perform_all rest W (snd (perform a W m))
  end.

(** A request in order: it names the client platform, and a query call
    carries a token. *)
Definition in_order (r : request) : Prop :=
  request_headers r !! "Client-Platform" = Some "web"
  /\ (is_graphql r = true -> has_token (request_headers r) = true).

(** The store names the client platform, every request sent so far is
    in order, and the files are those of [disk]. *)
Definition session_invariant (disk : gmap string string) (m : machine Session.t) : Prop :=
  Session.headers (prog m) !! "Client-Platform" = Some "web"
  /\ Forall in_order (sent m)
  /\ files m = disk.

(** ** Requests the builders are expected to send *)

(** The variables [setBudgetAmount] sends for an argument object, at
    the clock reading [now]. *)
Definition budget_variables (fields : list (string * value)) (W : world) (now : Z)
  : value :=
  let startDate := dflt (obj_get fields "startDate") VNull in
  VObj [("input",
         VObj [("amount", obj_get fields "amount");
               ("timeframe", dflt (obj_get fields "timeframe") (VStr "month"));
               ("categoryId", dflt (obj_get fields "categoryId") VNull);
               ("categoryGroupId", dflt (obj_get fields "categoryGroupId") VNull);
               ("applyToFuture", dflt (obj_get fields "applyToFuture") (VBool false));
               ("startDate",
                if truthy startDate then startDate else VStr (month_day W now 0 1))])].

(** The optional flags of [getTransactions]: the name of the parameter
    and the key it is sent under among the filters. *)
Definition transaction_flags : list (string * string) :=
  [("hasAttachments", "hasAttachments");
   ("hasNotes", "hasNotes");
   ("hiddenFromReports", "hideFromReports");
   ("isRecurring", "isRecurring");
   ("isSplit", "isSplit");
   ("importedFromMint", "importedFromMint");
   ("syncedFromInstitution", "syncedFromInstitution")].

(** The variables of the refresh trigger. *)
Definition refresh_variables (accountIds : value) : value :=
  VObj [("input", VObj [("accountIds", accountIds)])].

(** The status check answers without a usable account list. *)
Definition status_unavailable (W : world) : Prop :=
  forall h r,
    is_status_check r = true ->
    exists resp accounts,
      graphql_request W h r = Return resp
      /\ prop resp "accounts" = Return accounts
      /\ truthy accounts = false.

(** The refresh trigger is turned down with the error list [errors]. *)
Definition trigger_rejected (W : world) (errors : value) : Prop :=
  forall h r,
    has_document Documents.Common_ForceRefreshAccountsMutation r = true ->
    exists resp payload success,
      graphql_request W h r = Return resp
      /\ prop resp "forceRefreshAccounts" = Return payload
      /\ prop payload "success" = Return success
      /\ truthy success = false
      /\ prop payload "errors" = Return errors.

(** ** Further sample worlds *)

Module Scenes.

(** The user at the console. *)
Definition ann (prompt : string) : string :=
  if String.eqb prompt "Email: " then "ann@example.org"
  else if String.eqb prompt "Password: " then "hunter2"
  else "123456".

(** The login endpoint asks for a code on the first attempt and
    accepts the second with the token [T]. *)
Definition mfa_world (T : string) : world :=
  Samples.world_of
    (fun h _ =>
       match h with
       | [] => Return {| f_status := 403; f_statusText := "Forbidden";
                         f_json := Return (VObj []) |}
       | _ => Return {| f_status := 200; f_statusText := "OK";
                        f_json := Return (VObj [("token", VStr T)]) |}
       end)
    Samples.no_axios Samples.no_graphql.

(** The service turns the refresh trigger down, with an error list. *)
Definition rejecting_world (errors : value) : world :=
  Samples.world_of Samples.no_fetch Samples.no_axios
    (fun _ _ =>
       Return (VObj [("forceRefreshAccounts",
                      VObj [("success", VBool false); ("errors", errors)])])).

(** The service accepts the refresh trigger and answers the status
    check without an account list. *)
Definition no_status_world : world :=
  Samples.world_of Samples.no_fetch Samples.no_axios
    (fun _ r =>
       if is_status_check r then Return (VObj [("accounts", VNull)])
       else Return (VObj [("forceRefreshAccounts", VObj [("success", VBool true)])])).

(** The service answers a deletion with the given payload, under the
    key of the mutation asked for. *)
Definition deletion_world (payload : value) : world :=
  Samples.world_of Samples.no_fetch Samples.no_axios
    (fun _ r =>
       if has_document Documents.Common_DeleteTransactionMutation r
       then Return (VObj [("deleteTransaction", payload)])
       else Return (VObj [("deleteCategory", payload)])).

(** The upload endpoint answers with the given status. *)
Definition upload_world (status : Z) (text : string) : world :=
  Samples.world_of Samples.no_fetch
    (fun _ _ => Return {| a_status := status; a_statusText := text; a_data := VNull |})
    Samples.no_graphql.

End Scenes.

(** * Properties *)

(** ** JavaScript primitives *)

Lemma truthy_not_null v : truthy v = true -> is_null v = false.
Proof. now destruct v. Qed.

(** ** The login handshake *)

Section Login.
Variable W : world.

(** A 403 from the login endpoint: [loginUser] raises the MFA signal
    and leaves the credential store as it was. *)
Lemma loginUser_403 (m : machine Session.t) email password mfaSecretKey resp :
  truthy mfaSecretKey = false ->
  (forall r, fetch W (sent m) r = Return resp) ->
  f_status resp = 403 ->
  exists m',
    Auth.loginUser email password mfaSecretKey W m
    = (Throw (VError RequireMFAException "Multi-Factor Auth Required"), m')
    /\ prog m' = prog m /\ length (sent m') = S (length (sent m)).
Proof.
  intros Hmfa Hresp Hstatus.
  unfold Auth.loginUser. rewrite Hmfa.
  unfold bind, ret, Session.getHeaders, get_prog, dispatch. cbn.
  rewrite Hresp, Hstatus. cbn.
  eexists; split; [reflexivity|]. cbn. split; [reflexivity|].
  rewrite length_app. cbn. lia.
Qed.

(** The same for the class method, with or without an MFA secret. *)
Lemma _loginUser_403 (m : machine MonarchMoney.t) email password mfaSecretKey resp :
  (truthy mfaSecretKey = false \/ exists code, generate_otp W mfaSecretKey = Return code) ->
  (forall r, axios_post W (sent m) r = Return resp) ->
  a_status resp = 403 ->
  exists m',
    MonarchMoney._loginUser email password mfaSecretKey W m
    = (Throw (VError RequireMFAException "Multi-Factor Auth Required"), m')
    /\ prog m' = prog m /\ length (sent m') = S (length (sent m)).
Proof.
  intros Hmfa Hresp Hstatus.
  unfold MonarchMoney._loginUser.
  destruct (truthy mfaSecretKey) eqn:Hk.
  - destruct Hmfa as [Hf | [code Hcode]]; [discriminate|].
    unfold bind, ret, ask, lift, get_prog, dispatch. cbn. rewrite Hcode. cbn.
    rewrite Hresp, Hstatus. cbn.
    eexists; split; [reflexivity|]. cbn. split; [reflexivity|].
    rewrite length_app. cbn. lia.
  - unfold bind, ret, get_prog, dispatch. cbn.
    rewrite Hresp, Hstatus. cbn.
    eexists; split; [reflexivity|]. cbn. split; [reflexivity|].
    rewrite length_app. cbn. lia.
Qed.

End Login.



(** ** A successful login *)

Section LoginOk.
Variable W : world.

(** On the functional path a 200 with [{token: T}] stores the token and
    the header [Token T]. *)
Lemma loginUser_200 (m : machine Session.t) email password mfaSecretKey resp body T :
  truthy mfaSecretKey = false ->
  (forall r, fetch W (sent m) r = Return resp) ->
  f_status resp = 200 ->
  f_json resp = Return body ->
  prop body "token" = Return (VStr T) ->
  exists m',
    Auth.loginUser email password mfaSecretKey W m = (Return tt, m')
    /\ Session.token (prog m') = VStr T
    /\ Session.headers (prog m') !! "Authorization" = Some ("Token " +:+ T)
    /\ has_token (Session.headers (prog m')) = true.
Proof.
  intros Hmfa Hresp Hstatus Hjson Htok.
  unfold Auth.loginUser. rewrite Hmfa.
  unfold bind, ret, lift, Session.getHeaders, Session.setToken, get_prog, set_prog,
    dispatch.
  cbn. rewrite Hresp, Hstatus. cbn. rewrite Hjson, Htok. cbn.
  eexists; split; [reflexivity|]. cbn.
  split; [reflexivity|].
  split; [apply lookup_insert_eq|].
  unfold has_token, header. rewrite lookup_insert_eq. reflexivity.
Qed.

(** Every query call made while the store holds [Token T] dispatches
    one request, with the store's headers, and leaves the store alone. *)
Lemma gqlCall_attaches_headers (m : machine Session.t) operation query variables :
  has_token (Session.headers (prog m)) = true ->
  let r := GraphQL GQL_ENDPOINT (Session.headers (prog m)) 10000 query
             (dflt variables (VObj [])) in
  Api.gqlCall operation query variables W m
  = (graphql_request W (sent m) r,
     Machine (prog m) (clock m + latency W (sent m) r) (sent m ++ [r]) (files m)).
Proof.
  intros Htok r.
  unfold Api.gqlCall, Api.getGraphQLClient, Api.request_, Session.getHeaders.
  unfold bind, ret, get_prog, dispatch, has_token in *. cbn.
  rewrite Htok. reflexivity.
Qed.

(** The class method reaches [this.setToken(...)], which the class
    does not define: the login fails with a TypeError after the
    request, and neither the token nor the header is stored. *)
Lemma _loginUser_200 (m : machine MonarchMoney.t) email password mfaSecretKey resp T :
  truthy mfaSecretKey = false ->
  (forall r, axios_post W (sent m) r = Return resp) ->
  a_status resp = 200 ->
  prop (a_data resp) "token" = Return (VStr T) ->
  exists m',
    MonarchMoney._loginUser email password mfaSecretKey W m
    = (Throw (VError TypeError "this.setToken is not a function"), m')
    /\ length (sent m') = S (length (sent m))
    /\ prog m' = prog m.
Proof.
  intros Hmfa Hresp Hstatus Htok.
  unfold MonarchMoney._loginUser. rewrite Hmfa.
  unfold bind, ret, lift, get_prog, dispatch, call_undefined, throw. cbn.
  rewrite Hresp, Hstatus. cbn. rewrite Htok. cbn.
  eexists; split; [reflexivity|]. cbn. split; [|reflexivity].
  rewrite length_app. cbn. lia.
Qed.

End LoginOk.

(** X1. The functional path does what the class misses: after [loginUser]
    met a 200 with
    [{token: T}], the store reports [Authorization: Token T], and a
    query call made in any later state of the machine that still holds
    this store dispatches exactly one request, carrying exactly the
    store's headers. *)
Theorem loginUser_200_then_queries_carry_token
    (W : world) (m : machine Session.t) email password resp body T :
  (forall r, fetch W (sent m) r = Return resp) ->
  f_status resp = 200 ->
  f_json resp = Return body ->
  prop body "token" = Return (VStr T) ->
  exists m',
    Auth.loginUser email password VUndefined W m = (Return tt, m')
    /\ Session.headers (prog m') !! "Authorization" = Some ("Token " +:+ T)
    /\ forall W' (later : machine Session.t) operation query variables,
        prog later = prog m' ->
        exists r,
          dispatched (Api.gqlCall operation query variables) W' later = [r]
          /\ request_headers r = Session.headers (prog m')
          /\ request_headers r !! "Authorization" = Some ("Token " +:+ T)
          /\ prog (snd (Api.gqlCall operation query variables W' later)) = prog m'.
Proof.
  intros Hresp Hstatus Hjson Htok.
  destruct (loginUser_200 W m email password VUndefined resp body T eq_refl
              Hresp Hstatus Hjson Htok) as (m' & Hrun & _ & Hhdr & Hhas).
  exists m'. split; [exact Hrun|]. split; [exact Hhdr|].
  intros W' later operation query variables Hlater.
  unfold dispatched.
  rewrite gqlCall_attaches_headers by (rewrite Hlater; exact Hhas).
  cbn. rewrite drop_app_length. rewrite Hlater.
  eexists; split; [reflexivity|]. cbn. auto.
Qed.

(** C1. After a login attempt that the endpoint answers with HTTP 200
    and [{token: T}] the store should report [Authorization: Token T].
    On the class it does not: [MonarchMoney._loginUser] posts the
    attempt, meets the 200 and fails with a TypeError, because it calls
    [this.setToken], which the class does not define; the instance
    keeps the token and the headers it had, so no [Token T] header is
    ever reported. *)
Theorem class_login_200_raises_type_error
    (W : world) (m : machine MonarchMoney.t) email password mfaSecretKey resp T :
  truthy mfaSecretKey = false ->
  (forall r, axios_post W (sent m) r = Return resp) ->
  a_status resp = 200 ->
  prop (a_data resp) "token" = Return (VStr T) ->
  exists m',
    MonarchMoney._loginUser email password mfaSecretKey W m
    = (Throw (VError TypeError "this.setToken is not a function"), m')
    /\ length (sent m') = S (length (sent m))
    /\ MonarchMoney._token (prog m') = MonarchMoney._token (prog m)
    /\ MonarchMoney._headers (prog m') = MonarchMoney._headers (prog m).
Proof.
  intros Hmfa Hresp Hstatus Htok.
  destruct (_loginUser_200 W m email password mfaSecretKey resp T Hmfa
              Hresp Hstatus Htok) as (m' & Hrun & Hsent & Hprog).
  exists m'. rewrite Hprog. auto.
Qed.

(** The failing login: a fresh instance, an endpoint that answers 200
    with [{token: "T"}]. No Authorization header is stored. *)
Lemma class_login_200_witness :
  exists m',
    MonarchMoney._loginUser (VStr "ann@example.org") (VStr "hunter2") VUndefined
      (Samples.login_world 200 (VObj [("token", VStr "T")])) Samples.fresh_instance
    = (Throw (VError TypeError "this.setToken is not a function"), m')
    /\ length (sent m') = 1%nat
    /\ MonarchMoney._token (prog m') = VNull
    /\ MonarchMoney._headers (prog m') = {[ "Client-Platform" := "web" ]}.
Proof.
  apply (class_login_200_raises_type_error
           (Samples.login_world 200 (VObj [("token", VStr "T")])) Samples.fresh_instance
           (VStr "ann@example.org") (VStr "hunter2") VUndefined
           {| a_status := 200; a_statusText := "";
              a_data := VObj [("token", VStr "T")] |} "T");
    reflexivity.
Defined.

Lemma loginUser_200_witness :
  exists m',
    Auth.loginUser (VStr "ann@example.org") (VStr "hunter2") VUndefined
      (Samples.login_world 200 (VObj [("token", VStr "T")])) Samples.fresh_store
    = (Return tt, m')
    /\ Session.headers (prog m') !! "Authorization" = Some "Token T"
    /\ forall W' (later : machine Session.t) operation query variables,
        prog later = prog m' ->
        exists r,
          dispatched (Api.gqlCall operation query variables) W' later = [r]
          /\ request_headers r = Session.headers (prog m')
          /\ request_headers r !! "Authorization" = Some "Token T"
          /\ prog (snd (Api.gqlCall operation query variables W' later)) = prog m'.
Proof.
  apply (loginUser_200_then_queries_carry_token
           (Samples.login_world 200 (VObj [("token", VStr "T")])) Samples.fresh_store
           (VStr "ann@example.org") (VStr "hunter2")
           {| f_status := 200; f_statusText := "";
              f_json := Return (VObj [("token", VStr "T")]) |}
           (VObj [("token", VStr "T")]) "T");
    reflexivity.
Defined.

(** ** Session persistence (class) *)

(** [loadSession] never completes: whatever the file holds, the method
    throws before it assigns anything. *)
Lemma loadSession_always_throws (W : world) (m : machine MonarchMoney.t) filename :
  exists e, MonarchMoney.loadSession filename W m = (Throw e, m).
Proof.
  unfold MonarchMoney.loadSession, readFileSync, bind, ask, lift, call_undefined, throw.
  destruct (files m !! filename) as [text|]; [|eauto].
  destruct (JSON_parse W text) as [data|e]; [|eauto].
  destruct (prop data "token") as [tok|e]; eauto.
Qed.

(** [login] with a saved session on disk goes to [loadSession] and so
    fails, before any credential is looked at and without a request. *)
Lemma class_login_with_saved_session (W : world) (m : machine MonarchMoney.t)
    email password saveSession_ mfaSecretKey :
  is_Some (files m !! MonarchMoney._sessionFile (prog m)) ->
  exists e,
    MonarchMoney.login email password VUndefined saveSession_ mfaSecretKey W m
    = (Throw e, m).
Proof.
  intros Hfile. unfold MonarchMoney.login. cbn [dflt truthy].
  unfold bind at 1, get_prog. unfold bind at 1, existsSync.
  rewrite bool_decide_eq_true_2 by exact Hfile.
  apply loadSession_always_throws.
Qed.

(** [login] without a saved session passes the 403 of the endpoint on
    as the MFA signal and writes no session file. *)
Lemma class_login_403 (W : world) (m : machine MonarchMoney.t)
    email password saveSession_ resp :
  truthy email = true -> truthy password = true ->
  (forall r, axios_post W (sent m) r = Return resp) ->
  a_status resp = 403 ->
  exists m',
    MonarchMoney.login email password (VBool false) saveSession_ VUndefined W m
    = (Throw (VError RequireMFAException "Multi-Factor Auth Required"), m')
    /\ prog m' = prog m /\ files m' = files m.
Proof.
  intros He Hp Hresp Hstatus. unfold MonarchMoney.login. cbn [dflt truthy].
  assert (Hde : truthy (dflt email VNull) = true) by (destruct email; easy).
  assert (Hdp : truthy (dflt password VNull) = true) by (destruct password; easy).
  unfold bind at 1, get_prog. unfold bind at 1, ret at 1.
  rewrite Hde, Hdp. cbn [negb orb].
  unfold MonarchMoney._loginUser. cbn [truthy].
  unfold bind, ret, get_prog, dispatch. cbn.
  rewrite Hresp, Hstatus. cbn.
  eexists; split; [reflexivity|]. cbn. auto.
Qed.

(** C6. Saving a session while [t] is the active token and loading the
    saved file into a fresh instance does not restore [t]: with a JSON
    codec that round-trips the session data, [saveSession] writes the
    file and [loadSession] then fails with a TypeError on the call of
    the undefined [this.setToken], leaving the loading instance with
    the token and headers it had. *)
Theorem session_roundtrip_raises_type_error
    (W : world) (m : machine MonarchMoney.t) (loader : MonarchMoney.t)
    (filename t : string) (data : value) :
  MonarchMoney._token (prog m) = VStr t ->
  JSON_parse W (JSON_stringify W (VObj [("token", VStr t)])) = Return data ->
  prop data "token" = Return (VStr t) ->
  exists saved,
    MonarchMoney.saveSession filename W m = (Return tt, saved)
    /\ sent saved = sent m
    /\ MonarchMoney.loadSession filename W
         (Machine loader (clock saved) (sent saved) (files saved))
       = (Throw (VError TypeError "this.setToken is not a function"),
          Machine loader (clock saved) (sent saved) (files saved)).
Proof.
  intros Htok Hcodec Hdata.
  unfold MonarchMoney.saveSession, MonarchMoney.loadSession.
  unfold bind, ask, lift, get_prog, writeFileSync, readFileSync, call_undefined, throw.
  cbn. rewrite Htok.
  eexists; split; [reflexivity|]. cbn. split; [reflexivity|].
  rewrite lookup_insert_eq. rewrite Hcodec, Hdata. reflexivity.
Qed.

(** The round trip at the token [abc]: the fresh instance still has no
    token and no Authorization header after loading. *)
Lemma session_roundtrip_witness :
  exists saved,
    MonarchMoney.saveSession "mm_session.json" (Samples.login_world 200 VNull)
      Samples.instance_abc = (Return tt, saved)
    /\ sent saved = []
    /\ MonarchMoney.loadSession "mm_session.json" (Samples.login_world 200 VNull)
         (Machine (prog Samples.fresh_instance) (clock saved) (sent saved) (files saved))
       = (Throw (VError TypeError "this.setToken is not a function"),
          Machine (prog Samples.fresh_instance) (clock saved) (sent saved) (files saved)).
Proof.
  apply (session_roundtrip_raises_type_error
           (Samples.login_world 200 VNull) Samples.instance_abc
           (prog Samples.fresh_instance) "mm_session.json" "abc"
           (VObj [("token", VStr "abc")]));
    reflexivity.
Defined.

(** ** The two dispatchers *)

Lemma api_gqlCall_dispatches W (m : machine Session.t) operation query variables :
  has_token (Session.headers (prog m)) = true ->
  Api.gqlCall operation query variables W m
  = (graphql_request W (sent m) (api_request (prog m) query (dflt variables (VObj []))),
     after_request W m (api_request (prog m) query (dflt variables (VObj [])))).
Proof. intros H. now rewrite gqlCall_attaches_headers. Qed.

(** Without a token [gqlCall] of api.js raises [LoginFailedException]
    and nothing leaves. *)
Lemma api_gqlCall_without_token W (m : machine Session.t) operation query variables :
  has_token (Session.headers (prog m)) = false ->
  Api.gqlCall operation query variables W m
  = (Throw (VError LoginFailedException LOGIN_FIRST_MESSAGE), m).
Proof.
  intros H. unfold Api.gqlCall, Api.getGraphQLClient, Session.getHeaders.
  unfold bind, ret, get_prog, throw, has_token in *. cbn. now rewrite H.
Qed.

(** The guard of the class tests the header object itself, which is
    always there: the call is dispatched with or without a token. *)
Lemma class_gqlCall_dispatches W (m : machine MonarchMoney.t) operation query variables :
  MonarchMoney.gqlCall operation query variables W m
  = (graphql_request W (sent m) (class_request (prog m) query (dflt variables (VObj []))),
     after_request W m (class_request (prog m) query (dflt variables (VObj [])))).
Proof. reflexivity. Qed.

Lemma class_dispatcher_ready W (m : machine MonarchMoney.t) operation query variables :
  True ->
  MonarchMoney.gqlCall operation query variables W m
  = (graphql_request W (sent m) (class_request (prog m) query (dflt variables (VObj []))),
     after_request W m (class_request (prog m) query (dflt variables (VObj [])))).
Proof. reflexivity. Qed.

(** ** Facts that hold over any dispatcher that hands the request on *)

Section DispatcherFacts.
Context {P : Type}.
Variable gqlCall : string -> value -> value -> M P value.
Variable build : P -> value -> value -> request.
Variable ready : P -> Prop.
Hypothesis gqlCall_dispatches :
  forall W m operation query variables,
    ready (prog m) ->
    gqlCall operation query variables W m
    = (graphql_request W (sent m) (build (prog m) query (dflt variables (VObj []))),
       after_request W m (build (prog m) query (dflt variables (VObj [])))).

(** [deleteAccount] hands back whatever the service answered. *)
Lemma deleteAccount_returns_payload W m accountId :
  ready (prog m) ->
  Operations.deleteAccount gqlCall accountId W m
  = (graphql_request W (sent m)
       (build (prog m) Documents.Common_DeleteAccount (VObj [("id", accountId)])),
     after_request W m
       (build (prog m) Documents.Common_DeleteAccount (VObj [("id", accountId)]))).
Proof. intros Hr. unfold Operations.deleteAccount. now rewrite gqlCall_dispatches. Qed.

(** [deleteTransaction] raises when the flag is falsy. The exception is
    built from the error list; its message is the list coerced to a
    string. *)
Lemma deleteTransaction_raises W m transactionId resp payload deleted errors :
  ready (prog m) ->
  (forall r, graphql_request W (sent m) r = Return resp) ->
  prop resp "deleteTransaction" = Return payload ->
  prop payload "deleted" = Return deleted ->
  truthy deleted = false ->
  prop payload "errors" = Return errors ->
  fst (Operations.deleteTransaction gqlCall transactionId W m)
  = Throw (new_error RequestFailedException errors).
Proof.
  intros Hr Hresp Hp Hd Hf He. unfold Operations.deleteTransaction.
  unfold bind. rewrite gqlCall_dispatches by assumption. rewrite Hresp.
  unfold lift. rewrite Hp, Hd, Hf. cbn. now rewrite He.
Qed.

Lemma deleteTransactionCategory_raises W m categoryId resp payload deleted errors :
  ready (prog m) ->
  (forall r, graphql_request W (sent m) r = Return resp) ->
  prop resp "deleteCategory" = Return payload ->
  prop payload "deleted" = Return deleted ->
  truthy deleted = false ->
  prop payload "errors" = Return errors ->
  fst (Operations.deleteTransactionCategory gqlCall categoryId W m)
  = Throw (new_error RequestFailedException errors).
Proof.
  intros Hr Hresp Hp Hd Hf He. unfold Operations.deleteTransactionCategory.
  unfold bind. rewrite gqlCall_dispatches by assumption. rewrite Hresp.
  unfold lift. rewrite Hp, Hd, Hf. cbn. now rewrite He.
Qed.

(** One deletion dispatches one request and keeps the program state,
    whatever comes back. *)
Lemma deleteTransactionCategory_machine W m categoryId :
  ready (prog m) ->
  snd (Operations.deleteTransactionCategory gqlCall categoryId W m)
  = after_request W m
      (build (prog m) Documents.Web_DeleteCategory (VObj [("id", categoryId)])).
Proof.
  intros Hr. unfold Operations.deleteTransactionCategory.
  unfold bind. rewrite gqlCall_dispatches by assumption.
  cbn [dflt].
  destruct (graphql_request _ _ _) as [resp|e]; [|reflexivity].
  unfold lift.
  destruct (prop resp "deleteCategory") as [payload|e]; [|reflexivity].
  destruct (prop payload "deleted") as [deleted|e]; [|reflexivity].
  destruct (negb (truthy deleted)); [|reflexivity].
  destruct (prop payload "errors"); reflexivity.
Qed.

End DispatcherFacts.



(** The sibling deletions do inspect the flag, in both implementations. *)
Lemma sibling_deletions_raise
    (W : world) (ms : machine Session.t) (mc : machine MonarchMoney.t)
    (id resp payload deleted errors : value) :
  has_token (Session.headers (prog ms)) = true ->
  (forall h r, graphql_request W h r = Return resp) ->
  prop payload "deleted" = Return deleted ->
  truthy deleted = false ->
  prop payload "errors" = Return errors ->
  (prop resp "deleteTransaction" = Return payload ->
   fst (Api.deleteTransaction id W ms) = Throw (new_error RequestFailedException errors)
   /\ fst (MonarchMoney.deleteTransaction id W mc)
      = Throw (new_error RequestFailedException errors))
  /\ (prop resp "deleteCategory" = Return payload ->
      fst (Api.deleteTransactionCategory id W ms)
      = Throw (new_error RequestFailedException errors)
      /\ fst (MonarchMoney.deleteTransactionCategory id W mc)
         = Throw (new_error RequestFailedException errors)).
Proof.
  intros Htok Hresp Hd Hf He. split; intros Hp; split.
  - apply (deleteTransaction_raises Api.gqlCall api_request
             (fun p => has_token (Session.headers p) = true))
      with (resp := resp) (payload := payload) (deleted := deleted);
      auto using api_gqlCall_dispatches.
  - apply (deleteTransaction_raises MonarchMoney.gqlCall class_request (fun _ => True))
      with (resp := resp) (payload := payload) (deleted := deleted);
      auto using class_gqlCall_dispatches.
  - apply (deleteTransactionCategory_raises Api.gqlCall api_request
             (fun p => has_token (Session.headers p) = true))
      with (resp := resp) (payload := payload) (deleted := deleted);
      auto using api_gqlCall_dispatches.
  - apply (deleteTransactionCategory_raises MonarchMoney.gqlCall class_request
             (fun _ => True))
      with (resp := resp) (payload := payload) (deleted := deleted);
      auto using class_gqlCall_dispatches.
Qed.

(** What the raised exception holds for a structured error list. *)
Example request_failed_message :
  new_error RequestFailedException
    (VArr [VObj [("message", VStr "locked"); ("code", VStr "LOCKED")]])
  = VError RequestFailedException "[object Object]".
Proof. reflexivity. Qed.

(** ** Batch category deletion *)

(** C8. [deleteTransactionCategories] should return one outcome per
    id and not abort. In api.js, called through a named import, the
    function finds [this] undefined: the first element of a non-empty
    list raises a TypeError inside [map], the whole call rejects, no
    deletion is dispatched and no list of outcomes is returned. *)
Theorem api_deleteTransactionCategories_rejects
    (W : world) (m : machine Session.t) (id : value) (ids : list value) :
  let run := Api.deleteTransactionCategories Api.ThisUndefined (VArr (id :: ids)) W m in
  fst run
  = Throw (VError TypeError
             "Cannot read properties of undefined (reading 'deleteTransactionCategory')")
  /\ (forall results, fst run <> Return (VArr results))
  /\ snd run = m
  /\ dispatched (Api.deleteTransactionCategories Api.ThisUndefined (VArr (id :: ids))) W m
     = [].
Proof.
  cbn zeta.
  assert (Hrun : Api.deleteTransactionCategories Api.ThisUndefined (VArr (id :: ids)) W m
                 = (Throw (VError TypeError
                             "Cannot read properties of undefined (reading 'deleteTransactionCategory')"),
                    m)) by reflexivity.
  unfold dispatched. rewrite Hrun. cbn [fst snd].
  split; [reflexivity|]. split; [discriminate|]. split; [reflexivity|].
  apply drop_all.
Qed.

(** Gathering with [catch] never rejects and keeps one outcome per
    element, in order. *)
Lemma map_m_catch_total {P} (f : value -> M P value) (W : world) :
  forall (ids : list value) (m : machine P),
  exists results m',
    map_m (fun id => catch (f id) (fun e => ret e)) ids W m = (Return results, m')
    /\ length results = length ids
    /\ Forall2 (fun id r => exists mi, r = settle (fst (f id W mi))) ids results.
Proof.
  induction ids as [|id ids IH]; intros m.
  - exists [], m. cbn. repeat split; constructor.
  - cbn [map_m]. unfold bind at 1, catch at 1.
    destruct (f id W m) as [[v|e] m1] eqn:Hrun.
    + destruct (IH m1) as (rs & m2 & Hrest & Hlen & Hall).
      exists (v :: rs), m2. unfold bind. rewrite Hrest. cbn.
      repeat split; [now rewrite Hlen|].
      constructor; [|exact Hall]. exists m. now rewrite Hrun.
    + destruct (IH m1) as (rs & m2 & Hrest & Hlen & Hall).
      exists (e :: rs), m2. unfold ret at 1. unfold bind. rewrite Hrest. cbn.
      repeat split; [now rewrite Hlen|].
      constructor; [|exact Hall]. exists m. now rewrite Hrun.
Qed.

(** One deletion of the class under [catch]: the outcome is settled
    into a value and one request has left. *)
Lemma class_delete_settles (W : world) (m : machine MonarchMoney.t) (id : value) :
  catch (MonarchMoney.deleteTransactionCategory id) (fun e => ret e) W m
  = (Return (settle (fst (MonarchMoney.deleteTransactionCategory id W m))),
     after_request W m
       (class_request (prog m) Documents.Web_DeleteCategory (VObj [("id", id)]))).
Proof.
  pose proof (deleteTransactionCategory_machine MonarchMoney.gqlCall class_request
                (fun _ => True) class_dispatcher_ready W m id I) as Hm.
  unfold catch, MonarchMoney.deleteTransactionCategory in *.
  destruct (Operations.deleteTransactionCategory MonarchMoney.gqlCall id W m)
    as [[v|e] m1]; cbn in *; now subst m1.
Qed.

(** The log after the class has worked through a list of ids. *)
Lemma class_batch_log (W : world) :
  forall (ids : list value) (m : machine MonarchMoney.t),
    sent (snd (map_m (fun id => catch (MonarchMoney.deleteTransactionCategory id)
                                  (fun e => ret e)) ids W m))
    = (sent m ++ map (fun id => class_request (prog m) Documents.Web_DeleteCategory
                                  (VObj [("id", id)])) ids)%list.
Proof.
  induction ids as [|id ids IH]; intros m.
  - cbn. now rewrite app_nil_r.
  - cbn [map_m]. unfold bind at 1. rewrite class_delete_settles.
    specialize (IH (after_request W m
                      (class_request (prog m) Documents.Web_DeleteCategory
                         (VObj [("id", id)])))).
    unfold bind.
    destruct (map_m _ ids W _) as [[rs|e] m2]; cbn in *;
      rewrite IH; now rewrite <- app_assoc.
Qed.


(** ** The refresh status check *)

Lemma prop_field x k : nullish x = false -> prop x k = Return (field x k).
Proof. unfold field. destruct x; cbn; intros H; try discriminate; reflexivity. Qed.

Lemma every_forallb (f : value -> outcome bool) (g : value -> bool) items :
  Forall (fun x => f x = Return (g x)) items ->
  every f items = Return (forallb g items).
Proof.
  induction 1 as [|x rest Hx _ IH]; [reflexivity|].
  cbn. rewrite Hx. cbn. destruct (g x); [exact IH | reflexivity].
Qed.

(** With a list of ids the verdict is: every account idle and listed. *)
Lemma refresh_verdict_listed ids resp accts :
  prop resp "accounts" = Return (VArr accts) ->
  Forall (fun x => nullish x = false) accts ->
  Operations.refresh_verdict (VArr ids) resp
  = Return (forallb (fun x => negb (truthy (field x "hasSyncInProgress"))
                              && includes ids (field x "id")) accts).
Proof.
  intros Hacc Hobj. unfold Operations.refresh_verdict. rewrite Hacc. cbn.
  apply every_forallb. eapply Forall_impl; [exact Hobj|].
  intros x Hx. cbn beta. rewrite (prop_field x "hasSyncInProgress" Hx). cbn.
  destruct (truthy (field x "hasSyncInProgress")); cbn; [reflexivity|].
  now rewrite (prop_field x "id" Hx).
Qed.

(** Without a list the verdict is: every account idle. *)
Lemma refresh_verdict_all resp accts :
  prop resp "accounts" = Return (VArr accts) ->
  Forall (fun x => nullish x = false) accts ->
  Operations.refresh_verdict VNull resp
  = Return (forallb (fun x => negb (truthy (field x "hasSyncInProgress"))) accts).
Proof.
  intros Hacc Hobj. unfold Operations.refresh_verdict. rewrite Hacc. cbn.
  apply every_forallb. eapply Forall_impl; [exact Hobj|].
  intros x Hx. cbn beta. now rewrite (prop_field x "hasSyncInProgress" Hx).
Qed.

Lemma api_isAccountsRefreshComplete_run W (m : machine Session.t) accountIds resp :
  has_token (Session.headers (prog m)) = true ->
  (forall h r, graphql_request W h r = Return resp) ->
  fst (Api.isAccountsRefreshComplete accountIds W m)
  = Operations.refresh_verdict (dflt accountIds VNull) resp.
Proof.
  intros Htok Hresp.
  unfold Api.isAccountsRefreshComplete, Operations.isAccountsRefreshComplete.
  unfold bind. rewrite api_gqlCall_dispatches by assumption. now rewrite Hresp.
Qed.

Lemma class_isAccountsRefreshComplete_run W (m : machine MonarchMoney.t) accountIds resp :
  (forall h r, graphql_request W h r = Return resp) ->
  fst (MonarchMoney.isAccountsRefreshComplete accountIds W m)
  = Operations.refresh_verdict (dflt accountIds VNull) resp.
Proof.
  intros Hresp.
  unfold MonarchMoney.isAccountsRefreshComplete, Operations.isAccountsRefreshComplete.
  unfold bind. rewrite class_gqlCall_dispatches. now rewrite Hresp.
Qed.



(** ** The polling helper *)

Lemma polls_app h r : polls (h ++ [r]) = (polls h + if is_status_check r then 1 else 0)%nat.
Proof.
  unfold polls. rewrite List.filter_app, length_app. cbn.
  now destruct (is_status_check r).
Qed.

Section Polling.
Context {P : Type}.
Variable gqlCall : string -> value -> value -> M P value.
Variable build : P -> value -> value -> request.
Variable ready : P -> Prop.
Hypothesis gqlCall_dispatches :
  forall W m operation query variables,
    ready (prog m) ->
    gqlCall operation query variables W m
    = (graphql_request W (sent m) (build (prog m) query (dflt variables (VObj []))),
       after_request W m (build (prog m) query (dflt variables (VObj [])))).
Hypothesis build_document :
  forall p query variables, request_document (build p query variables) = query.

Variable W : world.
Variable log0 : list request.
Variable accountIds : value.
Variable N : nat.
Variables timeout delay start : Z.
Hypothesis Hstub : status_stub W log0 accountIds N.
Hypothesis Hclock : ideal_clock W delay.
Hypothesis Hids : truthy accountIds = true.
Hypothesis Hdelay : 0 <= delay.

Lemma has_document_build p document query variables :
  has_document document (build p query variables)
  = match query, document with
    | VStr d, VStr d' => String.eqb d d'
    | _, _ => false
    end.
Proof. unfold has_document. now rewrite build_document. Qed.

Lemma build_status p variables :
  is_status_check (build p Documents.ForceRefreshAccountsQuery variables) = true.
Proof. unfold is_status_check. now rewrite has_document_build. Qed.

(** One round of the loop body: sleep, then one status check. *)
Lemma poll_round (m : machine P) h :
  ready (prog m) ->
  sent m = (log0 ++ h)%list ->
  exists m',
    bind (sleep (delay * 1000))
      (fun _ => Operations.isAccountsRefreshComplete gqlCall accountIds) W m
    = (Return (N <=? polls h)%nat, m')
    /\ prog m' = prog m
    /\ clock m' = clock m + delay * 1000
    /\ exists r, sent m' = (log0 ++ (h ++ [r]))%list /\ is_status_check r = true.
Proof.
  intros Hr Hsent. destruct Hclock as [Hlat Htimer].
  unfold bind at 1, sleep. rewrite Htimer.
  unfold Operations.isAccountsRefreshComplete, bind.
  rewrite gqlCall_dispatches by exact Hr. cbn [sent prog clock files dflt].
  set (r := build (prog m) Documents.ForceRefreshAccountsQuery (VObj [])).
  destruct (Hstub h r (build_status _ _)) as (resp & Hresp & Hverdict).
  rewrite Hsent, Hresp. unfold lift.
  assert (Hd : dflt accountIds VNull = accountIds) by (destruct accountIds; easy).
  rewrite Hd, Hverdict.
  eexists; split; [reflexivity|]. unfold after_request. cbn.
  rewrite Hlat. repeat split; [lia|].
  exists r. split; [now rewrite app_assoc | apply build_status].
Qed.

(** The loop, one iteration unrolled. *)
Lemma poll_unroll fuel refreshed (m : machine P) :
  Operations.poll gqlCall (S fuel) accountIds start timeout delay refreshed W m
  = if negb refreshed && (clock m <=? start + timeout * 1000) then
      bind (bind (sleep (delay * 1000))
              (fun _ => Operations.isAccountsRefreshComplete gqlCall accountIds))
        (fun r => Operations.poll gqlCall fuel accountIds start timeout delay r) W m
    else (Return (Some refreshed), m).
Proof.
  cbn [Operations.poll]. unfold bind at 1, Date_now.
  destruct (negb refreshed && (clock m <=? start + timeout * 1000)); reflexivity.
Qed.

(** While [N * delay <= timeout]: from [k <= N] polls done the loop
    ends with [true] at the poll number [N + 1]. *)
Lemma poll_reaches_true :
  Z.of_nat N * delay <= timeout ->
  forall n k (m : machine P) h fuel,
    (n + k = N)%nat ->
    ready (prog m) ->
    sent m = (log0 ++ h)%list ->
    polls h = k ->
    clock m = start + Z.of_nat k * (delay * 1000) ->
    (n + 2 <= fuel)%nat ->
    exists m' h',
      Operations.poll gqlCall fuel accountIds start timeout delay false W m
      = (Return (Some true), m')
      /\ prog m' = prog m
      /\ clock m' = start + (Z.of_nat N + 1) * (delay * 1000)
      /\ sent m' = (log0 ++ h')%list /\ polls h' = S N.
Proof.
  intros Hfits. induction n as [|n IH]; intros k m h fuel Hk Hr Hsent Hpolls Hnow Hfuel.
  - destruct fuel as [|[|fuel]]; try lia. cbn in Hk.
    rewrite poll_unroll.
    assert (Hle : (clock m <=? start + timeout * 1000) = true)
      by (apply Z.leb_le; nia).
    rewrite Hle. cbn [negb andb].
    destruct (poll_round m h Hr Hsent) as (m1 & Hround & Hp1 & Hc1 & r & Hs1 & Hst).
    rewrite Hpolls, Hk, Nat.leb_refl in Hround.
    unfold bind at 1. rewrite Hround. rewrite poll_unroll. cbn [negb andb].
    exists m1, (h ++ [r])%list.
    split; [reflexivity|]. split; [exact Hp1|].
    split; [rewrite Hc1, Hnow; subst k; lia|].
    split; [exact Hs1|]. rewrite polls_app, Hst, Hpolls. lia.
  - destruct fuel as [|fuel]; try lia.
    rewrite poll_unroll.
    assert (Hle : (clock m <=? start + timeout * 1000) = true)
      by (apply Z.leb_le; nia).
    rewrite Hle. cbn [negb andb].
    destruct (poll_round m h Hr Hsent) as (m1 & Hround & Hp1 & Hc1 & r & Hs1 & Hst).
    assert (Hlt : (N <=? polls h)%nat = false) by (apply Nat.leb_gt; lia).
    rewrite Hlt in Hround.
    unfold bind at 1. rewrite Hround.
    destruct (IH (S k) m1 (h ++ [r])%list fuel) as (m' & h' & Hrun & Hp & Hc & Hs & Hn);
      [lia | now rewrite Hp1 | exact Hs1 | rewrite polls_app, Hst, Hpolls; lia
       | rewrite Hc1, Hnow; lia | lia |].
    exists m', h'. rewrite Hrun.
    split; [reflexivity|]. split; [now rewrite Hp, Hp1|]. auto.
Qed.

(** While [timeout < N * delay]: the loop ends with [false], after the
    deadline has passed. *)
Lemma poll_times_out :
  timeout < Z.of_nat N * delay ->
  forall n k (m : machine P) h fuel,
    (n + k = N)%nat ->
    ready (prog m) ->
    sent m = (log0 ++ h)%list ->
    polls h = k ->
    clock m = start + Z.of_nat k * (delay * 1000) ->
    (n + 1 <= fuel)%nat ->
    exists m' h',
      Operations.poll gqlCall fuel accountIds start timeout delay false W m
      = (Return (Some false), m')
      /\ prog m' = prog m
      /\ start + timeout * 1000 < clock m'
      /\ sent m' = (log0 ++ h')%list /\ (polls h' <= N)%nat.
Proof.
  intros Hshort. induction n as [|n IH]; intros k m h fuel Hk Hr Hsent Hpolls Hnow Hfuel.
  - destruct fuel as [|fuel]; try lia. cbn in Hk.
    rewrite poll_unroll.
    assert (Hgt : (clock m <=? start + timeout * 1000) = false)
      by (apply Z.leb_gt; nia).
    rewrite Hgt. cbn [negb andb].
    exists m, h.
    split; [reflexivity|]. split; [reflexivity|].
    split; [nia|]. split; [exact Hsent | lia].
  - destruct fuel as [|fuel]; try lia.
    rewrite poll_unroll.
    destruct (clock m <=? start + timeout * 1000) eqn:Hle; cbn [negb andb].
    + destruct (poll_round m h Hr Hsent) as (m1 & Hround & Hp1 & Hc1 & r & Hs1 & Hst).
      assert (Hlt : (N <=? polls h)%nat = false) by (apply Nat.leb_gt; lia).
      rewrite Hlt in Hround.
      unfold bind at 1. rewrite Hround.
      destruct (IH (S k) m1 (h ++ [r])%list fuel) as (m' & h' & Hrun & Hp & Hc & Hs & Hn);
        [lia | now rewrite Hp1 | exact Hs1 | rewrite polls_app, Hst, Hpolls; lia
         | rewrite Hc1, Hnow; lia | lia |].
      exists m', h'. rewrite Hrun.
      split; [reflexivity|]. split; [now rewrite Hp, Hp1|]. auto.
    + apply Z.leb_gt in Hle.
      exists m, h.
      split; [reflexivity|]. split; [reflexivity|].
      split; [lia|]. split; [exact Hsent | lia].
Qed.

Variable given : value.
Hypothesis Htrigger : trigger_accepted W.
Hypothesis Hgiven :
  given = accountIds
  \/ (truthy (dflt given VNull) = false /\ accounts_listed W accountIds).

(** The trigger of the refresh goes through and takes no time. *)
Lemma requestAccountsRefresh_accepted (m : machine P) :
  ready (prog m) ->
  Operations.requestAccountsRefresh gqlCall accountIds W m
  = (Return (VBool true),
     after_request W m
       (build (prog m) Documents.Common_ForceRefreshAccountsMutation
          (VObj [("input", VObj [("accountIds", accountIds)])]))).
Proof.
  intros Hr. unfold Operations.requestAccountsRefresh, bind.
  rewrite gqlCall_dispatches by exact Hr. cbn [dflt].
  destruct (Htrigger (sent m)
              (build (prog m) Documents.Common_ForceRefreshAccountsMutation
                 (VObj [("input", VObj [("accountIds", accountIds)])])))
    as (resp & payload & success & Hresp & Hp & Hs & Ht);
    [now rewrite has_document_build|].
  rewrite Hresp. unfold lift. rewrite Hp, Hs, Ht. reflexivity.
Qed.

(** Up to the loop: the ids are resolved and the refresh is triggered,
    without a status check and without the clock moving. *)
Lemma wait_head (m : machine P) fuel :
  ready (prog m) ->
  sent m = log0 ->
  exists m0 h0,
    Operations.requestAccountsRefreshAndWait gqlCall fuel given timeout delay W m
    = Operations.poll gqlCall fuel accountIds (clock m) timeout delay false W m0
    /\ prog m0 = prog m
    /\ clock m0 = clock m
    /\ sent m0 = (log0 ++ h0)%list
    /\ polls h0 = 0%nat.
Proof.
  intros Hr Hsent. destruct Hclock as [Hlat _].
  assert (Hpoll0 : forall p v,
             is_status_check (build p Documents.Common_ForceRefreshAccountsMutation v)
             = false)
    by (intros; unfold is_status_check; now rewrite has_document_build).
  destruct Hgiven as [-> | [Hnone Hlisted]].
  - set (trigger := build (prog m) Documents.Common_ForceRefreshAccountsMutation
                      (VObj [("input", VObj [("accountIds", accountIds)])])).
    exists (after_request W m trigger), [trigger]. split; [|split; [|split; [|split]]].
    + unfold Operations.requestAccountsRefreshAndWait.
      assert (Hd : dflt accountIds VNull = accountIds) by (destruct accountIds; easy).
      rewrite Hd, Hids. cbn [negb]. unfold bind at 1. unfold ret at 1.
      unfold bind at 1. rewrite requestAccountsRefresh_accepted by exact Hr.
      fold trigger. unfold bind, Date_now. cbn [clock after_request].
      now rewrite Hlat, Z.add_0_r.
    + reflexivity.
    + cbn. rewrite Hlat. lia.
    + cbn. now rewrite Hsent.
    + unfold polls. cbn. unfold trigger. now rewrite Hpoll0.
  - set (listing := build (prog m) Documents.GetAccounts (VObj [])).
    set (m1 := after_request W m listing).
    set (trigger := build (prog m1) Documents.Common_ForceRefreshAccountsMutation
                      (VObj [("input", VObj [("accountIds", accountIds)])])).
    destruct (Hlisted (sent m) listing) as (resp & Hresp & Hidsof);
      [unfold listing; now rewrite has_document_build|].
    exists (after_request W m1 trigger), [listing; trigger].
    split; [|split; [|split; [|split]]].
    + unfold Operations.requestAccountsRefreshAndWait.
      rewrite Hnone. cbn [negb]. unfold bind at 1.
      unfold Operations.getAccounts. unfold bind at 1.
      rewrite gqlCall_dispatches by exact Hr. cbn [dflt]. fold listing. rewrite Hresp.
      unfold lift at 1. rewrite Hidsof.
      unfold bind at 1. fold m1.
      rewrite requestAccountsRefresh_accepted by exact Hr.
      fold trigger. unfold bind, Date_now. cbn [clock after_request m1].
      now rewrite !Hlat, !Z.add_0_r.
    + reflexivity.
    + cbn. rewrite !Hlat. lia.
    + cbn. rewrite Hsent, <- app_assoc. reflexivity.
    + unfold polls. cbn. unfold trigger. rewrite Hpoll0.
      unfold listing, is_status_check. now rewrite has_document_build.
Qed.

(** The helper from a machine whose log is [log0] and whose clock
    reads [start]. *)
Lemma wait_outcome (m : machine P) fuel :
  ready (prog m) ->
  sent m = log0 ->
  clock m = start ->
  (N + 2 <= fuel)%nat ->
  exists m' h',
    sent m' = (log0 ++ h')%list
    /\ prog m' = prog m
    /\ (Z.of_nat N * delay <= timeout ->
        Operations.requestAccountsRefreshAndWait gqlCall fuel given timeout delay W m
        = (Return (Some true), m')
        /\ elapsed m m' = (Z.of_nat N + 1) * (delay * 1000)
        /\ polls h' = S N)
    /\ (timeout < Z.of_nat N * delay ->
        Operations.requestAccountsRefreshAndWait gqlCall fuel given timeout delay W m
        = (Return (Some false), m')
        /\ timeout * 1000 < elapsed m m'
        /\ (polls h' <= N)%nat).
Proof.
  intros Hr Hsent Hstart Hfuel.
  destruct (wait_head m fuel Hr Hsent) as (m0 & h0 & Hhead & Hp0 & Hc0 & Hs0 & Hn0).
  rewrite Hstart in Hhead, Hc0.
  assert (Hr0 : ready (prog m0)) by now rewrite Hp0.
  assert (Hc0' : clock m0 = start + Z.of_nat 0 * (delay * 1000)) by lia.
  destruct (Z_le_gt_dec (Z.of_nat N * delay) timeout) as [Hfits | Hshort].
  - destruct (poll_reaches_true Hfits N 0%nat m0 h0 fuel)
      as (m' & h' & Hrun & Hp & Hc & Hs & Hn);
      [lia | exact Hr0 | exact Hs0 | exact Hn0 | exact Hc0' | lia |].
    exists m', h'. split; [exact Hs|]. split; [now rewrite Hp|]. split.
    + intros _. split; [now rewrite Hhead|]. split; [unfold elapsed; lia | exact Hn].
    + intros Hcontra. lia.
  - destruct (poll_times_out ltac:(lia) N 0%nat m0 h0 fuel)
      as (m' & h' & Hrun & Hp & Hc & Hs & Hn);
      [lia | exact Hr0 | exact Hs0 | exact Hn0 | exact Hc0' | lia |].
    exists m', h'. split; [exact Hs|]. split; [now rewrite Hp|]. split.
    + intros Hcontra. lia.
    + intros _. split; [now rewrite Hhead|]. split; [unfold elapsed; lia | exact Hn].
Qed.

End Polling.

Lemma polling_outcome_of_wait {P} (run : M P (option bool)) W (m : machine P)
    N timeout delay :
  0 <= delay ->
  (exists m' h',
      sent m' = (sent m ++ h')%list
      /\ prog m' = prog m
      /\ (Z.of_nat N * delay <= timeout ->
          run W m = (Return (Some true), m')
          /\ elapsed m m' = (Z.of_nat N + 1) * (delay * 1000)
          /\ polls h' = S N)
      /\ (timeout < Z.of_nat N * delay ->
          run W m = (Return (Some false), m')
          /\ timeout * 1000 < elapsed m m'
          /\ (polls h' <= N)%nat)) ->
  polling_outcome run W m N timeout delay.
Proof.
  intros Hdelay (m' & h' & Hs & _ & Htrue & Hfalse).
  assert (Hdrop : drop (length (sent m)) (sent m') = h')
    by (rewrite Hs; apply drop_app_length).
  split; intros Hcase.
  - destruct (Htrue Hcase) as (Hrun & Hel & Hn).
    exists m'. rewrite Hdrop. repeat split; auto; lia.
  - destruct (Hfalse Hcase) as (Hrun & Hel & Hn).
    exists m'. rewrite Hdrop. auto.
Qed.


(** The stub world meets the hypotheses of the polling property. *)
Lemma stub_world_status N :
  status_stub (Samples.stub_world N [VStr "a1"]) [] (VArr [VStr "a1"]) N.
Proof.
  intros h r Hr. cbn. rewrite Hr.
  eexists; split; [reflexivity|].
  unfold Operations.refresh_verdict. cbn.
  now destruct (N <=? _)%nat.
Qed.

Lemma stub_world_trigger N ids : trigger_accepted (Samples.stub_world N ids).
Proof.
  intros h r Hr. cbn.
  assert (Hs : is_status_check r = false).
  { unfold is_status_check, has_document in *.
    destruct (request_document r) as [| | | |d| | |]; try discriminate.
    apply String.eqb_eq in Hr. now subst d. }
  assert (Ha : has_document Documents.GetAccounts r = false).
  { unfold has_document in *.
    destruct (request_document r) as [| | | |d| | |]; try discriminate.
    apply String.eqb_eq in Hr. now subst d. }
  rewrite Hs, Ha.
  exists (VObj [("forceRefreshAccounts", VObj [("success", VBool true)])]),
    (VObj [("success", VBool true)]), (VBool true).
  repeat split.
Qed.

Lemma stub_world_accounts N :
  accounts_listed (Samples.stub_world N [VStr "a1"]) (VArr [VStr "a1"]).
Proof.
  intros h r Hr. cbn.
  assert (Hs : is_status_check r = false).
  { unfold is_status_check, has_document in *.
    destruct (request_document r) as [| | | |d| | |]; try discriminate.
    apply String.eqb_eq in Hr. now subst d. }
  rewrite Hs, Hr. eexists; split; reflexivity.
Qed.

Lemma stub_world_clock N ids delay : ideal_clock (Samples.stub_world N ids) delay.
Proof. split; reflexivity. Qed.


(** The same runs, evaluated. *)
Example wait_returns_true_after_three_polls :
  let run := Api.requestAccountsRefreshAndWait 4 (VArr [VStr "a1"]) 300 10
               (Samples.stub_world 2 [VStr "a1"]) Samples.store_abc in
  fst run = Return (Some true)
  /\ clock (snd run) = 30000
  /\ polls (sent (snd run)) = 3%nat.
Proof. vm_compute. auto. Qed.

Example wait_returns_false_on_timeout :
  let run := Api.requestAccountsRefreshAndWait 4 (VArr [VStr "a1"]) 15 10
               (Samples.stub_world 2 [VStr "a1"]) Samples.store_abc in
  fst run = Return (Some false)
  /\ clock (snd run) = 20000
  /\ polls (sent (snd run)) = 2%nat.
Proof. vm_compute. auto. Qed.

(** ** Without a token *)


Section Tokenless.
Variable m : machine Session.t.
Hypothesis tokenless : has_token (Session.headers (prog m)) = false.

Lemma refused_inert {A} (c : M Session.t A) : refused_at m c -> inert_at m c.
Proof. intros H W. now rewrite H. Qed.

Lemma refused_gqlCall operation query variables :
  refused_at m (Api.gqlCall operation query variables).
Proof. intros W. now apply api_gqlCall_without_token. Qed.

Lemma refused_bind {A B} (c : M Session.t A) (k : A -> M Session.t B) :
  refused_at m c -> refused_at m (bind c k).
Proof. intros H W. unfold bind. now rewrite H. Qed.

Lemma refused_after {A B} (c : M Session.t A) (k : A -> M Session.t B) :
  settled_at m c -> (forall a, refused_at m (k a)) -> refused_at m (bind c k).
Proof.
  intros Hc Hk W. destruct (Hc W) as [a Ha]. unfold bind. rewrite Ha. apply Hk.
Qed.

Lemma settled_ret {A} (a : A) : settled_at m (ret a).
Proof. intros W. now exists a. Qed.

Lemma settled_calendar f : settled_at m (Operations.calendar f).
Proof. intros W. eexists. reflexivity. Qed.

Lemma inert_ret {A} (a : A) : inert_at m (ret a).
Proof. intros W. reflexivity. Qed.

Lemma inert_throw {A} e : inert_at m (throw (A := A) e).
Proof. intros W. reflexivity. Qed.

Lemma inert_lift {A} (o : outcome A) : inert_at m (lift o).
Proof. intros W. reflexivity. Qed.

Lemma inert_ask {A} (f : world -> A) : inert_at m (ask f).
Proof. intros W. reflexivity. Qed.

Lemma inert_calendar f : inert_at m (Operations.calendar f).
Proof. intros W. reflexivity. Qed.

Lemma inert_bind {A B} (c : M Session.t A) (k : A -> M Session.t B) :
  inert_at m c -> (forall a, inert_at m (k a)) -> inert_at m (bind c k).
Proof.
  intros Hc Hk W. unfold bind. specialize (Hc W).
  destruct (c W m) as [[a|e] m1]; cbn in Hc; subst m1; [apply Hk | reflexivity].
Qed.

Lemma inert_catch {A} (c : M Session.t A) (h : value -> M Session.t A) :
  inert_at m c -> (forall e, inert_at m (h e)) -> inert_at m (catch c h).
Proof.
  intros Hc Hh W. unfold catch. specialize (Hc W).
  destruct (c W m) as [[a|e] m1]; cbn in Hc; subst m1; [reflexivity | apply Hh].
Qed.

Lemma inert_map_m {A B} (f : A -> M Session.t B) xs :
  (forall x, inert_at m (f x)) -> inert_at m (map_m f xs).
Proof.
  intros Hf. induction xs as [|x xs IH]; cbn [map_m].
  - apply inert_ret.
  - apply inert_bind; [apply Hf|]. intros y. apply inert_bind; [exact IH|].
    intros ys. apply inert_ret.
Qed.

(** The operations that go straight to the dispatcher are refused. *)
Lemma unchecked_call_refused (c : api_call) :
  checks_parameters c = false -> refused_at m (run_api c).
Proof.
  destruct c; cbn [checks_parameters run_api]; intros Hc; try discriminate;
    cbv beta delta
      [Api.getAccounts Api.getAccountTypeOptions Api.getRecentAccountBalances
       Api.getAccountHoldings Api.getAccountHistory
       Api.getSubscriptionDetails Api.getInstitutions
       Api.getAccountSnapshotsByType Api.getAggregateSnapshots
       Api.getTransactions Api.getTransactionsSummary
       Api.getRecurringTransactions Api.getTransactionCategories
       Api.getTransactionCategoryGroups Api.getTransactionTags
       Api.getTransactionDetails Api.getTransactionSplits Api.getCashflow
       Api.getCashflowSummary Api.deleteTransactionCategory
       Api.createTransactionCategory Api.createTransactionTag
       Api.setTransactionTags Api.updateTransactionSplits
       Api.updateTransaction Api.setBudgetAmount Api.deleteTransaction
       Api.createTransaction Api.createManualAccount Api.updateAccount
       Api.deleteAccount Api.requestAccountsRefresh
       Api.isAccountsRefreshComplete Api.requestAccountsRefreshAndWait
       Api.getBudgets Api.deleteTransactionCategories
       Api.uploadAccountBalanceHistory Api.requestAccountsRefreshAndDontWait
       Api.getSchema Operations.getAccounts Operations.getAccountTypeOptions
       Operations.getRecentAccountBalances Operations.getAccountHoldings
       Operations.getAccountHistory Operations.getSubscriptionDetails
       Operations.getInstitutions Operations.getAccountSnapshotsByType
       Operations.getAggregateSnapshots Operations.getTransactions
       Operations.getTransactionsSummary Operations.getRecurringTransactions
       Operations.getTransactionCategories
       Operations.getTransactionCategoryGroups Operations.getTransactionTags
       Operations.getTransactionDetails Operations.getTransactionSplits
       Operations.getCashflow Operations.getCashflowSummary
       Operations.deleteTransactionCategory
       Operations.createTransactionCategory Operations.createTransactionTag
       Operations.setTransactionTags Operations.updateTransactionSplits
       Operations.updateTransaction Operations.setBudgetAmount
       Operations.deleteTransaction Operations.createTransaction
       Operations.createManualAccount Operations.updateAccount
       Operations.deleteAccount Operations.requestAccountsRefresh
       Operations.isAccountsRefreshComplete
       Operations.requestAccountsRefreshAndWait Operations.cashflow_call
       as_value];
    cbn zeta;
    repeat first
      [ apply refused_gqlCall
      | apply refused_after;
        [first [apply settled_calendar | apply settled_ret] | intros ?]
      | match goal with
        | |- refused_at _ (if ?b then _ else _) => destruct b
        | |- refused_at _ (bind (if ?b then _ else _) _) => destruct b
        end
      | apply refused_bind ].
Qed.

(** No operation moves the machine. *)
Lemma call_inert (c : api_call) : inert_at m (run_api c).
Proof.
  destruct (checks_parameters c) eqn:Hc;
    [|apply refused_inert; now apply unchecked_call_refused].
  destruct c; cbn [checks_parameters] in Hc; try discriminate; cbn [run_api];
    cbv beta delta
      [Api.getAccounts Api.getAccountTypeOptions Api.getRecentAccountBalances
       Api.getAccountHoldings Api.getAccountHistory
       Api.getSubscriptionDetails Api.getInstitutions
       Api.getAccountSnapshotsByType Api.getAggregateSnapshots
       Api.getTransactions Api.getTransactionsSummary
       Api.getRecurringTransactions Api.getTransactionCategories
       Api.getTransactionCategoryGroups Api.getTransactionTags
       Api.getTransactionDetails Api.getTransactionSplits Api.getCashflow
       Api.getCashflowSummary Api.deleteTransactionCategory
       Api.createTransactionCategory Api.createTransactionTag
       Api.setTransactionTags Api.updateTransactionSplits
       Api.updateTransaction Api.setBudgetAmount Api.deleteTransaction
       Api.createTransaction Api.createManualAccount Api.updateAccount
       Api.deleteAccount Api.requestAccountsRefresh
       Api.isAccountsRefreshComplete Api.requestAccountsRefreshAndWait
       Api.getBudgets Api.deleteTransactionCategories
       Api.uploadAccountBalanceHistory Api.requestAccountsRefreshAndDontWait
       Api.getSchema Operations.getAccounts Operations.getAccountTypeOptions
       Operations.getRecentAccountBalances Operations.getAccountHoldings
       Operations.getAccountHistory Operations.getSubscriptionDetails
       Operations.getInstitutions Operations.getAccountSnapshotsByType
       Operations.getAggregateSnapshots Operations.getTransactions
       Operations.getTransactionsSummary Operations.getRecurringTransactions
       Operations.getTransactionCategories
       Operations.getTransactionCategoryGroups Operations.getTransactionTags
       Operations.getTransactionDetails Operations.getTransactionSplits
       Operations.getCashflow Operations.getCashflowSummary
       Operations.deleteTransactionCategory
       Operations.createTransactionCategory Operations.createTransactionTag
       Operations.setTransactionTags Operations.updateTransactionSplits
       Operations.updateTransaction Operations.setBudgetAmount
       Operations.deleteTransaction Operations.createTransaction
       Operations.createManualAccount Operations.updateAccount
       Operations.deleteAccount Operations.requestAccountsRefresh
       Operations.isAccountsRefreshComplete
       Operations.requestAccountsRefreshAndWait Operations.cashflow_call
       as_value];
    cbn zeta;
    repeat first
      [ apply refused_inert; apply refused_gqlCall
      | apply inert_ret | apply inert_throw | apply inert_lift | apply inert_ask
      | apply inert_calendar
      | apply inert_bind; [|intros ?]
      | apply inert_catch; [|intros ?]
      | apply inert_map_m; intros ?
      | match goal with
        | |- inert_at _ (if ?b then _ else _) => destruct b
        | |- inert_at _ (match ?x with _ => _ end) => destruct x
        end ].
Qed.

End Tokenless.

(** C5, as amended. Over the GraphQL operations of api.js (every
    query and mutation, which all go through [gqlCall]): whenever the
    credential store holds no Authorization header, no operation
    dispatches anything (the machine, and with it the request log, is
    left as it was); and every operation that goes to the dispatcher
    without a check of its own fails with the [LoginFailedException] of
    [getGraphQLClient]. The operations that check their parameters first
    may raise their own error instead, and the batch deletion gathers
    the refusals instead of raising. *)
Theorem tokenless_api_dispatches_nothing
    (W : world) (m : machine Session.t) (c : api_call) :
  has_token (Session.headers (prog m)) = false ->
  snd (run_api c W m) = m
  /\ dispatched (run_api c) W m = []
  /\ (checks_parameters c = false ->
      fst (run_api c W m)
      = Throw (VError LoginFailedException
                 "Make sure you call login() first or provide a session token!")).
Proof.
  intros Htok.
  pose proof (call_inert m Htok c W) as Hinert.
  split; [exact Hinert|]. split.
  - unfold dispatched. rewrite Hinert. apply drop_all.
  - intros Hc. now rewrite (unchecked_call_refused m Htok c Hc W).
Qed.

(** A fresh process asks for the accounts. *)
Lemma tokenless_api_witness :
  snd (run_api CallGetAccounts (Samples.graphql_world VNull) Samples.fresh_store)
  = Samples.fresh_store
  /\ dispatched (run_api CallGetAccounts) (Samples.graphql_world VNull)
       Samples.fresh_store = []
  /\ (checks_parameters CallGetAccounts = false ->
      fst (run_api CallGetAccounts (Samples.graphql_world VNull) Samples.fresh_store)
      = Throw (VError LoginFailedException
                 "Make sure you call login() first or provide a session token!")).
Proof.
  apply (tokenless_api_dispatches_nothing (Samples.graphql_world VNull)
           Samples.fresh_store CallGetAccounts).
  reflexivity.
Defined.

(** C5, as stated, fails. [uploadAccountBalanceHistory] of the class has
    no token guard: on a fresh instance (no token) it posts the form
    with headers that hold no Authorization entry, and returns. And in
    api.js an operation's own parameter check comes before the token
    check: on a store without a token an unknown timeframe is reported
    as such, not as a [LoginFailedException]. *)
Lemma tokenless_upload_dispatches_and_validation_comes_first :
  (let run := MonarchMoney.uploadAccountBalanceHistory (VStr "acc-1")
                (VStr "Date,Amount") (Samples.graphql_world VNull)
                Samples.fresh_instance in
   has_token (MonarchMoney._headers (prog Samples.fresh_instance)) = false
   /\ fst run = Return VUndefined
   /\ map (fun r => request_headers r !! "Authorization") (sent (snd run)) = [None])
  /\ (let run := Api.getAccountSnapshotsByType (VStr "2024-01-01") (VStr "week")
                   (Samples.graphql_world VNull) Samples.fresh_store in
      has_token (Session.headers (prog Samples.fresh_store)) = false
      /\ fst run
         = Throw (VError Error ("Unknown timeframe " +:+ dquote +:+ "week" +:+ dquote))
      /\ is_error_of LoginFailedException (settle (fst run)) = false).
Proof. split; vm_compute; auto. Qed.

(** The guard of the class dispatcher never fires: a fresh instance
    sends its query without an Authorization header. *)
Lemma class_query_dispatches_without_token :
  let run := MonarchMoney.getAccounts (Samples.graphql_world (VObj []))
               Samples.fresh_instance in
  fst run = Return (VObj [])
  /\ map (fun r => request_headers r !! "Authorization") (sent (snd run)) = [None].
Proof. vm_compute. auto. Qed.

(** The upload of api.js stops at the unbound [axios], token or not. *)
Lemma api_upload_raises_reference_error (W : world) (m : machine Session.t) a c :
  truthy a = true -> truthy c = true ->
  Api.uploadAccountBalanceHistory a c W m
  = (Throw (VError ReferenceError "axios is not defined"), m).
Proof.
  intros Ha Hc. unfold Api.uploadAccountBalanceHistory. now rewrite Ha, Hc.
Qed.

(** ** The date pair *)

Lemma date_cases v :
  supplied v = truthy v ->
  (supplied v = false /\ dflt v VNull = VNull)
  \/ (supplied v = true /\ dflt v VNull = v /\ truthy v = true /\ is_null v = false).
Proof.
  destruct v; cbn; intros H; auto; right; repeat split; auto.
Qed.

Lemma dispatched_after {P A} (c : M P A) W (m : machine P) o r :
  c W m = (o, after_request W m r) -> dispatched c W m = [r].
Proof. intros H. unfold dispatched. rewrite H. cbn. apply drop_app_length. Qed.

Lemma partial_range_api W (m : machine Session.t) op s e :
  supplied s = truthy s -> supplied e = truthy e ->
  xorb (supplied s) (supplied e) = true ->
  api_ranged op s e W m = (Throw (VError Error DATE_RANGE_MESSAGE), m).
Proof.
  intros Hs He Hx.
  destruct (date_cases s Hs) as [[Hs1 Hs2] | (Hs1 & Hs2 & Hs3 & Hs4)];
    destruct (date_cases e He) as [[He1 He2] | (He1 & He2 & He3 & He4)];
    rewrite Hs1, He1 in Hx; try discriminate;
    destruct op; cbn [api_ranged];
    cbv beta delta
      [Api.getTransactions Api.getCashflow Api.getCashflowSummary
       Api.getRecurringTransactions Api.getBudgets Operations.getTransactions
       Operations.getCashflow Operations.getCashflowSummary
       Operations.getRecurringTransactions Operations.cashflow_call]; unfold date_args, param, bind, lift; cbn;
    rewrite ?Hs2, ?He2; cbn; rewrite ?Hs3, ?He3, ?Hs4, ?He4; cbn; reflexivity.
Qed.

Lemma partial_range_class W (m : machine MonarchMoney.t) op s e :
  supplied s = truthy s -> supplied e = truthy e ->
  xorb (supplied s) (supplied e) = true ->
  class_ranged op s e W m = (Throw (VError Error DATE_RANGE_MESSAGE), m).
Proof.
  intros Hs He Hx.
  destruct (date_cases s Hs) as [[Hs1 Hs2] | (Hs1 & Hs2 & Hs3 & Hs4)];
    destruct (date_cases e He) as [[He1 He2] | (He1 & He2 & He3 & He4)];
    rewrite Hs1, He1 in Hx; try discriminate;
    destruct op; cbn [class_ranged];
    unfold MonarchMoney.getTransactions, MonarchMoney.getCashflow,
      MonarchMoney.getCashflowSummary, MonarchMoney.getRecurringTransactions,
      MonarchMoney.getBudgets;
    cbv beta delta
      [Api.getTransactions Api.getCashflow Api.getCashflowSummary
       Api.getRecurringTransactions Api.getBudgets Operations.getTransactions
       Operations.getCashflow Operations.getCashflowSummary
       Operations.getRecurringTransactions Operations.cashflow_call]; unfold date_args, param, bind, lift; cbn;
    rewrite ?Hs2, ?He2; cbn; rewrite ?Hs3, ?He3, ?Hs4, ?He4; cbn; reflexivity.
Qed.

Lemma default_range_api W (m : machine Session.t) op s e :
  supplied s = false -> supplied e = false ->
  has_token (Session.headers (prog m)) = true ->
  exists r,
    dispatched (api_ranged op s e) W m = [r]
    /\ range_of_request r = default_range ApiModule op W (clock m).
Proof.
  intros Hs He Htok.
  assert (Hs2 : dflt s VNull = VNull) by (destruct s; easy).
  assert (He2 : dflt e VNull = VNull) by (destruct e; easy).
  destruct op; cbn [api_ranged];
    cbv beta delta
      [Api.getTransactions Api.getCashflow Api.getCashflowSummary
       Api.getRecurringTransactions Api.getBudgets Operations.getTransactions
       Operations.getCashflow Operations.getCashflowSummary
       Operations.getRecurringTransactions Operations.cashflow_call];
    unfold date_args, param, bind, lift, Operations.calendar, bind, Date_now, ask, ret;
    cbn; rewrite ?Hs2, ?He2; cbn;
    (eexists; split;
     [eapply dispatched_after; rewrite api_gqlCall_dispatches by exact Htok; reflexivity
     | reflexivity]).
Qed.

Lemma default_range_class W (m : machine MonarchMoney.t) op s e :
  supplied s = false -> supplied e = false ->
  exists r,
    dispatched (class_ranged op s e) W m = [r]
    /\ range_of_request r = default_range ClassPort op W (clock m).
Proof.
  intros Hs He.
  assert (Hs2 : dflt s VNull = VNull) by (destruct s; easy).
  assert (He2 : dflt e VNull = VNull) by (destruct e; easy).
  destruct op; cbn [class_ranged];
    unfold MonarchMoney.getTransactions, MonarchMoney.getCashflow,
      MonarchMoney.getCashflowSummary, MonarchMoney.getRecurringTransactions,
      MonarchMoney.getBudgets;
    cbv beta delta
      [Api.getTransactions Api.getCashflow Api.getCashflowSummary
       Api.getRecurringTransactions Api.getBudgets Operations.getTransactions
       Operations.getCashflow Operations.getCashflowSummary
       Operations.getRecurringTransactions Operations.cashflow_call];
    unfold date_args, param, bind, lift, Operations.calendar, bind, Date_now, ask, ret;
    cbn; rewrite ?Hs2, ?He2; cbn;
    (eexists; split; [eapply dispatched_after; reflexivity | reflexivity]).
Qed.




(** ** Request descriptors *)

Lemma obj_has_set fields k v k' :
  obj_has (obj_set fields k v) k' = String.eqb k k' || obj_has fields k'.
Proof.
  induction fields as [|[k0 v0] rest IH]; cbn.
  - now rewrite orb_false_r.
  - destruct (String.eqb k0 k) eqn:Hk; cbn.
    + apply String.eqb_eq in Hk. subst k0.
      destruct (String.eqb k k'); reflexivity.
    + rewrite IH. destruct (String.eqb k0 k'), (String.eqb k k'); reflexivity.
Qed.

Lemma obj_has_cond (b : bool) fields k v k' :
  obj_has (if b then obj_set fields k v else fields) k'
  = b && String.eqb k k' || obj_has fields k'.
Proof. destruct b; [apply obj_has_set | reflexivity]. Qed.

Lemma obj_get_set_other fields k v k' :
  String.eqb k k' = false -> obj_get (obj_set fields k v) k' = obj_get fields k'.
Proof.
  intros Hne. induction fields as [|[k0 v0] rest IH]; cbn.
  - now rewrite Hne.
  - destruct (String.eqb k0 k) eqn:Hk; cbn.
    + apply String.eqb_eq in Hk. subst k0. now rewrite Hne.
    + now rewrite IH.
Qed.

Lemma obj_get_cond_other (b : bool) fields k v k' :
  String.eqb k k' = false ->
  obj_get (if b then obj_set fields k v else fields) k' = obj_get fields k'.
Proof. destruct b; [apply obj_get_set_other | reflexivity]. Qed.

Lemma forallb_obj_set (Q : string * value -> bool) fields k v :
  forallb Q fields = true -> Q (k, v) = true -> forallb Q (obj_set fields k v) = true.
Proof.
  induction fields as [|[k0 v0] rest IH]; cbn; intros Hall Hq.
  - now rewrite Hq.
  - apply andb_true_iff in Hall as [H0 Hrest].
    destruct (String.eqb k0 k); cbn.
    + now rewrite Hq, Hrest.
    + now rewrite H0, IH.
Qed.

Lemma forallb_cond (Q : string * value -> bool) (b : bool) fields k v :
  forallb Q fields = true -> (b = true -> Q (k, v) = true) ->
  forallb Q (if b then obj_set fields k v else fields) = true.
Proof. destruct b; intros; [apply forallb_obj_set|]; auto. Qed.

(** Which fields the [input] of [updateTransaction] holds. *)
Lemma updateTransaction_input_fields t c n g a d h r o :
  let input := Operations.updateTransaction_input t c n g a d h r o in
  obj_get input "id" = t
  /\ obj_has input "category" = truthy c
  /\ obj_has input "name" = truthy n
  /\ obj_has input "amount" = negb (is_null a)
  /\ obj_has input "date" = truthy d
  /\ obj_has input "hideFromReports" = negb (is_null h)
  /\ obj_has input "needsReview" = negb (is_null r)
  /\ obj_has input "goalId" = negb (is_null g)
  /\ obj_has input "notes" = negb (is_null o)
  /\ optional_fields_set "id" input = true.
Proof.
  unfold Operations.updateTransaction_input, Operations.set_if_truthy,
    Operations.set_unless_null, optional_fields_set. cbn zeta.
  repeat split.
  2-9: rewrite !obj_has_cond; cbn; now rewrite ?andb_false_r, ?andb_true_r, ?orb_false_r.
  - now rewrite !obj_get_cond_other by reflexivity.
  - repeat apply forallb_cond; first
      [ reflexivity
      | let H := fresh in
        intros H; cbn; rewrite ?(truthy_not_null _ H), ?H; reflexivity ].
Qed.

(** Which fields the [input] of [updateAccount] holds. *)
Lemma updateAccount_variables_fields i n b t s w l r :
  let variables := Operations.updateAccount_variables i n b t s w l r in
  obj_get variables "id" = i
  /\ obj_has variables "type" = truthy t
  /\ obj_has variables "subtype" = truthy s
  /\ obj_has variables "includeInNetWorth" = negb (is_null w)
  /\ obj_has variables "hideFromList" = negb (is_null l)
  /\ obj_has variables "hideTransactionsFromReports" = negb (is_null r)
  /\ obj_has variables "name" = truthy n
  /\ obj_has variables "displayBalance" = negb (is_null b)
  /\ optional_fields_set "id" variables = true.
Proof.
  unfold Operations.updateAccount_variables, Operations.set_if_truthy,
    Operations.set_unless_null, optional_fields_set. cbn zeta.
  repeat split.
  2-8: rewrite !obj_has_cond; cbn; now rewrite ?andb_false_r, ?andb_true_r, ?orb_false_r.
  - now rewrite !obj_get_cond_other by reflexivity.
  - repeat apply forallb_cond; first
      [ reflexivity
      | let H := fresh in
        intros H; cbn; rewrite ?(truthy_not_null _ H), ?H; reflexivity ].
Qed.




(** [getTransactionDetails] hands the variables object to the client
    as the document and the document as the variables. *)
Example getTransactionDetails_swaps_arguments :
  dispatched (Api.getTransactionDetails (VStr "t1") VUndefined)
    (Samples.graphql_world VNull) Samples.store_abc
  = [api_request (prog Samples.store_abc)
       (VObj [("id", VStr "t1"); ("redirectPosted", VBool true)])
       Documents.GetTransactionDrawer].
Proof. reflexivity. Qed.

(** * Further properties *)

(** ** What the operations may do to the machine *)

Section Confinement.
Context {P : Type}.
Variable good : P -> request -> Prop.

Lemma confined_still {A} (c : M P A) :
  (forall W m, exists o, c W m = (o, m)) -> confined good c.
Proof.
  intros H W m. destruct (H W m) as [o ->]. cbn.
  split; [reflexivity|]. split; [reflexivity|].
  exists []. split; [now rewrite app_nil_r | constructor].
Qed.

Lemma confined_ret {A} (a : A) : confined good (ret a).
Proof. apply confined_still. intros; eexists; reflexivity. Qed.

Lemma confined_throw {A} e : confined good (throw (A := A) e).
Proof. apply confined_still. intros; eexists; reflexivity. Qed.

Lemma confined_lift {A} (o : outcome A) : confined good (lift o).
Proof. apply confined_still. intros; eexists; reflexivity. Qed.

Lemma confined_ask {A} (f : world -> A) : confined good (ask f).
Proof. apply confined_still. intros; eexists; reflexivity. Qed.

Lemma confined_Date_now : confined good Date_now.
Proof. apply confined_still. intros; eexists; reflexivity. Qed.

Lemma confined_calendar f : confined good (Operations.calendar f).
Proof. apply confined_still. intros; eexists; reflexivity. Qed.

(** Waiting moves the clock only. *)
Lemma confined_sleep ms : confined good (sleep ms).
Proof.
  intros W m. cbn. split; [reflexivity|]. split; [reflexivity|].
  exists []. split; [now rewrite app_nil_r | constructor].
Qed.

Lemma confined_bind {A B} (c : M P A) (k : A -> M P B) :
  confined good c -> (forall a, confined good (k a)) -> confined good (bind c k).
Proof.
  intros Hc Hk W m. unfold bind.
  destruct (Hc W m) as (Hp & Hf & l & Hs & Hl).
  destruct (c W m) as [[a|e] m1]; cbn in *.
  - destruct (Hk a W m1) as (Hp' & Hf' & l' & Hs' & Hl').
    rewrite Hp in Hl'.
    split; [congruence|]. split; [congruence|].
    exists (l ++ l')%list. split.
    + now rewrite Hs', Hs, app_assoc.
    + now apply Forall_app.
  - split; [exact Hp|]. split; [exact Hf|]. now exists l.
Qed.

Lemma confined_catch {A} (c : M P A) (h : value -> M P A) :
  confined good c -> (forall e, confined good (h e)) -> confined good (catch c h).
Proof.
  intros Hc Hh W m. unfold catch.
  destruct (Hc W m) as (Hp & Hf & l & Hs & Hl).
  destruct (c W m) as [[a|e] m1]; cbn in *.
  - split; [exact Hp|]. split; [exact Hf|]. now exists l.
  - destruct (Hh e W m1) as (Hp' & Hf' & l' & Hs' & Hl').
    rewrite Hp in Hl'.
    split; [congruence|]. split; [congruence|].
    exists (l ++ l')%list. split.
    + now rewrite Hs', Hs, app_assoc.
    + now apply Forall_app.
Qed.

Lemma confined_map_m {A B} (f : A -> M P B) xs :
  (forall x, confined good (f x)) -> confined good (map_m f xs).
Proof.
  intros Hf. induction xs as [|x xs IH]; cbn [map_m].
  - apply confined_ret.
  - apply confined_bind; [apply Hf|]. intros y.
    apply confined_bind; [exact IH|]. intros ys. apply confined_ret.
Qed.

Variable gqlCall : string -> value -> value -> M P value.
Hypothesis gqlCall_confined :
  forall operation query variables, confined good (gqlCall operation query variables).

Lemma confined_isAccountsRefreshComplete accountIds :
  confined good (Operations.isAccountsRefreshComplete gqlCall accountIds).
Proof.
  unfold Operations.isAccountsRefreshComplete.
  apply confined_bind; [apply gqlCall_confined|]. intros r. apply confined_lift.
Qed.

(** The polling loop, whatever its budget. *)
Lemma confined_poll fuel accountIds start timeout delay :
  forall refreshed,
    confined good (Operations.poll gqlCall fuel accountIds start timeout delay refreshed).
Proof.
  induction fuel as [|fuel IH]; intros refreshed; cbn [Operations.poll].
  - apply confined_ret.
  - apply confined_bind; [apply confined_Date_now|]. intros now.
    destruct (negb refreshed && (now <=? start + timeout * 1000)).
    + apply confined_bind; [apply confined_sleep|]. intros _.
      apply confined_bind; [apply confined_isAccountsRefreshComplete|].
      intros b. apply IH.
    + apply confined_ret.
Qed.

End Confinement.

(** The dispatcher of api.js sends nothing without a token and one
    query with the store's headers with one. *)
Lemma api_gqlCall_confined operation query variables :
  confined api_query (Api.gqlCall operation query variables).
Proof.
  intros W m.
  destruct (has_token (Session.headers (prog m))) eqn:Htok.
  - rewrite api_gqlCall_dispatches by exact Htok. cbn.
    split; [reflexivity|]. split; [reflexivity|].
    eexists; split; [reflexivity|].
    constructor; [|constructor]. split; [exact Htok|]. eauto.
  - rewrite api_gqlCall_without_token by exact Htok. cbn.
    split; [reflexivity|]. split; [reflexivity|].
    exists []. split; [now rewrite app_nil_r | constructor].
Qed.

Lemma class_gqlCall_confined operation query variables :
  confined class_query (MonarchMoney.gqlCall operation query variables).
Proof.
  intros W m. rewrite class_gqlCall_dispatches. cbn.
  split; [reflexivity|]. split; [reflexivity|].
  eexists; split; [reflexivity|].
  constructor; [|constructor]. red. eauto.
Qed.

Lemma run_api_confined (c : api_call) : confined api_query (run_api c).
Proof.
  destruct c; cbn [run_api];
    cbv beta delta
      [Api.getAccounts Api.getAccountTypeOptions Api.getRecentAccountBalances
       Api.getAccountHoldings Api.getAccountHistory
       Api.getSubscriptionDetails Api.getInstitutions
       Api.getAccountSnapshotsByType Api.getAggregateSnapshots
       Api.getTransactions Api.getTransactionsSummary
       Api.getRecurringTransactions Api.getTransactionCategories
       Api.getTransactionCategoryGroups Api.getTransactionTags
       Api.getTransactionDetails Api.getTransactionSplits Api.getCashflow
       Api.getCashflowSummary Api.deleteTransactionCategory
       Api.createTransactionCategory Api.createTransactionTag
       Api.setTransactionTags Api.updateTransactionSplits
       Api.updateTransaction Api.setBudgetAmount Api.deleteTransaction
       Api.createTransaction Api.createManualAccount Api.updateAccount
       Api.deleteAccount Api.requestAccountsRefresh
       Api.isAccountsRefreshComplete Api.requestAccountsRefreshAndWait
       Api.getBudgets Api.deleteTransactionCategories
       Api.uploadAccountBalanceHistory Api.requestAccountsRefreshAndDontWait
       Api.getSchema Operations.getAccounts Operations.getAccountTypeOptions
       Operations.getRecentAccountBalances Operations.getAccountHoldings
       Operations.getAccountHistory Operations.getSubscriptionDetails
       Operations.getInstitutions Operations.getAccountSnapshotsByType
       Operations.getAggregateSnapshots Operations.getTransactions
       Operations.getTransactionsSummary Operations.getRecurringTransactions
       Operations.getTransactionCategories
       Operations.getTransactionCategoryGroups Operations.getTransactionTags
       Operations.getTransactionDetails Operations.getTransactionSplits
       Operations.getCashflow Operations.getCashflowSummary
       Operations.deleteTransactionCategory
       Operations.createTransactionCategory Operations.createTransactionTag
       Operations.setTransactionTags Operations.updateTransactionSplits
       Operations.updateTransaction Operations.setBudgetAmount
       Operations.deleteTransaction Operations.createTransaction
       Operations.createManualAccount Operations.updateAccount
       Operations.deleteAccount Operations.requestAccountsRefresh
       Operations.isAccountsRefreshComplete
       Operations.requestAccountsRefreshAndWait Operations.cashflow_call
       as_value];
    cbn zeta;
    repeat first
      [ apply api_gqlCall_confined
      | apply confined_poll; exact api_gqlCall_confined
      | apply confined_ret | apply confined_throw | apply confined_lift
      | apply confined_ask | apply confined_calendar | apply confined_Date_now
      | apply confined_bind; [|intros ?]
      | apply confined_catch; [|intros ?]
      | apply confined_map_m; intros ?
      | match goal with
        | |- confined _ (if ?b then _ else _) => destruct b
        | |- confined _ (match ?x with _ => _ end) => destruct x
        end ].
Qed.

Lemma run_class_confined (c : class_call) : confined class_query (run_class c).
Proof.
  destruct c; cbn [run_class];
    cbv beta delta
      [MonarchMoney.getAccounts MonarchMoney.getAccountTypeOptions
       MonarchMoney.getRecentAccountBalances MonarchMoney.getAccountHoldings
       MonarchMoney.getAccountHistory MonarchMoney.getSubscriptionDetails
       MonarchMoney.getInstitutions MonarchMoney.getAccountSnapshotsByType
       MonarchMoney.getAggregateSnapshots MonarchMoney.getTransactions
       MonarchMoney.getTransactionsSummary
       MonarchMoney.getRecurringTransactions
       MonarchMoney.getTransactionCategories
       MonarchMoney.getTransactionCategoryGroups
       MonarchMoney.getTransactionTags MonarchMoney.getTransactionDetails
       MonarchMoney.getTransactionSplits MonarchMoney.getCashflow
       MonarchMoney.getCashflowSummary MonarchMoney.deleteTransactionCategory
       MonarchMoney.createTransactionCategory
       MonarchMoney.createTransactionTag MonarchMoney.setTransactionTags
       MonarchMoney.updateTransactionSplits MonarchMoney.updateTransaction
       MonarchMoney.setBudgetAmount MonarchMoney.deleteTransaction
       MonarchMoney.createTransaction MonarchMoney.createManualAccount
       MonarchMoney.updateAccount MonarchMoney.deleteAccount
       MonarchMoney.requestAccountsRefresh
       MonarchMoney.isAccountsRefreshComplete
       MonarchMoney.requestAccountsRefreshAndWait MonarchMoney.getBudgets
       MonarchMoney.deleteTransactionCategories
       MonarchMoney.uploadAccountBalanceHistory Operations.getAccounts
       Operations.getAccountTypeOptions Operations.getRecentAccountBalances
       Operations.getAccountHoldings Operations.getAccountHistory
       Operations.getSubscriptionDetails Operations.getInstitutions
       Operations.getAccountSnapshotsByType Operations.getAggregateSnapshots
       Operations.getTransactions Operations.getTransactionsSummary
       Operations.getRecurringTransactions
       Operations.getTransactionCategories
       Operations.getTransactionCategoryGroups Operations.getTransactionTags
       Operations.getTransactionDetails Operations.getTransactionSplits
       Operations.getCashflow Operations.getCashflowSummary
       Operations.deleteTransactionCategory
       Operations.createTransactionCategory Operations.createTransactionTag
       Operations.setTransactionTags Operations.updateTransactionSplits
       Operations.updateTransaction Operations.setBudgetAmount
       Operations.deleteTransaction Operations.createTransaction
       Operations.createManualAccount Operations.updateAccount
       Operations.deleteAccount Operations.requestAccountsRefresh
       Operations.isAccountsRefreshComplete
       Operations.requestAccountsRefreshAndWait Operations.cashflow_call
       as_value];
    cbn zeta;
    repeat first
      [ apply class_gqlCall_confined
      | apply confined_poll; exact class_gqlCall_confined
      | apply confined_ret | apply confined_throw | apply confined_lift
      | apply confined_ask | apply confined_calendar | apply confined_Date_now
      | apply confined_bind; [|intros ?]
      | apply confined_catch; [|intros ?]
      | apply confined_map_m; intros ?
      | match goal with
        | |- confined _ (if ?b then _ else _) => destruct b
        | |- confined _ (match ?x with _ => _ end) => destruct x
        end ].
Qed.

Lemma confined_dispatched {P A} (good : P -> request -> Prop) (c : M P A) W m :
  confined good c ->
  prog (snd (c W m)) = prog m
  /\ files (snd (c W m)) = files m
  /\ sent (snd (c W m)) = (sent m ++ dispatched c W m)%list
  /\ Forall (good (prog m)) (dispatched c W m).
Proof.
  intros Hc. destruct (Hc W m) as (Hp & Hf & l & Hs & Hl).
  unfold dispatched. rewrite Hs, drop_app_length. auto.
Qed.

(** X2. No query or mutation of api.js ever changes the credential
    store or touches a file, and whatever it sends are query calls to
    the GraphQL endpoint that carry the store's headers, a token among
    them, and the module's timeout of ten seconds: the log only grows,
    by requests of this form. *)
Theorem api_operations_send_only_authorised_queries
    (W : world) (m : machine Session.t) (c : api_call) :
  prog (snd (run_api c W m)) = prog m
  /\ files (snd (run_api c W m)) = files m
  /\ sent (snd (run_api c W m)) = (sent m ++ dispatched (run_api c) W m)%list
  /\ Forall (fun r =>
               has_token (request_headers r) = true
               /\ exists document variables,
                   r = GraphQL GQL_ENDPOINT (Session.headers (prog m)) 10000
                         document variables)
       (dispatched (run_api c) W m).
Proof.
  exact (confined_dispatched api_query (run_api c) W m (run_api_confined c)).
Qed.

(** X3. No query or mutation method of the class changes the instance
    (token, headers, timeout, session file name) or touches a file, and
    whatever it sends are query calls to the GraphQL endpoint with the
    instance's headers and the instance's timeout. *)
Theorem class_operations_send_only_instance_queries
    (W : world) (m : machine MonarchMoney.t) (c : class_call) :
  prog (snd (run_class c W m)) = prog m
  /\ files (snd (run_class c W m)) = files m
  /\ sent (snd (run_class c W m)) = (sent m ++ dispatched (run_class c) W m)%list
  /\ Forall (fun r =>
               exists document variables,
                 r = GraphQL MonarchMoneyEndpoints.getGraphQL
                       (MonarchMoney._headers (prog m)) (MonarchMoney._timeout (prog m))
                       document variables)
       (dispatched (run_class c) W m).
Proof.
  exact (confined_dispatched class_query (run_class c) W m (run_class_confined c)).
Qed.

(** ** The credential store *)


(** X5. A token in the environment variable [MONARCH_TOKEN] is put in
    the headers when the module is loaded, so that query calls are
    dispatched with [Token <value>] without any login, while
    [getToken] still reports [null]; without the variable, or with
    an empty one, the first query call is refused with
    [LoginFailedException] and nothing is sent. *)
Theorem env_token_decides_access
    (W : world) (env : gmap string string) (now : Z) (log : list request)
    (disk : gmap string string) (operation : string) (query variables : value) :
  let m := Machine (Session.init env) now log disk in
  fst (Session.getToken W m) = Return VNull
  /\ Session.headers (prog m) !! "Client-Platform" = Some "web"
  /\ match env !! ENV_TOKEN_KEY with
     | Some tok =>
         if String.eqb tok "" then
           Api.gqlCall operation query variables W m = (Throw login_error, m)
         else
           Session.headers (prog m) !! "Authorization" = Some ("Token " +:+ tok)
           /\ dispatched (Api.gqlCall operation query variables) W m
              = [api_request (prog m) query (dflt variables (VObj []))]
     | None => Api.gqlCall operation query variables W m = (Throw login_error, m)
     end.
Proof.
  cbn zeta. split; [reflexivity|].
  unfold Session.init, header. cbn [prog].
  destruct (env !! ENV_TOKEN_KEY) as [tok|] eqn:Henv; cbn [truthy to_string].
  - destruct (String.eqb tok "") eqn:Htok; cbn [negb].
    + split; [apply lookup_singleton_eq|].
      apply api_gqlCall_without_token. cbn. unfold has_token, header.
      now rewrite lookup_singleton_ne.
    + cbn [Session.headers].
      split; [rewrite lookup_insert_ne by discriminate; apply lookup_singleton_eq|].
      split; [apply lookup_insert_eq|].
      unfold dispatched. rewrite api_gqlCall_dispatches.
      * cbn. now rewrite drop_app_length.
      * cbn. unfold has_token, header. rewrite lookup_insert_eq. reflexivity.
  - split; [apply lookup_singleton_eq|].
    apply api_gqlCall_without_token. cbn. unfold has_token, header.
    now rewrite lookup_singleton_ne.
Qed.

(** ** Login failures *)



(** X7. The login module cannot log in with an MFA secret: with a
    truthy [mfaSecretKey], [loginUser] stops at the call of
    [generateOtp], which the module neither defines nor imports, before
    anything is posted. *)
Theorem loginUser_with_mfa_secret_never_posts
    (W : world) (m : machine Session.t) (email password mfaSecretKey : value) :
  truthy mfaSecretKey = true ->
  fst (Auth.loginUser email password mfaSecretKey W m)
  = Throw (VError ReferenceError "generateOtp is not defined")
  /\ snd (Auth.loginUser email password mfaSecretKey W m) = m
  /\ dispatched (Auth.loginUser email password mfaSecretKey) W m = [].
Proof.
  intros Hk.
  assert (Hrun : Auth.loginUser email password mfaSecretKey W m
                 = (Throw (VError ReferenceError "generateOtp is not defined"), m)).
  { unfold Auth.loginUser. rewrite Hk. reflexivity. }
  unfold dispatched. rewrite Hrun. cbn.
  split; [reflexivity|]. split; [reflexivity|]. apply drop_all.
Qed.

Lemma loginUser_with_mfa_secret_witness :
  fst (Auth.loginUser (VStr "ann@example.org") (VStr "hunter2") (VStr "JBSWY3DPEHPK3PXP")
         (Samples.login_world 200 (VObj [("token", VStr "T")])) Samples.fresh_store)
  = Throw (VError ReferenceError "generateOtp is not defined")
  /\ snd (Auth.loginUser (VStr "ann@example.org") (VStr "hunter2")
            (VStr "JBSWY3DPEHPK3PXP")
            (Samples.login_world 200 (VObj [("token", VStr "T")])) Samples.fresh_store)
     = Samples.fresh_store
  /\ dispatched (Auth.loginUser (VStr "ann@example.org") (VStr "hunter2")
                   (VStr "JBSWY3DPEHPK3PXP"))
       (Samples.login_world 200 (VObj [("token", VStr "T")])) Samples.fresh_store = [].
Proof.
  apply (loginUser_with_mfa_secret_never_posts
           (Samples.login_world 200 (VObj [("token", VStr "T")])) Samples.fresh_store
           (VStr "ann@example.org") (VStr "hunter2") (VStr "JBSWY3DPEHPK3PXP")).
  reflexivity.
Defined.

(** ** The MFA step *)

Lemma obj_get_absent fields k : obj_has fields k = false -> obj_get fields k = VUndefined.
Proof.
  induction fields as [|[k' v] fields IH]; cbn; [reflexivity|].
  destruct (String.eqb k' k); cbn; [discriminate | exact IH].
Qed.

(** X8. [multiFactorAuthenticate] of the login module posts the
    credentials together with the code once and, on a 200 whose body
    holds a token, stores that token and its Authorization header, so
    that the dispatcher's token guard passes afterwards. *)
Theorem multiFactorAuthenticate_stores_token
    (W : world) (m : machine Session.t) (email password code : value)
    (text : string) (body tok : value) :
  (forall r, fetch W (sent m) r
             = Return {| f_status := 200; f_statusText := text; f_json := Return body |}) ->
  prop body "token" = Return tok ->
  exists m',
    Auth.multiFactorAuthenticate email password code W m = (Return tt, m')
    /\ Session.token (prog m') = tok
    /\ Session.headers (prog m') !! "Authorization" = Some ("Token " +:+ to_string tok)
    /\ has_token (Session.headers (prog m')) = true
    /\ dispatched (Auth.multiFactorAuthenticate email password code) W m
       = [login_post (Session.headers (prog m)) (mfa_form email password code)]
    /\ files m' = files m.
Proof.
  intros Hf Htok.
  unfold dispatched, Auth.multiFactorAuthenticate.
  unfold bind, ret, lift, Session.getHeaders, Session.setToken, get_prog, set_prog,
    dispatch. cbn.
  rewrite Hf. cbn. rewrite Htok. cbn.
  eexists. split; [reflexivity|]. cbn.
  split; [reflexivity|]. split; [apply lookup_insert_eq|].
  split; [unfold has_token, header; now rewrite lookup_insert_eq|].
  split; [now rewrite drop_app_length | reflexivity].
Qed.

Lemma multiFactorAuthenticate_witness :
  exists m',
    Auth.multiFactorAuthenticate (VStr "ann@example.org") (VStr "hunter2") (VStr "123456")
      (Samples.login_world 200 (VObj [("token", VStr "T")])) Samples.fresh_store
    = (Return tt, m')
    /\ Session.token (prog m') = VStr "T"
    /\ Session.headers (prog m') !! "Authorization" = Some "Token T"
    /\ has_token (Session.headers (prog m')) = true
    /\ dispatched
         (Auth.multiFactorAuthenticate (VStr "ann@example.org") (VStr "hunter2")
            (VStr "123456"))
         (Samples.login_world 200 (VObj [("token", VStr "T")])) Samples.fresh_store
       = [login_post (Session.headers (prog Samples.fresh_store))
            (mfa_form (VStr "ann@example.org") (VStr "hunter2") (VStr "123456"))]
    /\ files m' = files Samples.fresh_store.
Proof.
  apply (multiFactorAuthenticate_stores_token
           (Samples.login_world 200 (VObj [("token", VStr "T")])) Samples.fresh_store
           (VStr "ann@example.org") (VStr "hunter2") (VStr "123456") ""
           (VObj [("token", VStr "T")]) (VStr "T")); reflexivity.
Defined.



(** X10. A 200 from the login endpoint whose body holds no [token] is
    taken as a success by the login module: [loginUser] stores
    [undefined] as the token and [Token undefined] as the header, and
    the dispatcher then sends query calls with that header instead of
    refusing them. *)
Theorem loginUser_200_without_token_field
    (W : world) (m : machine Session.t) (email password : value)
    (text : string) (fields : list (string * value)) :
  (forall r, fetch W (sent m) r
             = Return {| f_status := 200; f_statusText := text;
                         f_json := Return (VObj fields) |}) ->
  obj_has fields "token" = false ->
  exists m',
    Auth.loginUser email password VUndefined W m = (Return tt, m')
    /\ Session.token (prog m') = VUndefined
    /\ Session.headers (prog m') !! "Authorization" = Some "Token undefined"
    /\ forall W' operation query variables,
        dispatched (Api.gqlCall operation query variables) W' m'
        = [api_request (prog m') query (dflt variables (VObj []))].
Proof.
  intros Hf Hno.
  unfold Auth.loginUser. cbn [truthy].
  unfold bind, ret, lift, Session.getHeaders, Session.setToken, get_prog, set_prog,
    dispatch. cbn.
  rewrite Hf. cbn. rewrite (obj_get_absent _ _ Hno). cbn.
  eexists. split; [reflexivity|]. cbn.
  split; [reflexivity|]. split; [apply lookup_insert_eq|].
  intros W' operation query variables.
  unfold dispatched. rewrite api_gqlCall_dispatches.
  - cbn. now rewrite drop_app_length.
  - cbn. unfold has_token, header. now rewrite lookup_insert_eq.
Qed.

Lemma loginUser_200_without_token_witness :
  exists m',
    Auth.loginUser (VStr "ann@example.org") (VStr "hunter2") VUndefined
      (Samples.login_world 200 (VObj [("detail", VStr "ok")])) Samples.fresh_store
    = (Return tt, m')
    /\ Session.token (prog m') = VUndefined
    /\ Session.headers (prog m') !! "Authorization" = Some "Token undefined"
    /\ forall W' operation query variables,
        dispatched (Api.gqlCall operation query variables) W' m'
        = [api_request (prog m') query (dflt variables (VObj []))].
Proof.
  apply (loginUser_200_without_token_field
           (Samples.login_world 200 (VObj [("detail", VStr "ok")])) Samples.fresh_store
           (VStr "ann@example.org") (VStr "hunter2") "" [("detail", VStr "ok")]);
    reflexivity.
Defined.

(** ** The console login *)

(** X11. [interactiveLogin] of the login module, when the first login
    attempt is answered with a status other than 200. On a 403 it asks
    for the code and sends a second attempt that carries it; if that
    one is answered with 200 and a token, the login completes with the
    token stored, after exactly these two requests and without writing
    a file. On any other status the [LoginFailedException] of the first
    attempt is passed on to the caller and no second attempt is made. *)
Theorem interactiveLogin_after_first_refusal
    (W : world) (m : machine Session.t) (question : string -> string)
    (useSavedSession saveSessionFlag : value) (resp1 : fetch_response) :
  let email := VStr (question "Email: ") in
  let passwd := VStr (question "Password: ") in
  let code := VStr (question "Two Factor Code: ") in
  let first := login_post (Session.headers (prog m)) (login_form email passwd) in
  let second := login_post (Session.headers (prog m)) (mfa_form email passwd code) in
  fetch W (sent m) first = Return resp1 ->
  f_status resp1 <> 200 ->
  (f_status resp1 = 403 ->
   forall text body tok,
     fetch W (sent m ++ [first]) second
     = Return {| f_status := 200; f_statusText := text; f_json := Return body |} ->
     prop body "token" = Return tok ->
     exists m',
       interactiveLogin question useSavedSession saveSessionFlag W m = (Return tt, m')
       /\ Session.token (prog m') = tok
       /\ Session.headers (prog m') !! "Authorization" = Some ("Token " +:+ to_string tok)
       /\ dispatched (interactiveLogin question useSavedSession saveSessionFlag) W m
          = [first; second]
       /\ files m' = files m)
  /\ (f_status resp1 <> 403 ->
      exists m',
        interactiveLogin question useSavedSession saveSessionFlag W m
        = (Throw (VError LoginFailedException
                    ("HTTP Code " +:+ pretty (f_status resp1) +:+ ": "
                     +:+ f_statusText resp1)), m')
        /\ prog m' = prog m
        /\ dispatched (interactiveLogin question useSavedSession saveSessionFlag) W m
           = [first]).
Proof.
  intros email passwd code first second H1 H200.
  assert (E200 : (f_status resp1 =? 200) = false) by lia.
  assert (Hlogin :
            Auth.loginUser email passwd VUndefined W m
            = (if f_status resp1 =? 403
               then Throw (VError RequireMFAException "Multi-Factor Auth Required")
               else Throw (VError LoginFailedException
                             ("HTTP Code " +:+ pretty (f_status resp1) +:+ ": "
                              +:+ f_statusText resp1)),
               after_request W m first)).
  { unfold Auth.loginUser. cbn [truthy].
    unfold bind, ret, Session.getHeaders, get_prog, dispatch. cbn.
    unfold first, login_post, login_form in H1. cbn in H1.
    rewrite H1. cbn. rewrite E200.
    destruct (f_status resp1 =? 403); reflexivity. }
  split.
  - intros H403 text body tok H2 Htok.
    unfold dispatched, interactiveLogin. cbn zeta. fold email passwd code.
    unfold catch. rewrite Hlogin. rewrite H403. cbn [Z.eqb Pos.eqb is_error_of error_class_eqb].
    unfold Auth.multiFactorAuthenticate.
    unfold bind, ret, lift, Session.getHeaders, Session.setToken, get_prog, set_prog,
      dispatch. cbn.
    unfold second, first, login_post, login_form, mfa_form in H2. cbn in H2.
    unfold first, login_post, login_form. cbn.
    rewrite H2. cbn. rewrite Htok. cbn.
    destruct (truthy (dflt saveSessionFlag (VBool true)));
      (eexists; split; [reflexivity|]; cbn;
       split; [reflexivity|]; split; [apply lookup_insert_eq|];
       split; [|reflexivity];
       rewrite <- app_assoc; now rewrite drop_app_length).
  - intros H403.
    assert (E403 : (f_status resp1 =? 403) = false) by lia.
    unfold dispatched, interactiveLogin. cbn zeta. fold email passwd.
    unfold catch. rewrite Hlogin, E403. cbn.
    eexists. split; [reflexivity|]. cbn. split; [reflexivity|].
    now rewrite drop_app_length.
Qed.

Lemma interactiveLogin_witness :
  exists m',
    interactiveLogin Scenes.ann VUndefined VUndefined (Scenes.mfa_world "T")
      Samples.fresh_store = (Return tt, m')
    /\ Session.token (prog m') = VStr "T"
    /\ Session.headers (prog m') !! "Authorization" = Some "Token T"
    /\ dispatched (interactiveLogin Scenes.ann VUndefined VUndefined)
         (Scenes.mfa_world "T") Samples.fresh_store
       = [login_post (Session.headers (prog Samples.fresh_store))
            (login_form (VStr "ann@example.org") (VStr "hunter2"));
          login_post (Session.headers (prog Samples.fresh_store))
            (mfa_form (VStr "ann@example.org") (VStr "hunter2") (VStr "123456"))]
    /\ files m' = files Samples.fresh_store.
Proof.
  refine (proj1 (interactiveLogin_after_first_refusal (Scenes.mfa_world "T")
                   Samples.fresh_store Scenes.ann VUndefined VUndefined
                   {| f_status := 403; f_statusText := "Forbidden";
                      f_json := Return (VObj []) |} eq_refl _)
            eq_refl "OK" (VObj [("token", VStr "T")]) (VStr "T") eq_refl eq_refl).
  cbn. lia.
Defined.

(** ** The class: login, session file, accessors *)

(** X12. [login] of the class needs credentials when it does not take
    the saved session: if saved sessions are switched off, or no
    session file exists, and the email or the password is missing
    (falsy), it raises [LoginFailedException] before anything is sent
    or written. *)
Theorem class_login_requires_credentials
    (W : world) (m : machine MonarchMoney.t)
    (email password useSavedSession saveSession_ mfaSecretKey : value) :
  truthy (dflt useSavedSession (VBool true)) = false
  \/ files m !! MonarchMoney._sessionFile (prog m) = None ->
  truthy (dflt email VNull) = false \/ truthy (dflt password VNull) = false ->
  MonarchMoney.login email password useSavedSession saveSession_ mfaSecretKey W m
  = (Throw (VError LoginFailedException
              "Email and password are required to login when not using a saved session."),
     m).
Proof.
  intros Hsaved Hcred. unfold MonarchMoney.login.
  unfold bind at 1, get_prog. unfold bind at 1.
  assert (Hfound :
            (if truthy (dflt useSavedSession (VBool true))
             then existsSync (MonarchMoney._sessionFile (prog m))
             else ret false) W m = (Return false, m)).
  { destruct (truthy (dflt useSavedSession (VBool true))) eqn:Hu; [|reflexivity].
    destruct Hsaved as [Hs|Hs]; [discriminate|].
    unfold existsSync. rewrite Hs. rewrite bool_decide_eq_false_2; [reflexivity|].
    intros [x Hx]. discriminate. }
  rewrite Hfound.
  assert (Hmiss : negb (truthy (dflt email VNull)) || negb (truthy (dflt password VNull))
                  = true).
  { destruct Hcred as [-> | ->]; [reflexivity | apply orb_true_r]. }
  rewrite Hmiss. reflexivity.
Qed.

Lemma class_login_requires_credentials_witness :
  MonarchMoney.login (VStr "ann@example.org") VUndefined VUndefined VUndefined VUndefined
    (Samples.login_world 200 (VObj [("token", VStr "T")])) Samples.fresh_instance
  = (Throw (VError LoginFailedException
              "Email and password are required to login when not using a saved session."),
     Samples.fresh_instance).
Proof.
  apply (class_login_requires_credentials
           (Samples.login_world 200 (VObj [("token", VStr "T")])) Samples.fresh_instance
           (VStr "ann@example.org") VUndefined VUndefined VUndefined VUndefined).
  - right. reflexivity.
  - right. reflexivity.
Defined.

(** What [_loginUser] sends when no MFA secret is given: one post of
    the credentials, whatever the answer. *)
Lemma _loginUser_log (W : world) (m : machine MonarchMoney.t) email password :
  sent (snd (MonarchMoney._loginUser email password VNull W m))
  = (sent m ++ [login_post (MonarchMoney._headers (prog m))
                  (VObj [("password", password); ("supports_mfa", VBool true);
                         ("trusted_device", VBool false); ("username", email)])])%list.
Proof.
  unfold MonarchMoney._loginUser. cbn [truthy].
  unfold bind, ret, lift, get_prog, dispatch, call_undefined, throw. cbn.
  destruct (axios_post W _ _) as [resp|e]; cbn; [|reflexivity].
  destruct (a_status resp =? 403); cbn; [reflexivity|].
  destruct (a_status resp =? 200); cbn; [|reflexivity].
  destruct (prop (a_data resp) "token"); reflexivity.
Qed.

(** [login] with credentials and no session file to load: one post of
    the credentials. *)
Lemma class_login_log (W : world) (m : machine MonarchMoney.t) email password saveSession_ :
  files m !! MonarchMoney._sessionFile (prog m) = None ->
  truthy email = true -> truthy password = true ->
  sent (snd (MonarchMoney.login email password VUndefined saveSession_ VUndefined W m))
  = (sent m ++ [login_post (MonarchMoney._headers (prog m))
                  (VObj [("password", password); ("supports_mfa", VBool true);
                         ("trusted_device", VBool false); ("username", email)])])%list.
Proof.
  intros Hfile He Hp.
  unfold MonarchMoney.login. cbn [dflt truthy].
  unfold bind at 1, get_prog. unfold bind at 1, existsSync.
  rewrite Hfile.
  rewrite bool_decide_eq_false_2 by (intros [x Hx]; discriminate).
  assert (Hemail : dflt email VNull = email) by (destruct email; easy).
  assert (Hpass : dflt password VNull = password) by (destruct password; easy).
  rewrite Hemail, Hpass, He, Hp. cbn [negb orb].
  unfold bind at 1.
  pose proof (_loginUser_log W m email password) as Hlog.
  destruct (MonarchMoney._loginUser email password VNull W m) as [[[]|e] m2];
    cbn in Hlog |- *; [|exact Hlog].
  destruct (truthy (dflt saveSession_ (VBool true))); cbn; exact Hlog.
Qed.

(** X13. [deleteSession] removes the named file and nothing else, does
    nothing (and raises nothing) when the file is not there, and leaves
    the instance alone. After it has removed the instance's session
    file, a [login] with saved sessions enabled does not look for a
    session any more: it posts the credentials. *)
Theorem deleteSession_forgets_saved_session
    (W : world) (m : machine MonarchMoney.t) (filename : string) :
  let m1 := snd (MonarchMoney.deleteSession filename W m) in
  fst (MonarchMoney.deleteSession filename W m) = Return tt
  /\ files m1 = delete filename (files m)
  /\ prog m1 = prog m /\ sent m1 = sent m /\ clock m1 = clock m
  /\ fst (existsSync filename W m1) = Return false
  /\ (files m !! filename = None -> m1 = m)
  /\ forall email password saveSession_,
      filename = MonarchMoney._sessionFile (prog m) ->
      truthy email = true -> truthy password = true ->
      dispatched (MonarchMoney.login email password VUndefined saveSession_ VUndefined) W m1
      = [login_post (MonarchMoney._headers (prog m))
           (VObj [("password", password); ("supports_mfa", VBool true);
                  ("trusted_device", VBool false); ("username", email)])].
Proof.
  cbn zeta.
  assert (Hrun : MonarchMoney.deleteSession filename W m
                 = (Return tt,
                    Machine (prog m) (clock m) (sent m) (delete filename (files m)))).
  { unfold MonarchMoney.deleteSession, bind, existsSync, unlinkSync, ret.
    destruct (files m !! filename) as [text|] eqn:Hfile.
    - now rewrite bool_decide_eq_true_2 by eauto.
    - rewrite bool_decide_eq_false_2 by (intros [x Hx]; discriminate).
      rewrite delete_id by exact Hfile. now destruct m. }
  rewrite Hrun. cbn [fst snd files prog sent clock].
  split; [reflexivity|]. split; [reflexivity|].
  split; [reflexivity|]. split; [reflexivity|]. split; [reflexivity|].
  split.
  { unfold existsSync. cbn [files fst].
    rewrite bool_decide_eq_false_2; [reflexivity|].
    rewrite lookup_delete_eq. intros [x Hx]. discriminate. }
  split.
  { intros Hfile. rewrite delete_id by exact Hfile. now destruct m. }
  intros email password saveSession_ -> He Hp.
  unfold dispatched.
  rewrite class_login_log; [now rewrite drop_app_length | | exact He | exact Hp].
  cbn [files prog]. apply lookup_delete_eq.
Qed.

Lemma deleteSession_witness :
  let m := Machine (MonarchMoney.constructor "mm_session.json" 10000 VNull) 0 []
             {[ "mm_session.json" := "{}" ]} in
  let W := Samples.login_world 403 VNull in
  dispatched (MonarchMoney.login (VStr "ann@example.org") (VStr "hunter2") VUndefined
                VUndefined VUndefined) W
    (snd (MonarchMoney.deleteSession "mm_session.json" W m))
  = [login_post (MonarchMoney._headers (prog m))
       (VObj [("password", VStr "hunter2"); ("supports_mfa", VBool true);
              ("trusted_device", VBool false); ("username", VStr "ann@example.org")])].
Proof.
  cbn zeta.
  pose proof (deleteSession_forgets_saved_session (Samples.login_world 403 VNull)
                (Machine (MonarchMoney.constructor "mm_session.json" 10000 VNull) 0 []
                   {[ "mm_session.json" := "{}" ]}) "mm_session.json")
    as (_ & _ & _ & _ & _ & _ & _ & Hlogin).
  apply Hlogin; reflexivity.
Defined.


(** X15. [login] of the class with saved sessions enabled (the
    default) and a session file in place never logs in: it goes to
    [loadSession] before it looks at the credentials, sends nothing,
    and fails, with the error of reading or parsing the file or, when
    the file holds a session object, with the [TypeError] of the call
    of [this.setToken], which the class does not define. The instance
    stays as it was. *)
Theorem class_login_with_session_file_always_fails
    (W : world) (m : machine MonarchMoney.t)
    (email password useSavedSession saveSession_ mfaSecretKey : value) (text : string) :
  truthy (dflt useSavedSession (VBool true)) = true ->
  files m !! MonarchMoney._sessionFile (prog m) = Some text ->
  exists e,
    MonarchMoney.login email password useSavedSession saveSession_ mfaSecretKey W m
    = (Throw e, m)
    /\ forall data tok,
        JSON_parse W text = Return data ->
        prop data "token" = Return tok ->
        e = VError TypeError "this.setToken is not a function".
Proof.
  intros Hsaved Hfile. unfold MonarchMoney.login.
  unfold bind at 1, get_prog. unfold bind at 1.
  rewrite Hsaved. unfold existsSync.
  rewrite bool_decide_eq_true_2 by (rewrite Hfile; eauto).
  unfold MonarchMoney.loadSession, readFileSync, bind, ask, lift, call_undefined, throw.
  rewrite Hfile.
  destruct (JSON_parse W text) as [data|e] eqn:Hparse.
  - destruct (prop data "token") as [tok|e] eqn:Htok.
    + eexists. split; [reflexivity|]. reflexivity.
    + eexists. split; [reflexivity|].
      intros data' tok' Hd Ht. inversion Hd; subst. congruence.
  - eexists. split; [reflexivity|]. discriminate.
Qed.

Lemma class_login_with_session_file_witness :
  let m := Machine (MonarchMoney.constructor "mm_session.json" 10000 VNull) 0 []
             {[ "mm_session.json" := Samples.sample_stringify (VObj [("token", VStr "abc")]) ]} in
  let W := Samples.login_world 200 (VObj [("token", VStr "T")]) in
  MonarchMoney.login (VStr "ann@example.org") (VStr "hunter2") VUndefined VUndefined
    VUndefined W m
  = (Throw (VError TypeError "this.setToken is not a function"), m).
Proof.
  cbn zeta.
  destruct (class_login_with_session_file_always_fails
              (Samples.login_world 200 (VObj [("token", VStr "T")]))
              (Machine (MonarchMoney.constructor "mm_session.json" 10000 VNull) 0 []
                 {[ "mm_session.json"
                    := Samples.sample_stringify (VObj [("token", VStr "abc")]) ]})
              (VStr "ann@example.org") (VStr "hunter2") VUndefined VUndefined VUndefined
              (Samples.sample_stringify (VObj [("token", VStr "abc")]))
              eq_refl (lookup_singleton_eq _ _)) as (e & Hrun & He).
  rewrite Hrun.
  now rewrite (He (VObj [("token", VStr "abc")]) (VStr "abc") eq_refl eq_refl).
Defined.

(** ** Parameter checks of the request builders *)

Lemma includes_year_month timeframe :
  includes [VStr "year"; VStr "month"] timeframe = true
  <-> timeframe = VStr "year" \/ timeframe = VStr "month".
Proof.
  unfold includes. cbn. split.
  - destruct timeframe; cbn; try discriminate.
    destruct (String.eqb_spec s "year") as [->|_]; [auto|].
    destruct (String.eqb_spec s "month") as [->|_]; [auto|]. discriminate.
  - intros [-> | ->]; reflexivity.
Qed.

Lemma nullish_dflt v : is_null (dflt v VNull) = nullish v.
Proof. now destruct v. Qed.

Section BuilderFacts.
Context {P : Type}.
Variable gqlCall : string -> value -> value -> M P value.
Variable build : P -> value -> value -> request.
Variable ready : P -> Prop.
Hypothesis gqlCall_dispatches :
  forall W m operation query variables,
    ready (prog m) ->
    gqlCall operation query variables W m
    = (graphql_request W (sent m) (build (prog m) query (dflt variables (VObj []))),
       after_request W m (build (prog m) query (dflt variables (VObj [])))).

Lemma snapshots_by_type_refused W m startDate timeframe :
  timeframe <> VStr "year" -> timeframe <> VStr "month" ->
  Operations.getAccountSnapshotsByType gqlCall startDate timeframe W m
  = (Throw (VError Error ("Unknown timeframe " +:+ dquote +:+ to_string timeframe
                          +:+ dquote)), m).
Proof.
  intros Hy Hm. unfold Operations.getAccountSnapshotsByType.
  destruct (includes [VStr "year"; VStr "month"] timeframe) eqn:Hin.
  - apply includes_year_month in Hin. tauto.
  - reflexivity.
Qed.

Lemma snapshots_by_type_sent W m startDate timeframe :
  timeframe = VStr "year" \/ timeframe = VStr "month" ->
  ready (prog m) ->
  dispatched (Operations.getAccountSnapshotsByType gqlCall startDate timeframe) W m
  = [build (prog m) Documents.GetSnapshotsByAccountType
       (VObj [("startDate", startDate); ("timeframe", timeframe)])].
Proof.
  intros Hin Hr. apply includes_year_month in Hin.
  unfold Operations.getAccountSnapshotsByType. rewrite Hin. cbn [negb].
  eapply dispatched_after. now rewrite gqlCall_dispatches.
Qed.

Lemma setBudgetAmount_refused W m fields :
  xorb (supplied (obj_get fields "categoryId"))
       (supplied (obj_get fields "categoryGroupId")) = false ->
  Operations.setBudgetAmount gqlCall (VObj fields) W m
  = (Throw (VError Error
              "You must specify either a categoryId OR categoryGroupId; not both"), m).
Proof.
  intros Hx. unfold Operations.setBudgetAmount, param, supplied in *.
  cbn [prop obind]. unfold bind, lift.
  rewrite !nullish_dflt.
  destruct (nullish (obj_get fields "categoryId")),
    (nullish (obj_get fields "categoryGroupId")); try discriminate; reflexivity.
Qed.

Lemma setBudgetAmount_sent W m fields :
  xorb (supplied (obj_get fields "categoryId"))
       (supplied (obj_get fields "categoryGroupId")) = true ->
  ready (prog m) ->
  dispatched (Operations.setBudgetAmount gqlCall (VObj fields)) W m
  = [build (prog m) Documents.Common_UpdateBudgetItem
       (budget_variables fields W (clock m))].
Proof.
  intros Hx Hr. unfold Operations.setBudgetAmount, param, supplied in *.
  cbn [prop obind]. unfold bind at 1 2 3 4 5 6, lift.
  rewrite !nullish_dflt.
  assert (Hne : Bool.eqb (nullish (obj_get fields "categoryId"))
                  (nullish (obj_get fields "categoryGroupId")) = false).
  { destruct (nullish (obj_get fields "categoryId")),
      (nullish (obj_get fields "categoryGroupId")); try discriminate; reflexivity. }
  rewrite Hne. unfold budget_variables.
  destruct (truthy (dflt (obj_get fields "startDate") VNull)).
  - unfold bind, ret. eapply dispatched_after. now rewrite gqlCall_dispatches.
  - unfold bind, Operations.calendar, bind, Date_now, ask, ret.
    eapply dispatched_after. now rewrite gqlCall_dispatches.
Qed.

End BuilderFacts.





(** ** The account history *)

Lemma obj_get_set_same fields k v : obj_get (obj_set fields k v) k = v.
Proof.
  induction fields as [|[k0 v0] rest IH]; cbn.
  - now rewrite String.eqb_refl.
  - destruct (String.eqb k0 k) eqn:Hk; cbn.
    + now rewrite String.eqb_refl.
    + now rewrite Hk.
Qed.

Lemma array_map_tag accountId accountName (rows : list (list (string * value))) :
  array_map (Operations.tag_snapshot accountId accountName) (map VObj rows)
  = Return (map (fun row => VObj (obj_set (obj_set row "accountId" accountId)
                                    "accountName" accountName)) rows).
Proof.
  induction rows as [|row rows IH]; cbn; [reflexivity|]. now rewrite IH.
Qed.

Section HistoryFacts.
Context {P : Type}.
Variable gqlCall : string -> value -> value -> M P value.
Variable build : P -> value -> value -> request.
Variable ready : P -> Prop.
Hypothesis gqlCall_dispatches :
  forall W m operation query variables,
    ready (prog m) ->
    gqlCall operation query variables W m
    = (graphql_request W (sent m) (build (prog m) query (dflt variables (VObj []))),
       after_request W m (build (prog m) query (dflt variables (VObj [])))).

Lemma getAccountHistory_run W m accountId resp account accountName rows :
  ready (prog m) ->
  graphql_request W (sent m)
    (build (prog m) Documents.AccountDetails_getAccount (VObj [("id", accountId)]))
  = Return resp ->
  prop resp "account" = Return account ->
  prop account "displayName" = Return accountName ->
  prop resp "snapshots" = Return (VArr (map VObj rows)) ->
  Operations.getAccountHistory gqlCall accountId W m
  = (Return (VArr (map (fun row => VObj (obj_set (obj_set row "accountId" accountId)
                                           "accountName" accountName)) rows)),
     after_request W m
       (build (prog m) Documents.AccountDetails_getAccount (VObj [("id", accountId)]))).
Proof.
  intros Hr Hresp Hacc Hname Hsnap. unfold Operations.getAccountHistory.
  unfold bind at 1. rewrite gqlCall_dispatches by exact Hr. cbn [dflt]. rewrite Hresp.
  unfold bind, lift, ret. rewrite Hacc, Hname, Hsnap. cbn [array_method].
  now rewrite array_map_tag.
Qed.

End HistoryFacts.



(** ** The refresh helpers *)

Section RefreshFacts.
Context {P : Type}.
Variable gqlCall : string -> value -> value -> M P value.
Variable build : P -> value -> value -> request.
Variable ready : P -> Prop.
Hypothesis gqlCall_dispatches :
  forall W m operation query variables,
    ready (prog m) ->
    gqlCall operation query variables W m
    = (graphql_request W (sent m) (build (prog m) query (dflt variables (VObj []))),
       after_request W m (build (prog m) query (dflt variables (VObj [])))).
Hypothesis build_document :
  forall p query variables, request_document (build p query variables) = query.

Variable W : world.

Lemma trigger_document p accountIds :
  has_document Documents.Common_ForceRefreshAccountsMutation (build p Documents.Common_ForceRefreshAccountsMutation
       (refresh_variables accountIds)) = true.
Proof. unfold has_document. now rewrite build_document. Qed.

Lemma status_document p : is_status_check (build p Documents.ForceRefreshAccountsQuery (VObj [])) = true.
Proof. unfold is_status_check, has_document. now rewrite build_document. Qed.

Lemma trigger_is_no_status_check p accountIds :
  is_status_check (build p Documents.Common_ForceRefreshAccountsMutation
       (refresh_variables accountIds)) = false.
Proof. unfold is_status_check, has_document. now rewrite build_document. Qed.

Lemma requestAccountsRefresh_rejected (m : machine P) accountIds errors :
  trigger_rejected W errors ->
  ready (prog m) ->
  Operations.requestAccountsRefresh gqlCall accountIds W m
  = (Throw (new_error RequestFailedException errors),
     after_request W m (build (prog m) Documents.Common_ForceRefreshAccountsMutation
        (refresh_variables accountIds))).
Proof.
  intros Hrej Hr. unfold Operations.requestAccountsRefresh, bind.
  rewrite gqlCall_dispatches by exact Hr. cbn [dflt].
  destruct (Hrej (sent m) (build (prog m) Documents.Common_ForceRefreshAccountsMutation
        (refresh_variables accountIds)) (trigger_document _ _))
    as (resp & payload & success & Hresp & Hp & Hs & Hf & He).
  unfold refresh_variables in Hresp. rewrite Hresp.
  unfold lift. rewrite Hp, Hs, Hf. cbn. now rewrite He.
Qed.

Lemma requestAccountsRefresh_triggered (m : machine P) accountIds :
  trigger_accepted W ->
  ready (prog m) ->
  Operations.requestAccountsRefresh gqlCall accountIds W m
  = (Return (VBool true), after_request W m (build (prog m) Documents.Common_ForceRefreshAccountsMutation
        (refresh_variables accountIds))).
Proof.
  intros Hacc Hr. unfold Operations.requestAccountsRefresh, bind.
  rewrite gqlCall_dispatches by exact Hr. cbn [dflt].
  destruct (Hacc (sent m) (build (prog m) Documents.Common_ForceRefreshAccountsMutation
        (refresh_variables accountIds)) (trigger_document _ _))
    as (resp & payload & success & Hresp & Hp & Hs & Ht).
  unfold refresh_variables in Hresp. rewrite Hresp.
  unfold lift. rewrite Hp, Hs, Ht. reflexivity.
Qed.

(** A rejected trigger ends the wait before the loop. *)
Lemma wait_rejected (m : machine P) fuel accountIds timeout delay errors :
  trigger_rejected W errors ->
  ready (prog m) ->
  truthy accountIds = true ->
  Operations.requestAccountsRefreshAndWait gqlCall fuel accountIds timeout delay W m
  = (Throw (new_error RequestFailedException errors),
     after_request W m (build (prog m) Documents.Common_ForceRefreshAccountsMutation
        (refresh_variables accountIds))).
Proof.
  intros Hrej Hr Hids. unfold Operations.requestAccountsRefreshAndWait.
  assert (Hd : dflt accountIds VNull = accountIds) by (destruct accountIds; easy).
  rewrite Hd, Hids. cbn [negb]. unfold bind at 1. unfold ret at 1.
  unfold bind at 1.
  now rewrite (requestAccountsRefresh_rejected m accountIds errors).
Qed.

(** With a deadline that has passed before the loop is entered the
    helper makes no status check. *)
Lemma wait_past_deadline (m : machine P) fuel accountIds timeout delay :
  trigger_accepted W ->
  ready (prog m) ->
  truthy accountIds = true ->
  timeout < 0 ->
  Operations.requestAccountsRefreshAndWait gqlCall (S fuel) accountIds timeout delay W m
  = (Return (Some false), after_request W m (build (prog m) Documents.Common_ForceRefreshAccountsMutation
        (refresh_variables accountIds))).
Proof.
  intros Hacc Hr Hids Hneg. unfold Operations.requestAccountsRefreshAndWait.
  assert (Hd : dflt accountIds VNull = accountIds) by (destruct accountIds; easy).
  rewrite Hd, Hids. cbn [negb]. unfold bind at 1. unfold ret at 1.
  unfold bind at 1. rewrite requestAccountsRefresh_triggered by assumption.
  unfold bind at 1, Date_now. cbn [Operations.poll].
  unfold bind at 1, Date_now. cbn [negb andb].
  replace (_ <=? _) with false by (symmetry; apply Z.leb_gt; lia).
  reflexivity.
Qed.

(** A status check that comes back without an account list ends the
    wait with the error of [isAccountsRefreshComplete], after the first
    delay. *)
Lemma wait_status_unavailable (m : machine P) fuel accountIds timeout delay :
  trigger_accepted W ->
  status_unavailable W ->
  ready (prog m) ->
  truthy accountIds = true ->
  0 <= timeout ->
  exists m',
    Operations.requestAccountsRefreshAndWait gqlCall (S fuel) accountIds timeout delay W m
    = (Throw (VError RequestFailedException "Unable to request status of refresh"), m')
    /\ sent m' = (sent m ++ [build (prog m) Documents.Common_ForceRefreshAccountsMutation
         (refresh_variables accountIds);
       build (prog m) Documents.ForceRefreshAccountsQuery (VObj [])])%list
    /\ prog m' = prog m.
Proof.
  intros Hacc Hun Hr Hids Htime. unfold Operations.requestAccountsRefreshAndWait.
  assert (Hd : dflt accountIds VNull = accountIds) by (destruct accountIds; easy).
  rewrite Hd, Hids. cbn [negb]. unfold bind at 1. unfold ret at 1.
  unfold bind at 1. rewrite requestAccountsRefresh_triggered by assumption.
  unfold bind at 1, Date_now. cbn [Operations.poll].
  unfold bind at 1, Date_now. cbn [negb andb].
  replace (_ <=? _) with true by (symmetry; apply Z.leb_le; lia).
  unfold bind at 1. unfold bind at 1, sleep.
  unfold Operations.isAccountsRefreshComplete. unfold bind at 1.
  rewrite gqlCall_dispatches by exact Hr. cbn [dflt prog sent clock files after_request].
  destruct (Hun (sent m ++ [build (prog m) Documents.Common_ForceRefreshAccountsMutation
         (refresh_variables accountIds)])%list (build (prog m) Documents.ForceRefreshAccountsQuery (VObj []))
              (status_document _)) as (resp & accounts & Hresp & Hp & Hf).
  rewrite Hresp.
  unfold lift, Operations.refresh_verdict. rewrite Hp. cbn [obind]. rewrite Hf. cbn.
  eexists. split; [reflexivity|]. cbn. split; [|reflexivity].
  now rewrite <- app_assoc.
Qed.

(** One status check without an account list. *)
Lemma isAccountsRefreshComplete_unavailable (m : machine P) accountIds :
  status_unavailable W ->
  ready (prog m) ->
  Operations.isAccountsRefreshComplete gqlCall accountIds W m
  = (Throw (VError RequestFailedException "Unable to request status of refresh"),
     after_request W m (build (prog m) Documents.ForceRefreshAccountsQuery (VObj []))).
Proof.
  intros Hun Hr. unfold Operations.isAccountsRefreshComplete. unfold bind at 1.
  rewrite gqlCall_dispatches by exact Hr. cbn [dflt].
  destruct (Hun (sent m) (build (prog m) Documents.ForceRefreshAccountsQuery (VObj [])) (status_document _))
    as (resp & accounts & Hresp & Hp & Hf).
  rewrite Hresp.
  unfold lift, Operations.refresh_verdict. rewrite Hp. cbn [obind]. now rewrite Hf.
Qed.

End RefreshFacts.

Lemma api_request_document p query variables :
  request_document (api_request p query variables) = query.
Proof. reflexivity. Qed.

Lemma class_request_document p query variables :
  request_document (class_request p query variables) = query.
Proof. reflexivity. Qed.







(** X21. [requestAccountsRefreshAndDontWait] of api.js triggers the
    refresh and returns [true] without a single status check. With
    account ids passed, the trigger is the only request; with none, the
    accounts are listed first and the trigger carries the ids of all of
    them. *)
Theorem requestAccountsRefreshAndDontWait_only_triggers
    (W : world) (m : machine Session.t) (given accountIds : value) :
  has_token (Session.headers (prog m)) = true ->
  trigger_accepted W ->
  (given = accountIds /\ truthy accountIds = true)
  \/ (truthy (dflt given VNull) = false /\ accounts_listed W accountIds) ->
  let trigger :=
    api_request (prog m) Documents.Common_ForceRefreshAccountsMutation
      (refresh_variables accountIds) in
  fst (Api.requestAccountsRefreshAndDontWait given W m) = Return (VBool true)
  /\ dispatched (Api.requestAccountsRefreshAndDontWait given) W m
     = (if truthy (dflt given VNull) then [trigger]
        else [api_request (prog m) Documents.GetAccounts (VObj []); trigger])
  /\ polls (dispatched (Api.requestAccountsRefreshAndDontWait given) W m) = 0%nat
  /\ prog (snd (Api.requestAccountsRefreshAndDontWait given W m)) = prog m.
Proof.
  intros Htok Hacc Hgiven trigger.
  destruct Hgiven as [[-> Hids] | [Hnone Hlisted]].
  - assert (Hd : dflt accountIds VNull = accountIds) by (destruct accountIds; easy).
    assert (Hrun : Api.requestAccountsRefreshAndDontWait accountIds W m
                   = (Return (VBool true), after_request W m trigger)).
    { unfold Api.requestAccountsRefreshAndDontWait. rewrite Hd, Hids. cbn [negb].
      unfold bind at 1, ret at 1.
      apply (requestAccountsRefresh_triggered Api.gqlCall api_request
               (fun p => has_token (Session.headers p) = true) api_gqlCall_dispatches
               api_request_document W m accountIds Hacc Htok). }
    unfold dispatched. rewrite Hrun, Hd, Hids. cbn. rewrite drop_app_length. auto.
  - set (listing := api_request (prog m) Documents.GetAccounts (VObj [])).
    destruct (Hlisted (sent m) listing eq_refl) as (resp & Hresp & Hidsof).
    assert (Hrun : Api.requestAccountsRefreshAndDontWait given W m
                   = (Return (VBool true),
                      after_request W (after_request W m listing) trigger)).
    { unfold Api.requestAccountsRefreshAndDontWait. rewrite Hnone. cbn [negb].
      unfold bind at 1. unfold Api.getAccounts, Operations.getAccounts. unfold bind at 1.
      rewrite api_gqlCall_dispatches by exact Htok. cbn [dflt]. fold listing.
      rewrite Hresp. unfold lift at 1. rewrite Hidsof.
      apply (requestAccountsRefresh_triggered Api.gqlCall api_request
               (fun p => has_token (Session.headers p) = true) api_gqlCall_dispatches
               api_request_document W (after_request W m listing) accountIds Hacc Htok). }
    unfold dispatched. rewrite Hrun, Hnone. cbn.
    rewrite <- app_assoc, drop_app_length. auto.
Qed.

Lemma requestAccountsRefreshAndDontWait_witness :
  let W := Samples.stub_world 0 [VStr "a1"] in
  let trigger :=
    api_request (prog Samples.store_abc) Documents.Common_ForceRefreshAccountsMutation
      (refresh_variables (VArr [VStr "a1"])) in
  fst (Api.requestAccountsRefreshAndDontWait VNull W Samples.store_abc)
  = Return (VBool true)
  /\ dispatched (Api.requestAccountsRefreshAndDontWait VNull) W Samples.store_abc
     = [api_request (prog Samples.store_abc) Documents.GetAccounts (VObj []); trigger]
  /\ polls (dispatched (Api.requestAccountsRefreshAndDontWait VNull) W Samples.store_abc)
     = 0%nat
  /\ prog (snd (Api.requestAccountsRefreshAndDontWait VNull W Samples.store_abc))
     = prog Samples.store_abc.
Proof.
  apply (requestAccountsRefreshAndDontWait_only_triggers
           (Samples.stub_world 0 [VStr "a1"]) Samples.store_abc VNull (VArr [VStr "a1"]));
    [reflexivity | apply stub_world_trigger |].
  right. split; [reflexivity | apply stub_world_accounts].
Defined.

(** ** Mutations that report a flag *)

Section DeletionFacts.
Context {P : Type}.
Variable gqlCall : string -> value -> value -> M P value.
Variable build : P -> value -> value -> request.
Variable ready : P -> Prop.
Hypothesis gqlCall_dispatches :
  forall W m operation query variables,
    ready (prog m) ->
    gqlCall operation query variables W m
    = (graphql_request W (sent m) (build (prog m) query (dflt variables (VObj []))),
       after_request W m (build (prog m) query (dflt variables (VObj [])))).
Hypothesis build_document :
  forall p query variables, request_document (build p query variables) = query.

Lemma deleteTransaction_run W m transactionId payload deleted errors :
  ready (prog m) ->
  (forall h r,
     has_document Documents.Common_DeleteTransactionMutation r = true ->
     graphql_request W h r = Return (VObj [("deleteTransaction", payload)])) ->
  prop payload "deleted" = Return deleted ->
  prop payload "errors" = Return errors ->
  Operations.deleteTransaction gqlCall transactionId W m
  = (if truthy deleted then Return (VBool true)
     else Throw (new_error RequestFailedException errors),
     after_request W m
       (build (prog m) Documents.Common_DeleteTransactionMutation
          (VObj [("input", VObj [("transactionId", transactionId)])]))).
Proof.
  intros Hr Hresp Hd He. unfold Operations.deleteTransaction.
  unfold bind at 1. rewrite gqlCall_dispatches by exact Hr. cbn [dflt].
  rewrite Hresp by (unfold has_document; now rewrite build_document).
  unfold bind, lift. cbn [prop obj_get String.eqb Ascii.eqb Bool.eqb].
  rewrite Hd. destruct (truthy deleted); cbn; [reflexivity|]. now rewrite He.
Qed.

Lemma deleteTransactionCategory_run W m categoryId payload deleted errors :
  ready (prog m) ->
  (forall h r,
     has_document Documents.Web_DeleteCategory r = true ->
     graphql_request W h r = Return (VObj [("deleteCategory", payload)])) ->
  prop payload "deleted" = Return deleted ->
  prop payload "errors" = Return errors ->
  Operations.deleteTransactionCategory gqlCall categoryId W m
  = (if truthy deleted then Return (VBool true)
     else Throw (new_error RequestFailedException errors),
     after_request W m
       (build (prog m) Documents.Web_DeleteCategory (VObj [("id", categoryId)]))).
Proof.
  intros Hr Hresp Hd He. unfold Operations.deleteTransactionCategory.
  unfold bind at 1. rewrite gqlCall_dispatches by exact Hr. cbn [dflt].
  rewrite Hresp by (unfold has_document; now rewrite build_document).
  unfold bind, lift. cbn [prop obj_get String.eqb Ascii.eqb Bool.eqb].
  rewrite Hd. destruct (truthy deleted); cbn; [reflexivity|]. now rewrite He.
Qed.

End DeletionFacts.



(** ** The balance-history upload *)



(** ** Transaction details *)



(** ** The transaction list *)

Lemma obj_get_cond_same (b : bool) fields k v :
  obj_get (if b then obj_set fields k v else fields) k
  = if b then v else obj_get fields k.
Proof. destruct b; [apply obj_get_set_same | reflexivity]. Qed.

Lemma supplied_dflt v : negb (is_null (dflt v VNull)) = supplied v.
Proof. now destruct v. Qed.

Lemma dflt_supplied v : supplied v = true -> dflt v VNull = v.
Proof. now destruct v. Qed.

Section TransactionFacts.
Context {P P' : Type}.
Variable gqlCall : string -> value -> value -> M P value.
Variable build : P -> value -> value -> request.
Variable ready : P -> Prop.
Hypothesis gqlCall_dispatches :
  forall W m operation query variables,
    ready (prog m) ->
    gqlCall operation query variables W m
    = (graphql_request W (sent m) (build (prog m) query (dflt variables (VObj []))),
       after_request W m (build (prog m) query (dflt variables (VObj [])))).
Variable gqlCall' : string -> value -> value -> M P' value.
Variable build' : P' -> value -> value -> request.
Variable ready' : P' -> Prop.
Hypothesis gqlCall_dispatches' :
  forall W m operation query variables,
    ready' (prog m) ->
    gqlCall' operation query variables W m
    = (graphql_request W (sent m) (build' (prog m) query (dflt variables (VObj []))),
       after_request W m (build' (prog m) query (dflt variables (VObj [])))).

(** Two dispatchers are given the same variables. *)
Lemma getTransactions_sent W m m' fields :
  ready (prog m) -> ready' (prog m') ->
  truthy (dflt (obj_get fields "startDate") VNull)
  = truthy (dflt (obj_get fields "endDate") VNull) ->
  exists filters,
    dispatched (Operations.getTransactions gqlCall (VObj fields)) W m
    = [build (prog m) Documents.GetTransactionsList
         (VObj [("offset", dflt (obj_get fields "offset") (VNum 0));
                ("limit", dflt (obj_get fields "limit") (VNum 100));
                ("orderBy", VStr "date");
                ("filters", VObj filters)])]
    /\ dispatched (Operations.getTransactions gqlCall' (VObj fields)) W m'
       = [build' (prog m') Documents.GetTransactionsList
            (VObj [("offset", dflt (obj_get fields "offset") (VNum 0));
                   ("limit", dflt (obj_get fields "limit") (VNum 100));
                   ("orderBy", VStr "date");
                   ("filters", VObj filters)])]
    /\ obj_get filters "search" = dflt (obj_get fields "search") (VStr "")
    /\ obj_get filters "categories" = dflt (obj_get fields "categoryIds") (VArr [])
    /\ obj_get filters "accounts" = dflt (obj_get fields "accountIds") (VArr [])
    /\ obj_get filters "tags" = dflt (obj_get fields "tagIds") (VArr [])
    /\ (forall flag key,
          In (flag, key) transaction_flags ->
          obj_has filters key = supplied (obj_get fields flag)
          /\ (supplied (obj_get fields flag) = true ->
              obj_get filters key = obj_get fields flag))
    /\ obj_has filters "startDate" = truthy (dflt (obj_get fields "startDate") VNull)
    /\ obj_has filters "endDate" = truthy (dflt (obj_get fields "endDate") VNull)
    /\ (truthy (dflt (obj_get fields "startDate") VNull) = true ->
        obj_get filters "startDate" = dflt (obj_get fields "startDate") VNull
        /\ obj_get filters "endDate" = dflt (obj_get fields "endDate") VNull).
Proof.
  intros Hr Hr' Hdates.
  unfold Operations.getTransactions, param.
  cbn [prop obind].
  unfold bind at 1 2 3 4 5 6 7 8 9 10 11 12 13 14 15, lift.
  unfold bind at 1 2 3 4 5 6 7 8 9 10 11 12 13 14 15.
  unfold Operations.set_unless_null. rewrite !supplied_dflt.
  assert (Hflags :
            forall filters,
              (forall flag key,
                  In (flag, key) transaction_flags ->
                  obj_has filters key = supplied (obj_get fields flag)
                  /\ (supplied (obj_get fields flag) = true ->
                      obj_get filters key = dflt (obj_get fields flag) VNull)) ->
              forall flag key,
                In (flag, key) transaction_flags ->
                obj_has filters key = supplied (obj_get fields flag)
                /\ (supplied (obj_get fields flag) = true ->
                    obj_get filters key = obj_get fields flag)).
  { intros filters H flag key Hin. destruct (H flag key Hin) as [H1 H2].
    split; [exact H1|]. intros Hs. rewrite H2 by exact Hs. now apply dflt_supplied. }
  rewrite <- Hdates.
  destruct (truthy (dflt (obj_get fields "startDate") VNull)) eqn:Hs; cbn [andb orb].
  - eexists. split; [eapply dispatched_after; now rewrite gqlCall_dispatches|].
    split; [eapply dispatched_after; now rewrite gqlCall_dispatches'|].
    split; [now rewrite !obj_get_set_other, !obj_get_cond_other by reflexivity|].
    split; [now rewrite !obj_get_set_other, !obj_get_cond_other by reflexivity|].
    split; [now rewrite !obj_get_set_other, !obj_get_cond_other by reflexivity|].
    split; [now rewrite !obj_get_set_other, !obj_get_cond_other by reflexivity|].
    split.
    { apply Hflags. intros flag key Hin. unfold transaction_flags in Hin.
      repeat (destruct Hin as [Heq|Hin]; [inversion Heq; subst flag key; clear Heq|]);
        try contradiction;
        (split;
         [rewrite !obj_has_set, !obj_has_cond; cbn;
          now rewrite ?andb_false_r, ?andb_true_r, ?orb_false_r
         |intros Hsup;
          rewrite !obj_get_set_other by reflexivity;
          rewrite ?obj_get_cond_other by reflexivity;
          rewrite obj_get_cond_same; now rewrite Hsup]). }
    split; [rewrite !obj_has_set; cbn; reflexivity|].
    split; [rewrite !obj_has_set; cbn; reflexivity|].
    intros _. split.
    + rewrite obj_get_set_other by reflexivity. apply obj_get_set_same.
    + apply obj_get_set_same.
  - eexists. split; [eapply dispatched_after; now rewrite gqlCall_dispatches|].
    split; [eapply dispatched_after; now rewrite gqlCall_dispatches'|].
    split; [now rewrite !obj_get_cond_other by reflexivity|].
    split; [now rewrite !obj_get_cond_other by reflexivity|].
    split; [now rewrite !obj_get_cond_other by reflexivity|].
    split; [now rewrite !obj_get_cond_other by reflexivity|].
    split.
    { apply Hflags. intros flag key Hin. unfold transaction_flags in Hin.
      repeat (destruct Hin as [Heq|Hin]; [inversion Heq; subst flag key; clear Heq|]);
        try contradiction;
        (split;
         [rewrite !obj_has_cond; cbn;
          now rewrite ?andb_false_r, ?andb_true_r, ?orb_false_r
         |intros Hsup;
          rewrite ?obj_get_cond_other by reflexivity;
          rewrite obj_get_cond_same; now rewrite Hsup]). }
    split; [rewrite !obj_has_cond; cbn; now rewrite ?andb_false_r|].
    split; [rewrite !obj_has_cond; cbn; now rewrite ?andb_false_r|].
    discriminate.
Qed.

End TransactionFacts.



(** ** Answers are handed back as they come *)

Lemma api_hands_back_run (c : api_call) W (m : machine Session.t) :
  api_hands_back c = true ->
  has_token (Session.headers (prog m)) = true ->
  exists r,
    run_api c W m = (graphql_request W (sent m) r, after_request W m r)
    /\ api_query (prog m) r.
Proof.
  intros Hc Htok.
  destruct c; try discriminate Hc; cbn [run_api];
    cbv beta delta
      [Api.getAccounts Api.getAccountTypeOptions Api.getRecentAccountBalances
       Api.getAccountHoldings Api.getAccountHistory
       Api.getSubscriptionDetails Api.getInstitutions
       Api.getAccountSnapshotsByType Api.getAggregateSnapshots
       Api.getTransactions Api.getTransactionsSummary
       Api.getRecurringTransactions Api.getTransactionCategories
       Api.getTransactionCategoryGroups Api.getTransactionTags
       Api.getTransactionDetails Api.getTransactionSplits Api.getCashflow
       Api.getCashflowSummary Api.deleteTransactionCategory
       Api.createTransactionCategory Api.createTransactionTag
       Api.setTransactionTags Api.updateTransactionSplits
       Api.updateTransaction Api.setBudgetAmount Api.deleteTransaction
       Api.createTransaction Api.createManualAccount Api.updateAccount
       Api.deleteAccount Api.requestAccountsRefresh
       Api.isAccountsRefreshComplete Api.requestAccountsRefreshAndWait
       Api.getBudgets Api.deleteTransactionCategories
       Api.uploadAccountBalanceHistory Api.requestAccountsRefreshAndDontWait
       Api.getSchema Operations.getAccounts Operations.getAccountTypeOptions
       Operations.getRecentAccountBalances Operations.getAccountHoldings
       Operations.getAccountHistory Operations.getSubscriptionDetails
       Operations.getInstitutions Operations.getAccountSnapshotsByType
       Operations.getAggregateSnapshots Operations.getTransactions
       Operations.getTransactionsSummary Operations.getRecurringTransactions
       Operations.getTransactionCategories
       Operations.getTransactionCategoryGroups Operations.getTransactionTags
       Operations.getTransactionDetails Operations.getTransactionSplits
       Operations.getCashflow Operations.getCashflowSummary
       Operations.deleteTransactionCategory
       Operations.createTransactionCategory Operations.createTransactionTag
       Operations.setTransactionTags Operations.updateTransactionSplits
       Operations.updateTransaction Operations.setBudgetAmount
       Operations.deleteTransaction Operations.createTransaction
       Operations.createManualAccount Operations.updateAccount
       Operations.deleteAccount Operations.requestAccountsRefresh
       Operations.isAccountsRefreshComplete
       Operations.requestAccountsRefreshAndWait Operations.cashflow_call];
    cbn zeta;
    unfold bind, Operations.calendar, bind, Date_now, ask, ret;
    repeat match goal with
           | |- context [if ?b then _ else _] => destruct b
           end;
    rewrite api_gqlCall_dispatches by exact Htok;
    (eexists; split; [reflexivity|]; split; [exact Htok | eauto]).
Qed.

Lemma class_hands_back_run (c : class_call) W (m : machine MonarchMoney.t) :
  class_hands_back c = true ->
  exists r,
    run_class c W m = (graphql_request W (sent m) r, after_request W m r)
    /\ class_query (prog m) r.
Proof.
  intros Hc.
  destruct c; try discriminate Hc; cbn [run_class];
    cbv beta delta
      [MonarchMoney.getAccounts MonarchMoney.getAccountTypeOptions
       MonarchMoney.getRecentAccountBalances MonarchMoney.getAccountHoldings
       MonarchMoney.getAccountHistory MonarchMoney.getSubscriptionDetails
       MonarchMoney.getInstitutions MonarchMoney.getAccountSnapshotsByType
       MonarchMoney.getAggregateSnapshots MonarchMoney.getTransactions
       MonarchMoney.getTransactionsSummary
       MonarchMoney.getRecurringTransactions
       MonarchMoney.getTransactionCategories
       MonarchMoney.getTransactionCategoryGroups
       MonarchMoney.getTransactionTags MonarchMoney.getTransactionDetails
       MonarchMoney.getTransactionSplits MonarchMoney.getCashflow
       MonarchMoney.getCashflowSummary MonarchMoney.deleteTransactionCategory
       MonarchMoney.createTransactionCategory
       MonarchMoney.createTransactionTag MonarchMoney.setTransactionTags
       MonarchMoney.updateTransactionSplits MonarchMoney.updateTransaction
       MonarchMoney.setBudgetAmount MonarchMoney.deleteTransaction
       MonarchMoney.createTransaction MonarchMoney.createManualAccount
       MonarchMoney.updateAccount MonarchMoney.deleteAccount
       MonarchMoney.requestAccountsRefresh
       MonarchMoney.isAccountsRefreshComplete
       MonarchMoney.requestAccountsRefreshAndWait MonarchMoney.getBudgets
       MonarchMoney.deleteTransactionCategories
       MonarchMoney.uploadAccountBalanceHistory Operations.getAccounts
       Operations.getAccountTypeOptions Operations.getRecentAccountBalances
       Operations.getAccountHoldings Operations.getAccountHistory
       Operations.getSubscriptionDetails Operations.getInstitutions
       Operations.getAccountSnapshotsByType Operations.getAggregateSnapshots
       Operations.getTransactions Operations.getTransactionsSummary
       Operations.getRecurringTransactions
       Operations.getTransactionCategories
       Operations.getTransactionCategoryGroups Operations.getTransactionTags
       Operations.getTransactionDetails Operations.getTransactionSplits
       Operations.getCashflow Operations.getCashflowSummary
       Operations.deleteTransactionCategory
       Operations.createTransactionCategory Operations.createTransactionTag
       Operations.setTransactionTags Operations.updateTransactionSplits
       Operations.updateTransaction Operations.setBudgetAmount
       Operations.deleteTransaction Operations.createTransaction
       Operations.createManualAccount Operations.updateAccount
       Operations.deleteAccount Operations.requestAccountsRefresh
       Operations.isAccountsRefreshComplete
       Operations.requestAccountsRefreshAndWait Operations.cashflow_call];
    cbn zeta;
    unfold bind, Operations.calendar, bind, Date_now, ask, ret;
    repeat match goal with
           | |- context [if ?b then _ else _] => destruct b
           end;
    rewrite class_gqlCall_dispatches;
    (eexists; split; [reflexivity|]; red; eauto).
Qed.



(** ** Builders that take an argument object *)

(** X27. The builders that take their parameters as one object
    ([getTransactions], [getCashflow], [getCashflowSummary],
    [createTransactionCategory], [updateTransaction], [setBudgetAmount],
    [createTransaction]) have no default for that object: called with
    no argument (or with [null]) each of them fails with a [TypeError]
    while it reads its parameters, in both implementations, before
    anything is sent and whether or not a token is set. *)
Theorem builders_need_their_argument_object
    (W : world) (ms : machine Session.t) (mc : machine MonarchMoney.t) (args : value) :
  nullish args = true ->
  Forall (fun op => exists message, op args W ms = (Throw (VError TypeError message), ms))
    [Api.getTransactions; Api.getCashflow; Api.getCashflowSummary;
     Api.createTransactionCategory; Api.updateTransaction; Api.setBudgetAmount;
     Api.createTransaction]
  /\ Forall (fun op => exists message,
                 op args W mc = (Throw (VError TypeError message), mc))
       [MonarchMoney.getTransactions; MonarchMoney.getCashflow;
        MonarchMoney.getCashflowSummary; MonarchMoney.createTransactionCategory;
        MonarchMoney.updateTransaction; MonarchMoney.setBudgetAmount;
        MonarchMoney.createTransaction].
Proof.
  intros Hnull.
  split; repeat constructor; destruct args; try discriminate Hnull;
    eexists; reflexivity.
Qed.

Lemma builders_need_their_argument_object_witness :
  Forall (fun op => exists message,
              op VUndefined (Samples.graphql_world VNull) Samples.store_abc
              = (Throw (VError TypeError message), Samples.store_abc))
    [Api.getTransactions; Api.getCashflow; Api.getCashflowSummary;
     Api.createTransactionCategory; Api.updateTransaction; Api.setBudgetAmount;
     Api.createTransaction]
  /\ Forall (fun op => exists message,
                 op VUndefined (Samples.graphql_world VNull) Samples.instance_abc
                 = (Throw (VError TypeError message), Samples.instance_abc))
       [MonarchMoney.getTransactions; MonarchMoney.getCashflow;
        MonarchMoney.getCashflowSummary; MonarchMoney.createTransactionCategory;
        MonarchMoney.updateTransaction; MonarchMoney.setBudgetAmount;
        MonarchMoney.createTransaction].
Proof.
  apply (builders_need_their_argument_object (Samples.graphql_world VNull)
           Samples.store_abc Samples.instance_abc VUndefined).
  reflexivity.
Defined.

(** ** An invariant of the functional API *)

Lemma invariant_setToken disk v W (m : machine Session.t) :
  session_invariant disk m -> session_invariant disk (snd (Session.setToken v W m)).
Proof.
  intros (Hp & Hs & Hf).
  unfold Session.setToken, bind, get_prog, set_prog.
  split; [|split; [exact Hs | exact Hf]].
  cbn [snd prog Session.headers].
  rewrite lookup_insert_ne by discriminate. exact Hp.
Qed.

Lemma invariant_post disk W (m : machine Session.t) body :
  session_invariant disk m ->
  session_invariant disk
    (after_request W m (login_post (Session.headers (prog m)) body)).
Proof.
  intros (Hp & Hs & Hf). split; [exact Hp|]. split; [|exact Hf].
  cbn. apply Forall_app. split; [exact Hs|].
  constructor; [|constructor]. split; [exact Hp | discriminate].
Qed.

Lemma invariant_loginUser disk email password mfaSecretKey W (m : machine Session.t) :
  session_invariant disk m ->
  session_invariant disk (snd (Auth.loginUser email password mfaSecretKey W m)).
Proof.
  intros Hinv. unfold Auth.loginUser.
  destruct (truthy mfaSecretKey); [exact Hinv|].
  unfold Session.getHeaders, bind, ret, lift, get_prog, dispatch, throw.
  cbn [fst snd prog sent clock files].
  pose proof (invariant_post disk W m
                (VObj (Auth.URLSearchParams
                         [("password", password); ("supports_mfa", VBool true);
                          ("trusted_device", VBool false); ("username", email)]))
                Hinv) as Hpost.
  unfold after_request, login_post in Hpost.
  match goal with
  | |- context [fetch W ?h ?r] => destruct (fetch W h r) as [resp|e]
  end; [|exact Hpost].
  destruct (f_status resp =? 403); [exact Hpost|].
  destruct (negb (f_status resp =? 200)); [exact Hpost|].
  destruct (f_json resp) as [json|e]; [|exact Hpost].
  destruct (prop json "token") as [tok|e]; [|exact Hpost].
  now apply invariant_setToken.
Qed.

Lemma invariant_multiFactorAuthenticate disk email password code W
    (m : machine Session.t) :
  session_invariant disk m ->
  session_invariant disk (snd (Auth.multiFactorAuthenticate email password code W m)).
Proof.
  intros Hinv. unfold Auth.multiFactorAuthenticate.
  unfold Session.getHeaders, bind, ret, lift, get_prog, dispatch, throw.
  cbn [fst snd prog sent clock files].
  pose proof (invariant_post disk W m
                (VObj (Auth.URLSearchParams
                         [("password", password); ("supports_mfa", VBool true);
                          ("totp", code); ("trusted_device", VBool false);
                          ("username", email)]))
                Hinv) as Hpost.
  unfold after_request, login_post in Hpost.
  match goal with
  | |- context [fetch W ?h ?r] => destruct (fetch W h r) as [resp|e]
  end; [|exact Hpost].
  destruct (negb (f_status resp =? 200)).
  - destruct (f_json resp) as [json|e]; [|exact Hpost].
    destruct (prop json ERRORS_KEY) as [ec|e]; exact Hpost.
  - destruct (f_json resp) as [json|e]; [|exact Hpost].
    destruct (prop json "token") as [tok|e]; [|exact Hpost].
    now apply invariant_setToken.
Qed.

Lemma invariant_interactiveLogin disk question useSavedSession saveSessionFlag W
    (m : machine Session.t) :
  session_invariant disk m ->
  session_invariant disk
    (snd (interactiveLogin question useSavedSession saveSessionFlag W m)).
Proof.
  intros Hinv. unfold interactiveLogin, catch. cbn zeta.
  pose proof (invariant_loginUser disk (VStr (question "Email: "))
                (VStr (question "Password: ")) VUndefined W m Hinv) as Hlogin.
  destruct (Auth.loginUser _ _ _ W m) as [[[]|e] m1]; cbn [snd] in *; [exact Hlogin|].
  destruct (is_error_of RequireMFAException e); [|exact Hlogin].
  pose proof (invariant_multiFactorAuthenticate disk (VStr (question "Email: "))
                (VStr (question "Password: ")) (VStr (question "Two Factor Code: "))
                W m1 Hlogin) as Hmfa.
  unfold bind.
  destruct (Auth.multiFactorAuthenticate _ _ _ W m1) as [[[]|e'] m2]; cbn [snd] in *;
    [|exact Hmfa].
  destruct (truthy (dflt saveSessionFlag (VBool true))); exact Hmfa.
Qed.

Lemma invariant_call disk (c : api_call) W (m : machine Session.t) :
  session_invariant disk m -> session_invariant disk (snd (run_api c W m)).
Proof.
  intros (Hp & Hs & Hf).
  destruct (run_api_confined c W m) as (Hprog & Hfiles & added & Hsent & Hadded).
  split; [now rewrite Hprog|]. split; [|congruence].
  rewrite Hsent. apply Forall_app. split; [exact Hs|].
  eapply Forall_impl; [exact Hadded|].
  intros r [Htok (document & variables & ->)]. split; [exact Hp | intros _; exact Htok].
Qed.

Lemma invariant_perform disk a W (m : machine Session.t) :
  session_invariant disk m -> session_invariant disk (snd (perform a W m)).
Proof.
  intros Hinv. destruct a; cbn [perform].
  - now apply invariant_setToken.
  - now apply invariant_loginUser.
  - now apply invariant_multiFactorAuthenticate.
  - now apply invariant_interactiveLogin.
  - pose proof (invariant_call disk c W m Hinv) as Hc.
    unfold bind, ret. destruct (run_api c W m) as [[v|e] m1]; exact Hc.
Qed.

(** X29. An invariant of the functional API. Whatever a program does
    with it from a freshly loaded module, in any order and whatever the
    service answers (setting tokens, logging in with or without the
    console, answering the MFA challenge, calling queries and
    mutations, failing at any of them), every request it has sent names
    the client platform [web], every query call among them carries a
    token, the store still names the platform, and no file has been
    written or removed. *)
Theorem functional_api_invariant
    (W : world) (env disk : gmap string string) (now : Z)
    (actions : list session_action) :
  let m := perform_all actions W (Machine (Session.init env) now [] disk) in
  Session.headers (prog m) !! "Client-Platform" = Some "web"
  /\ Forall (fun r =>
               request_headers r !! "Client-Platform" = Some "web"
               /\ (is_graphql r = true -> has_token (request_headers r) = true))
       (sent m)
  /\ files m = disk.
Proof.
  cbn zeta.
  assert (Hstart : session_invariant disk (Machine (Session.init env) now [] disk)).
  { split; [|split; [constructor | reflexivity]].
    unfold Session.init. cbn.
    destruct (truthy (header env ENV_TOKEN_KEY)).
    - rewrite lookup_insert_ne by discriminate. apply lookup_singleton_eq.
    - apply lookup_singleton_eq. }
  revert Hstart. generalize (Machine (Session.init env) now [] disk).
  induction actions as [|a actions IH]; intros m Hinv; cbn [perform_all].
  - exact Hinv.
  - apply IH. now apply invariant_perform.
Qed.
